(** * tg-img: the upload and retrieval relay, embedded and verified

    The repository is a set of Next.js edge route handlers that relay
    files to and from the Telegram bot API and keep a rating / access
    log in a D1 table.  Four source units are embedded here:

    - [CfileA]    : src/unnamed/part_000, first document  (GET and POST)
    - [CfileB]    : src/unnamed/part_000, second document (GET)
    - [Upload]    : src/unnamed/part_001                  (POST)
    - [TgChannel] : src/src/app/api/tgchannel/route.js    (POST)

    A handler is a computation in a small monad [M]: it either returns
    a value or throws, and it emits the ordered list of the effects it
    performed (outbound HTTP calls, D1 statements, console lines).  What
    the outside answers (Telegram, the rating service, D1, the clock) is
    read from a [World]. *)

From Stdlib Require Import String Ascii List ZArith Bool Lia DecimalString.
From ExtLib Require Import Structures.Monad Structures.MonadExc.
Import ListNotations.
Import MonadNotation.
Local Open Scope string_scope.
Local Open Scope Z_scope.
Local Open Scope monad_scope.

(* ===================================================================== *)
(** ** JavaScript strings                                                 *)
(* ===================================================================== *)

Module Js.

(** [s.startsWith(p)] *)
Definition startsWith (s p : string) : bool := String.prefix p s.

(** Truthiness of a value that is a string, [null] or [undefined]:
    [None] stands for [null]/[undefined]; the empty string is falsy. *)
Definition truthy (v : option string) : option string :=
  match v with
  | Some EmptyString => None
  | Some s => Some s
  | None => None
  end.

(** [v || d] for such a value and a string default. *)
Definition or_default (v : option string) (d : string) : string :=
  match truthy v with
  | Some s => s
  | None => d
  end.

(** [a || b] where both sides are string-or-null. *)
Definition or_else (a b : option string) : option string :=
  match truthy a with
  | Some s => Some s
  | None => b
  end.

(** A template literal prints [undefined] for a missing value. *)
Definition template (v : option string) : string :=
  match v with
  | Some s => s
  | None => "undefined"
  end.

(** [s.split(c)[0]]: what precedes the first separator. *)
Fixpoint split_first (c : ascii) (s : string) : string :=
  match s with
  | EmptyString => EmptyString
  | String a r => if Ascii.eqb a c then EmptyString else String a (split_first c r)
  end.

(** [s.split(c).pop()]: what follows the last separator.  [acc] is the
    segment being read. *)
Fixpoint split_pop_from (c : ascii) (acc s : string) : string :=
  match s with
  | EmptyString => acc
  | String a r =>
      if Ascii.eqb a c then split_pop_from c EmptyString r
      else split_pop_from c (acc ++ String a EmptyString) r
  end.

Definition split_pop (c : ascii) (s : string) : string :=
  split_pop_from c EmptyString s.

(** White space of a header value (a byte string): TAB, LF, VT, FF, CR,
    SPACE and NBSP. *)
Definition is_space (a : ascii) : bool :=
  let n := N_of_ascii a in
  ((9 <=? n) && (n <=? 13) || (n =? 32) || (n =? 160))%N.

Fixpoint trim_start (s : string) : string :=
  match s with
  | EmptyString => EmptyString
  | String a r => if is_space a then trim_start r else s
  end.

Fixpoint rev_string (acc s : string) : string :=
  match s with
  | EmptyString => acc
  | String a r => rev_string (String a acc) r
  end.

(** [s.trim()] *)
Definition trim (s : string) : string :=
  rev_string EmptyString (trim_start (rev_string EmptyString (trim_start s))).

(** [encodeURIComponent]: the unreserved marks and alphanumerics stay,
    every other byte of the UTF-8 text becomes [%XX]. *)
Definition unreserved (a : ascii) : bool :=
  let n := N_of_ascii a in
  ((48 <=? n) && (n <=? 57) || (65 <=? n) && (n <=? 90) || (97 <=? n) && (n <=? 122)
   || (n =? 45) || (n =? 95) || (n =? 46) || (n =? 33) || (n =? 126)
   || (n =? 42) || (n =? 39) || (n =? 40) || (n =? 41))%N.

Definition hex_digit (n : N) : ascii :=
  if (n <? 10)%N then ascii_of_N (48 + n) else ascii_of_N (55 + n).

Fixpoint encodeURIComponent (s : string) : string :=
  match s with
  | EmptyString => EmptyString
  | String a r =>
      if unreserved a then String a (encodeURIComponent r)
      else
        let n := N_of_ascii a in
        String "%" (String (hex_digit (n / 16)) (String (hex_digit (n mod 16))
          (encodeURIComponent r)))
  end.

(** Decimal text of an integer, as a template literal prints it. *)
Definition number_text (z : Z) : string := NilZero.string_of_int (Z.to_int z).

(** *** What the runtime checks when a response is built

    The rules are those of the Fetch standard; the wording of the errors
    is the runtime's own. *)

(** HTTP white space: TAB, LF, CR and SPACE. *)
Definition is_http_space (a : ascii) : bool :=
  let n := N_of_ascii a in
  ((n =? 9) || (n =? 10) || (n =? 13) || (n =? 32))%N.

Fixpoint http_trim_start (s : string) : string :=
  match s with
  | EmptyString => EmptyString
  | String a r => if is_http_space a then http_trim_start r else s
  end.

(** A header value without its leading and trailing HTTP white space. *)
Definition http_trim (s : string) : string :=
  rev_string EmptyString (http_trim_start (rev_string EmptyString (http_trim_start s))).

(** A text all of whose code units are at most 255.  A text is kept in
    UTF-8, where a character above U+00FF starts with a byte from 0xC4
    on. *)
Fixpoint byte_string (s : string) : bool :=
  match s with
  | EmptyString => true
  | String a r => (N_of_ascii a <? 196)%N && byte_string r
  end.

(** No NUL, LF or CR. *)
Fixpoint header_clean (s : string) : bool :=
  match s with
  | EmptyString => true
  | String a r =>
      let n := N_of_ascii a in
      negb ((n =? 0) || (n =? 10) || (n =? 13))%N && header_clean r
  end.

(** What a [Headers] object stores for a value, given to [headers.set]
    or as a member of the [headers] of a response: the text must be a
    byte string; its leading and trailing HTTP white space is removed;
    what is left may hold no NUL, LF or CR.  [None]: a TypeError. *)
Definition header_value (value : string) : option string :=
  if byte_string value then
    if header_clean (http_trim value) then Some (http_trim value) else None
  else None.

(** The message of that TypeError; nothing below depends on its
    wording. *)
Definition header_error : string := "Invalid header value.".

(** A status with which no response has a body. *)
Definition null_body_status (code : Z) : bool :=
  match code with
  | 101 | 103 | 204 | 205 | 304 => true
  | _ => false
  end.

(** The statuses that [new Response(body, { status })] and
    [Response.json(data, { status })] accept: from 200 to 599 (a
    RangeError otherwise) and, the body not being null, no null body
    status (a TypeError otherwise). *)
Definition body_status (code : Z) : bool :=
  (200 <=? code) && (code <=? 599) && negb (null_body_status code).

(** The message of the error for a status that is not accepted;
    nothing below depends on its wording. *)
Definition status_error (code : Z) : string :=
  if (200 <=? code) && (code <=? 599)
  then "Response with null body status cannot have body"
  else "The status provided is outside the range [200, 599].".

End Js.

(* ===================================================================== *)
(** ** Data                                                               *)
(* ===================================================================== *)

(** One file object of a Telegram message: a photo size, a document, a
    video or an audio.  [file_name] is absent on photo sizes, and
    [file_size] is optional on every one of them: a member that is
    absent is [None] (JavaScript [undefined]). *)
Record TgFile : Type := mkTgFile {
  file_id : string;
  file_unique_id : string;
  file_name : option string;
  file_size : option Z
}.

(** [result] of a send call.  A field that is absent is [None]; an
    array, even an empty one, is truthy. *)
Record TgResult : Type := mkTgResult {
  photo : option (list TgFile);
  document : option TgFile;
  video : option TgFile;
  audio : option TgFile
}.

(** Body of a send call. *)
Record TgResponse : Type := mkTgResponse {
  ok : bool;
  result : option TgResult;
  description : option string
}.

(** Body of a [getFile] call. *)
Record GetFileResponse : Type := mkGetFileResponse {
  gf_ok : bool;
  gf_result : option (option string);   (* result, then result.file_path *)
  gf_description : option string
}.

(** JSON values that the handlers build or pass on. *)
Inductive json : Type :=
| JNull
| JBool (b : bool)
| JNum (z : Z)
| JStr (s : string)
| JTelegram (r : TgResponse).

(** Body of the rating service: the [rating_index] member, when the
    object has one. *)
Record RatingResponse : Type := mkRatingResponse {
  rating_index : option json
}.

(** What a file identity extraction returns. *)
Record FileData : Type := mkFileData {
  fd_file_id : string;
  fd_file_name : string
}.

(** A row of [imginfo]. *)
Record RatingRecord : Type := mkRatingRecord {
  url : string;
  referer : string;
  ip : string;
  rating : Z;
  total : Z;
  time : string
}.

(** The D1 binding [env.IMG]: the rows of [imginfo], in table order.  No
    key is declared on [url], so a path may occur more than once. *)
Definition D1 : Type := list RatingRecord.

(** [SELECT rating FROM imginfo WHERE url = ?] followed by [first()]:
    the [rating] column of the first row stored for the path, [None]
    (JavaScript [null]) when there is no such row. *)
Definition select_first (db : D1) (path : string) : option Z :=
  option_map rating (find (fun r => String.eqb (url r) path) db).

Record Env : Type := mkEnv {
  TG_BOT_TOKEN : string;
  TG_CHAT_ID : string;
  IMG : option D1;
  RATINGAPI : option string;
  ModerateContentApiKey : option string
}.

(** The [file] member of the submitted form. *)
Record File : Type := mkFile {
  f_name : string;
  f_type : string;
  f_size : Z
}.

Inductive FormEntry : Type :=
| NoEntry                      (* formData.get('file') === null *)
| TextEntry (s : string)       (* a plain string field *)
| FileEntry (f : File).

(** A request whose multipart body has been read: [request.formData()]
    has returned. *)
Record Request : Type := mkRequest {
  origin : string;                            (* new URL(request.url).origin *)
  header : string -> option string;           (* request.headers.get *)
  form_file : FormEntry;                      (* formData.get('file') *)
  socket : option (option string)             (* request.socket, then .remoteAddress *)
}.

Inductive Body : Type :=
| BodyNull
| BodyBytes (b : string)
| BodyJson (o : list (string * json)).

Record Response : Type := mkResponse {
  status : Z;
  headers : list (string * string);
  body : Body
}.

(** A response received by [fetch]. *)
Record Fetched (B : Type) : Type := mkFetched {
  up_status : Z;
  up_headers : list (string * string);
  up_body : B
}.
Arguments mkFetched {B} _ _ _.
Arguments up_status {B} _.
Arguments up_headers {B} _.
Arguments up_body {B} _.

(** [response.ok] *)
Definition up_ok {B} (r : Fetched B) : bool :=
  (200 <=? up_status r) && (up_status r <=? 299).

(* ===================================================================== *)
(** ** Effects                                                            *)
(* ===================================================================== *)

Inductive exc (A : Type) : Type :=
| Ret (a : A)
| Throw (msg : string).
Arguments Ret {A} _.
Arguments Throw {A} _.

Inductive event : Type :=
| HttpGet (target : string)
| HttpPost (target : string) (form : list (string * string))
| DbFirst (sql : string) (args : list json)
| DbRun (sql : string) (args : list json)
| Console (label : string)
| Extraction                  (* the file identity extraction is called *)
| ReadResult                  (* the [result] of a send response is inspected *)
| Deferred (e : event).       (* performed by a task given to ctx.waitUntil *)

Definition M (A : Type) : Type := (exc A * list event)%type.

Definition outcome {A} (m : M A) : exc A := fst m.
Definition trace {A} (m : M A) : list event := snd m.

Definition M_ret {A} (a : A) : M A := (Ret a, []).

Definition M_bind {A B} (m : M A) (f : A -> M B) : M B :=
  match m with
  | (Ret a, t) => let (r, t') := f a in (r, (t ++ t')%list)
  | (Throw e, t) => (Throw e, t)
  end.

Definition M_raise {A} (msg : string) : M A := (Throw msg, []).

Definition M_catch {A} (m : M A) (h : string -> M A) : M A :=
  match m with
  | (Ret a, t) => (Ret a, t)
  | (Throw e, t) => let (r, t') := h e in (r, (t ++ t')%list)
  end.

#[global] Instance Monad_M : Monad M :=
  {| ret := @M_ret; bind := @M_bind |}.

#[global] Instance Exc_M : MonadExc string M :=
  {| raise := @M_raise; catch := @M_catch |}.

Definition emit (e : event) : M unit := (Ret tt, [e]).

(** [console.error(label, ...)] / [console.log(label, ...)]: the label of
    the line is kept. *)
Definition console (label : string) : M unit := emit (Console label).

(** [ctx.waitUntil(task)]: the task's effects happen, marked as deferred;
    its result, also a rejection, reaches nobody. *)
Definition waitUntil {A} (task : M A) : M unit :=
  (Ret tt, map Deferred (trace task)).

(** A value produced by the outside: [await]ing it returns or throws. *)
Definition await {A} (x : exc A) : M A := (x, []).

(** What the outside answers during one request: one answer for each
    kind of call a handler makes. *)
Record World : Type := mkWorld {
  w_send : exc (Fetched (exc TgResponse));   (* POST bot<token>/send..., then .json() *)
  w_getFile : exc (exc GetFileResponse);     (* GET bot<token>/getFile, then .json() *)
  w_download : exc (Fetched string);         (* GET file/bot<token>/<path> *)
  w_rating : exc (exc RatingResponse);       (* GET <rating api>url=..., then .json() *)
  w_insert_log : option string;              (* INSERT INTO tgimglog: its error, if any *)
  w_select : option string;                  (* SELECT rating: its error, if any *)
  w_update : option string;                  (* UPDATE imginfo SET total: its error, if any *)
  w_insert_info : option string;             (* INSERT INTO imginfo: its error, if any *)
  w_now : string                             (* the formatted Asia/Shanghai time *)
}.

(** [await fetch(url)] followed by [await res.json()], for a call whose
    status is not looked at. *)
Definition fetch_json {B} (answer : exc (exc B)) (target : string) : M B :=
  emit (HttpGet target) ;;
  res <- await answer ;;
  await res.

(** [stmt.bind(args).run()]: the statement is sent; a failure is the
    rejection of the promise that [run] returns. *)
Definition db_run (failure : option string) (sql : string) (args : list json) : M unit :=
  emit (DbRun sql args) ;;
  match failure with
  | Some e => raise e
  | None => ret tt
  end.

(** [await stmt.bind(path).first()] *)
Definition db_first (db : D1) (failure : option string) (sql : string) (path : string)
  : M (option Z) :=
  emit (DbFirst sql [JStr path]) ;;
  match failure with
  | Some e => raise e
  | None => ret (select_first db path)
  end.

Definition api : string := "https://api.telegram.org/bot".
Definition file_api : string := "https://api.telegram.org/file/bot".

Definition sql_insert_log : string :=
  "INSERT INTO tgimglog (url, referer, ip, time) VALUES (?, ?, ?, ?)".
Definition sql_select_rating : string :=
  "SELECT rating FROM imginfo WHERE url = ?".
Definition sql_update_total : string :=
  "UPDATE imginfo SET total = total + 1 WHERE url = ?;".
Definition sql_insert_info : string :=
  "INSERT INTO imginfo (url, referer, ip, rating, total, time) VALUES (?, ?, ?, ?, 1, ?)".

(** [arr.reduce(f)] with no initial value. *)
Definition reduce {A} (f : A -> A -> A) (l : list A) : M A :=
  match l with
  | [] => raise "Reduce of empty array with no initial value"
  | x :: xs => ret (fold_left f xs x)
  end.

(** [a > b] on numbers that may be [undefined]: [undefined] becomes
    NaN, and every comparison with NaN is false. *)
Definition greater (a b : option Z) : bool :=
  match a, b with
  | Some x, Some y => x >? y
  | _, _ => false
  end.

(** [(prev, current) => (prev.file_size > current.file_size) ? prev : current] *)
Definition larger (prev current : TgFile) : TgFile :=
  if greater (file_size prev) (file_size current) then prev else current.

(** [file.file_name || file.file_unique_id] *)
Definition name_or_unique (f : TgFile) : string :=
  Js.or_default (file_name f) (file_unique_id f).

(** [{ endpoint, formFieldName }] *)
Record Endpoint : Type := mkEndpoint {
  endpoint : string;
  formFieldName : string
}.

(** The double quote character of a [Content-Disposition] value. *)
Definition dquote : string := String (ascii_of_nat 34) EmptyString.

Definition lower_ascii (a : ascii) : ascii :=
  let n := N_of_ascii a in
  if ((65 <=? n) && (n <=? 90))%N then ascii_of_N (n + 32) else a.

Fixpoint lower (s : string) : string :=
  match s with
  | EmptyString => EmptyString
  | String a r => String (lower_ascii a) (lower r)
  end.

(** [headers.set(name, value)]: header names compare without case. *)
Definition headers_set (hs : list (string * string)) (name value : string)
  : list (string * string) :=
  (filter (fun h => negb (String.eqb (lower (fst h)) (lower name))) hs
     ++ [(name, value)])%list.

(** [a || b || c] on objects, which are truthy when present. *)
Definition first_present {A} (a b c : option A) : option A :=
  match a with
  | Some x => Some x
  | None => match b with Some y => Some y | None => c end
  end.

(** [Response.redirect(target, code)] *)
Definition redirect (target : string) (code : Z) : Response :=
  mkResponse code [("Location", target)] BodyNull.

(** The value stored for a header of a response being built; the
    TypeError of a refused value is thrown where the response is built. *)
Definition header_value (value : string) : M string :=
  match Js.header_value value with
  | Some stored => ret stored
  | None => raise Js.header_error
  end.

(** [new Response(body, { status, headers })] and
    [Response.json(data, { status, headers })] with a status that is not
    a constant of the code. *)
Definition respond (code : Z) (hs : list (string * string)) (b : Body) : M Response :=
  if Js.body_status code then ret (mkResponse code hs b)
  else raise (Js.status_error code).

(** [env.RATINGAPI || (env.ModerateContentApiKey ? `...key=${key}&` : null)] *)
Definition ratingApiBase (env : Env) : option string :=
  match Js.truthy (RATINGAPI env) with
  | Some base => Some base
  | None =>
      match Js.truthy (ModerateContentApiKey env) with
      | Some key => Some ("https://api.moderatecontent.com/moderate/?key=" ++ key ++ "&")
      | None => None
      end
  end.

(** [v ?? d] *)
Definition nullish (v : option json) (d : json) : json :=
  match v with
  | None | Some JNull => d
  | Some x => x
  end.

(* ===================================================================== *)
(** ** src/unnamed/part_000, first document: GET and POST                 *)
(* ===================================================================== *)

Module CfileA.

Definition corsHeaders : list (string * string) :=
  [("Access-Control-Allow-Origin", "*");
   ("Access-Control-Allow-Methods", "GET, POST, OPTIONS");
   ("Access-Control-Allow-Headers", "Content-Type");
   ("Access-Control-Max-Age", "86400")].

(** [{ ...corsHeaders, 'Content-Type': 'application/json' }] *)
Definition jsonHeaders : list (string * string) :=
  (corsHeaders ++ [("Content-Type", "application/json")])%list.

Definition OPTIONS : M Response := ret (mkResponse 204 corsHeaders BodyNull).

Definition getNowTime (w : World) : string := w_now w.

Definition getFilePathFromTelegram (env : Env) (w : World) (file_id : string)
  : M (option string) :=
  let target := api ++ TG_BOT_TOKEN env ++ "/getFile?file_id=" ++ file_id in
  catch
    (responseData <- fetch_json (w_getFile w) target ;;
     if gf_ok responseData then
       match gf_result responseData with
       | Some file_path => ret file_path
       | None => raise "Cannot read properties of undefined (reading 'file_path')"
       end
     else
       console "getFile_path failed:" ;;
       ret None)
    (fun _ => console "Error in getFile_path fetch:" ;; ret None).

Definition insertViewLog (DB : D1) (w : World) (target referer ip time : string) : M unit :=
  catch
    (db_run (w_insert_log w) sql_insert_log [JStr target; JStr referer; JStr ip; JStr time])
    (fun _ => console "插入 tgimglog 失败:").

Definition getRatingFromDb (DB : D1) (w : World) (urlPath : string) : M (option Z) :=
  catch
    (result <- db_first DB (w_select w) sql_select_rating urlPath ;;
     match result with
     | Some _ => waitUntil (db_run (w_update w) sql_update_total [JStr urlPath])
     | None => ret tt
     end ;;
     ret result)
    (fun _ => console "从数据库获取评级失败:" ;; ret None).

(** [`inline; filename="${fileName}"`] *)
Definition disposition (fileName : string) : string :=
  "inline; filename=" ++ dquote ++ fileName ++ dquote.

(** The file response, once [Content-Disposition] has been set to
    [value]. *)
Definition file_response (telegramResponse : Fetched string) (value : string) : Response :=
  mkResponse 200
    (headers_set (up_headers telegramResponse) "Content-Disposition" value)
    (BodyBytes (up_body telegramResponse)).

(** Both serving branches:
    [responseHeaders.set("Content-Disposition", ...)], then
    [new Response(..., { status: 200, headers: responseHeaders })]. *)
Definition serve (telegramResponse : Fetched string) (fileName : string) : M Response :=
  value <- header_value (disposition fileName) ;;
  ret (file_response telegramResponse value).

(** [request.headers.get('Referer') || "Referer not found"] *)
Definition referer_of (request : Request) : string :=
  Js.or_default (header request "Referer") "Referer not found".

Definition isAdminReferer (request : Request) : bool :=
  Js.startsWith (referer_of request) (origin request ++ "/admin")
  || Js.startsWith (referer_of request) (origin request ++ "/list").

Definition urlPath (file_id : string) : string := "/api/cfile/" ++ file_id.

Definition GET (request : Request) (file_id : string) (env : Env) (w : World) : M Response :=
  let clientIp := Js.or_default (header request "CF-Connecting-IP") "IP not found" in
  let referer := referer_of request in
  catch
    (file_path <- getFilePathFromTelegram env w file_id ;;
     match Js.truthy file_path with
     | None =>
         ret (mkResponse 502 jsonHeaders
                (BodyJson [("message", JStr "从 Telegram API 获取文件路径失败。请检查 file_id 是否有效或服务器日志。");
                           ("success", JBool false)]))
     | Some file_path =>
         let fileName := Js.split_pop "/" file_path in
         let fileUrl := file_api ++ TG_BOT_TOKEN env ++ "/" ++ file_path in
         emit (HttpGet fileUrl) ;;
         telegramResponse <- await (w_download w) ;;
         if negb (up_ok telegramResponse) then
           let errorText := up_body telegramResponse in
           respond (up_status telegramResponse) jsonHeaders
             (BodyJson [("message", JStr ("从 Telegram API 下载文件失败。上游API返回: " ++ errorText));
                        ("success", JBool false)])
         else
           match isAdminReferer request, IMG env with
           | false, Some DB =>
               let nowTime := getNowTime w in
               let urlPath := urlPath file_id in
               waitUntil (insertViewLog DB w urlPath referer clientIp nowTime) ;;
               ratingInfo <- getRatingFromDb DB w urlPath ;;
               if match ratingInfo with Some r => r =? 3 | None => false end then
                 ret (redirect (origin request ++ "/img/blocked.png") 302)
               else
                 serve telegramResponse fileName
           | _, _ => serve telegramResponse fileName
           end
     end)
    (fun message =>
       console "GET handler unexpected error:" ;;
       ret (mkResponse 500 jsonHeaders
              (BodyJson [("message", JStr ("服务器内部错误: " ++ message));
                         ("success", JBool false)]))).

Definition getTelegramEndpoint (fileType : string) : Endpoint :=
  if Js.startsWith fileType "image/" then mkEndpoint "sendPhoto" "photo"
  else if Js.startsWith fileType "video/" then mkEndpoint "sendVideo" "video"
  else if Js.startsWith fileType "audio/" then mkEndpoint "sendAudio" "audio"
  else mkEndpoint "sendDocument" "document".

Definition extractFileData (responseData : TgResponse) : M (option FileData) :=
  emit Extraction ;;
  if negb (ok responseData) then ret None
  else
    emit ReadResult ;;
    match result responseData with
    | None => raise "Cannot read properties of undefined (reading 'photo')"
    | Some result =>
        match photo result with
        | Some sizes =>
            largestPhoto <- reduce larger sizes ;;
            ret (Some (mkFileData (file_id largestPhoto) (file_unique_id largestPhoto)))
        | None =>
            match first_present (document result) (video result) (audio result) with
            | Some file => ret (Some (mkFileData (file_id file) (name_or_unique file)))
            | None => ret None
            end
        end
    end.

Definition insertUploadData (db : D1) (w : World) (src referer ip : string)
  (rating : json) (time : string) : M unit :=
  catch
    (db_run (w_insert_info w) sql_insert_info
       [JStr src; JStr referer; JStr ip; rating; JStr time])
    (fun _ => console "插入 imginfo 失败:").

Definition getRatingFromApi (env : Env) (w : World) (file_id : string) : M json :=
  filePath <- getFilePathFromTelegram env w file_id ;;
  match Js.truthy filePath with
  | None => ret (JNum (-1))
  | Some filePath =>
      match ratingApiBase env with
      | None => ret (JNum 0)
      | Some ratingApiBase =>
          catch
            (let fullFileUrl := file_api ++ TG_BOT_TOKEN env ++ "/" ++ filePath in
             let ratingApiUrl := ratingApiBase ++ "url=" ++ Js.encodeURIComponent fullFileUrl in
             data <- fetch_json (w_rating w) ratingApiUrl ;;
             ret (nullish (rating_index data) (JNum (-1))))
            (fun _ => console "调用评级 API 出错:" ;; ret (JNum (-1)))
      end
  end.

Definition POST (request : Request) (env : Env) (w : World) : M Response :=
  catch
    (let clientIp := Js.or_default (header request "CF-Connecting-IP") "IP not found" in
     let referer := Js.or_default (header request "Referer") "Referer not found" in
     match form_file request with
     | FileEntry file =>
         let e := getTelegramEndpoint (f_type file) in
         let telegramApiUrl := api ++ TG_BOT_TOKEN env ++ "/" ++ endpoint e in
         emit (HttpPost telegramApiUrl
                 [("chat_id", TG_CHAT_ID env); (formFieldName e, f_name file)]) ;;
         telegramResponse <- await (w_send w) ;;
         telegramResult <- await (up_body telegramResponse) ;;
         if negb (up_ok telegramResponse) || negb (ok telegramResult) then
           console "上传到 Telegram 失败。API 响应:" ;;
           ret (mkResponse 502 jsonHeaders
                  (BodyJson [("message", JStr "上传文件到 Telegram 失败。");
                             ("telegram_response", JTelegram telegramResult)]))
         else
           fileData <- extractFileData telegramResult ;;
           match fileData with
           | None =>
               console "无法从 Telegram 响应中提取文件数据:" ;;
               ret (mkResponse 500 jsonHeaders
                      (BodyJson [("message", JStr "无法处理 Telegram 的响应。")]))
           | Some fileData =>
               let responsePayload :=
                 [("url", JStr (origin request ++ "/api/cfile/" ++ fd_file_id fileData));
                  ("code", JNum 200);
                  ("name", JStr (fd_file_name fileData))] in
               waitUntil
                 (match IMG env with
                  | Some DB =>
                      let nowTime := getNowTime w in
                      ratingIndex <- getRatingFromApi env w (fd_file_id fileData) ;;
                      insertUploadData DB w ("/api/cfile/" ++ fd_file_id fileData)
                        referer clientIp ratingIndex nowTime
                  | None => ret tt
                  end) ;;
               ret (mkResponse 200 jsonHeaders (BodyJson responsePayload))
           end
     | NoEntry | TextEntry _ =>
         ret (mkResponse 400 jsonHeaders
                (BodyJson [("message", JStr "未提供文件或文件无效。")]))
     end)
    (fun message =>
       console "POST 处理函数中发生意外错误:" ;;
       ret (mkResponse 500 jsonHeaders
              (BodyJson [("message", JStr ("发生意外错误: " ++ message))]))).

End CfileA.

(* ===================================================================== *)
(** ** src/unnamed/part_000, second document: GET                         *)
(* ===================================================================== *)

Module CfileB.

Definition corsHeaders : list (string * string) :=
  [("Access-Control-Allow-Origin", "*");
   ("Access-Control-Allow-Headers", "Content-Type");
   ("Access-Control-Max-Age", "86400");
   ("Content-Type", "application/json")].

(** The string is what the handler's own formatter prints. *)
Definition get_nowTime (w : World) : string := w_now w.

Definition getFile_path (env : Env) (w : World) (file_id : string) : M string :=
  catch
    (let target := api ++ TG_BOT_TOKEN env ++ "/getFile?file_id=" ++ file_id in
     responseData <- fetch_json (w_getFile w) target ;;
     if gf_ok responseData then
       match gf_result responseData with
       | None => raise "Cannot read properties of undefined (reading 'file_path')"
       | Some file_path =>
           match Js.truthy file_path with
           | Some file_path => ret file_path
           | None => console "getFile_path failed:" ;; ret "error"
           end
       end
     else
       console "getFile_path failed:" ;;
       ret "error")
    (fun _ => console "Error in getFile_path:" ;; ret "error").

Definition insertTgImgLog (DB : D1) (w : World) (target referer ip time : string) : M unit :=
  catch
    (db_run (w_insert_log w) sql_insert_log [JStr target; JStr referer; JStr ip; JStr time])
    (fun _ => console "Failed to insert into tgimglog:").

Definition getRating (DB : D1) (w : World) (target : string) : M (option Z) :=
  catch
    (db_first DB (w_select w) sql_select_rating target)
    (fun _ => console "Failed to get rating from DB:" ;; ret None).

(** [`attachment; filename=${fileName}`] *)
Definition disposition (fileName : string) : string :=
  "attachment; filename=" ++ fileName.

(** The file response, [Content-Disposition] being stored as [value]. *)
Definition file_response (res : Fetched string) (value : string) : Response :=
  mkResponse 200 [("Content-Disposition", value)] (BodyBytes (up_body res)).

(** [new Response(fileBuffer, { headers: { "Content-Disposition": ... } })] *)
Definition serve (res : Fetched string) (fileName : string) : M Response :=
  value <- header_value (disposition fileName) ;;
  ret (file_response res value).

(** [Response.json({ status, message, success: false }, { status, headers })] *)
Definition failure (code : Z) (message : string) : M Response :=
  respond code corsHeaders
    (BodyJson [("status", JNum code); ("message", JStr message); ("success", JBool false)]).

(** [request.headers.get('Referer') || "Referer not found"] *)
Definition Referer_of (request : Request) : string :=
  Js.or_default (header request "Referer") "Referer not found".

(** The referer part of the serving test. *)
Definition trustedReferer (request : Request) : bool :=
  String.eqb (Referer_of request) (origin request ++ "/admin")
  || String.eqb (Referer_of request) (origin request ++ "/list")
  || String.eqb (Referer_of request) (origin request ++ "/").

Definition cfilePath (name : string) : string := "/cfile/" ++ name.

Definition GET (request : Request) (name : string) (env : Env) (w : World) : M Response :=
  let ip :=
    Js.or_else (header request "x-forwarded-for")
      (Js.or_else (header request "x-real-ip")
         (match socket request with
          | Some remoteAddress => remoteAddress
          | None => None
          end)) in
  let clientIp :=
    match Js.truthy ip with
    | Some ip => Js.trim (Js.split_first "," ip)
    | None => "IP not found"
    end in
  let Referer := Referer_of request in
  catch
    (file_path <- getFile_path env w name ;;
     if String.eqb file_path "error" then
       failure 500
         "从 Telegram API 获取文件路径失败 (Failed to get file path from Telegram API)."
     else
       let fileName := Js.split_pop "/" file_path in
       emit (HttpGet (file_api ++ TG_BOT_TOKEN env ++ "/" ++ file_path)) ;;
       res <- await (w_download w) ;;
       if up_ok res then
         match trustedReferer request, IMG env with
         | false, Some DB =>
             let nowTime := get_nowTime w in
             insertTgImgLog DB w (cfilePath name) Referer clientIp nowTime ;;
             rating <- getRating DB w (cfilePath name) ;;
             match rating with
             | Some rating =>
                 catch
                   (waitUntil (db_run (w_update w) sql_update_total [JStr (cfilePath name)]))
                   (fun message => console message) ;;
                 if rating =? 3 then
                   ret (redirect (origin request ++ "/img/blocked.png") 302)
                 else
                   serve res fileName
             | None =>
                 failure 404
                   "无法找到该资源的评级信息 (Rating information not found for this resource)."
             end
         | _, _ => serve res fileName
         end
       else
         let errorText := up_body res in
         failure (up_status res)
           ("从 Telegram API 获取文件失败。上游API返回: " ++ errorText))
    (fun message => failure 500 ("服务器内部错误: " ++ message)).

(** The two helpers below are declared in the file and called by
    nothing in it. *)

Definition insertImgInfo (DB : D1) (w : World) (target referer ip : string)
  (rating : json) (time : string) : M unit :=
  catch
    (db_run (w_insert_info w) sql_insert_info
       [JStr target; JStr referer; JStr ip; rating; JStr time])
    (fun _ => console "Failed to insert into imginfo:").

Definition getModerateContentRating (env : Env) (w : World) (target : string) : M json :=
  catch
    (let apikey := ModerateContentApiKey env in
     let ModerateContentUrl :=
       match Js.truthy apikey with
       | Some apikey => "https://api.moderatecontent.com/moderate/?key=" ++ apikey ++ "&"
       | None => ""
       end in
     let ratingApi :=
       match Js.truthy (RATINGAPI env) with
       | Some base => base ++ "?"
       | None => ModerateContentUrl
       end in
     match Js.truthy (Some ratingApi) with
     | Some ratingApi =>
         console ("Fetching rating from: " ++ ratingApi ++ "url=https://telegra.ph" ++ target) ;;
         data <- fetch_json (w_rating w) (ratingApi ++ "url=https://telegra.ph" ++ target) ;;
         let rating_index :=
           match rating_index data with
           | Some v => v
           | None => JNum (-1)
           end in
         ret rating_index
     | None => ret (JNum 0)
     end)
    (fun _ => console "Error in getModerateContentRating:" ;; ret (JNum (-1))).

(** [s.replace(/\//g, '-')] *)
Fixpoint dashes (s : string) : string :=
  match s with
  | EmptyString => EmptyString
  | String a r => String (if Ascii.eqb a "/" then "-"%char else a) (dashes r)
  end.

(** The text [get_nowTime] makes of the parts the formatter gives:
    [parts.map(p => p.value).join('').replace(/\//g, '-')]. *)
Definition formattedDate (parts : list string) : string :=
  dashes (String.concat "" parts).

End CfileB.

(* ===================================================================== *)
(** ** src/unnamed/part_001: POST                                         *)
(* ===================================================================== *)

Module Upload.

Definition corsHeaders : list (string * string) :=
  [("Access-Control-Allow-Origin", "*");
   ("Access-Control-Allow-Methods", "POST, OPTIONS");
   ("Access-Control-Allow-Headers", "Content-Type");
   ("Access-Control-Max-Age", "86400")].

Definition jsonHeaders : list (string * string) :=
  (corsHeaders ++ [("Content-Type", "application/json")])%list.

Definition OPTIONS : M Response := ret (mkResponse 204 corsHeaders BodyNull).

Definition getTelegramEndpoint (fileType : string) : Endpoint :=
  if Js.startsWith fileType "image/" then mkEndpoint "sendPhoto" "photo"
  else if Js.startsWith fileType "video/" then mkEndpoint "sendVideo" "video"
  else if Js.startsWith fileType "audio/" then mkEndpoint "sendAudio" "audio"
  else mkEndpoint "sendDocument" "document".

Definition extractFileData (responseData : TgResponse) : M (option FileData) :=
  emit Extraction ;;
  if negb (ok responseData) then ret None
  else
    emit ReadResult ;;
    match result responseData with
    | None => raise "Cannot read properties of undefined (reading 'photo')"
    | Some result =>
        match photo result with
        | Some sizes =>
            largestPhoto <- reduce larger sizes ;;
            ret (Some (mkFileData (file_id largestPhoto) (file_unique_id largestPhoto)))
        | None =>
            match first_present (document result) (video result) (audio result) with
            | Some file => ret (Some (mkFileData (file_id file) (name_or_unique file)))
            | None => ret None
            end
        end
    end.

Definition insertImageData (db : D1) (w : World) (src referer ip : string)
  (rating : json) (time : string) : M unit :=
  catch
    (db_run (w_insert_info w) sql_insert_info
       [JStr src; JStr referer; JStr ip; rating; JStr time])
    (fun _ => console "Database insert error:").

Definition getNowTime (w : World) : string := w_now w.

Definition getFilePath (env : Env) (w : World) (file_id : string) : M (option string) :=
  let target := api ++ TG_BOT_TOKEN env ++ "/getFile?file_id=" ++ file_id in
  catch
    (data <- fetch_json (w_getFile w) target ;;
     if gf_ok data then
       match gf_result data with
       | Some file_path => ret file_path
       | None => raise "Cannot read properties of undefined (reading 'file_path')"
       end
     else
       console "Failed to get file path from Telegram:" ;;
       ret None)
    (fun _ => console "Error fetching file path:" ;; ret None).

Definition getRating (env : Env) (w : World) (file_id : string) : M json :=
  filePath <- getFilePath env w file_id ;;
  match Js.truthy filePath with
  | None => ret (JNum (-1))
  | Some filePath =>
      match ratingApiBase env with
      | None => ret (JNum 0)
      | Some ratingApi =>
          catch
            (let fullApiUrl :=
               ratingApi ++ "url=" ++ file_api ++ TG_BOT_TOKEN env ++ "/" ++ filePath in
             data <- fetch_json (w_rating w) fullApiUrl ;;
             ret (nullish (rating_index data) (JNum (-1))))
            (fun _ => console "Rating API error:" ;; ret (JNum (-1)))
      end
  end.

Definition POST (request : Request) (env : Env) (w : World) : M Response :=
  catch
    (let clientIp := Js.or_default (header request "CF-Connecting-IP") "IP not found" in
     let referer := Js.or_default (header request "Referer") "Referer not found" in
     match form_file request with
     | FileEntry file =>
         let e := getTelegramEndpoint (f_type file) in
         let telegramApiUrl := api ++ TG_BOT_TOKEN env ++ "/" ++ endpoint e in
         emit (HttpPost telegramApiUrl
                 [("chat_id", TG_CHAT_ID env); (formFieldName e, f_name file)]) ;;
         telegramResponse <- await (w_send w) ;;
         telegramResult <- await (up_body telegramResponse) ;;
         if negb (up_ok telegramResponse) || negb (ok telegramResult) then
           console "Failed to upload to Telegram. API Response:" ;;
           ret (mkResponse 502 jsonHeaders
                  (BodyJson [("message", JStr "Failed to upload file to Telegram.");
                             ("telegram_response", JTelegram telegramResult)]))
         else
           fileData <- extractFileData telegramResult ;;
           match fileData with
           | None =>
               console "Could not extract file data from Telegram response:" ;;
               ret (mkResponse 500 jsonHeaders
                      (BodyJson [("message", JStr "Could not process Telegram response.")]))
           | Some fileData =>
               let responsePayload :=
                 [("url", JStr (origin request ++ "/api/cfile/" ++ fd_file_id fileData));
                  ("code", JNum 200);
                  ("name", JStr (fd_file_name fileData))] in
               waitUntil
                 (match IMG env with
                  | Some DB =>
                      let nowTime := getNowTime w in
                      ratingIndex <- getRating env w (fd_file_id fileData) ;;
                      insertImageData DB w ("/cfile/" ++ fd_file_id fileData)
                        referer clientIp ratingIndex nowTime
                  | None => ret tt
                  end) ;;
               ret (mkResponse 200 jsonHeaders (BodyJson responsePayload))
           end
     | NoEntry | TextEntry _ =>
         ret (mkResponse 400 jsonHeaders
                (BodyJson [("message", JStr "File not provided or is invalid.")]))
     end)
    (fun message =>
       console "An unexpected error occurred in the POST handler:" ;;
       ret (mkResponse 500 jsonHeaders
              (BodyJson [("message", JStr ("An unexpected error occurred: " ++ message))]))).

End Upload.

(* ===================================================================== *)
(** ** src/src/app/api/tgchannel/route.js: POST                           *)
(* ===================================================================== *)

Module TgChannel.

Definition corsHeaders : list (string * string) :=
  [("Access-Control-Allow-Origin", "*");
   ("Access-Control-Allow-Headers", "Content-Type");
   ("Access-Control-Max-Age", "86400");
   ("Content-Type", "application/json")].

(** [fileTypeMap], in key order; its members [url] and [type] are the
    [endpoint] and the form field name the handler destructures them to. *)
Definition fileTypeMap : list (string * Endpoint) :=
  [("image/", mkEndpoint "sendPhoto" "photo");
   ("video/", mkEndpoint "sendVideo" "video");
   ("audio/", mkEndpoint "sendAudio" "audio");
   ("application/pdf", mkEndpoint "sendDocument" "document")].

Definition defaultType : Endpoint := mkEndpoint "sendDocument" "document".

(** [Object.keys(fileTypeMap).find(key => fileType.startsWith(key))
       ? fileTypeMap[Object.keys(fileTypeMap).find(...)] : defaultType],
    destructured. *)
Definition selectEndpoint (fileType : string) : M Endpoint :=
  match find (fun key => Js.startsWith fileType key) (map fst fileTypeMap) with
  | Some key =>
      match Js.truthy (Some key) with
      | Some key =>
          match find (fun entry => String.eqb (fst entry) key) fileTypeMap with
          | Some entry => ret (snd entry)
          | None => raise "Cannot destructure property 'url' of undefined"
          end
      | None => ret defaultType
      end
  | None => ret defaultType
  end.

Definition getFile_path (env : Env) (w : World) (file_id : string) : M (option string) :=
  catch
    (let target := api ++ TG_BOT_TOKEN env ++ "/getFile?file_id=" ++ file_id in
     responseData <- fetch_json (w_getFile w) target ;;
     if gf_ok responseData then
       match gf_result responseData with
       | Some file_path => ret file_path
       | None => raise "Cannot read properties of undefined (reading 'file_path')"
       end
     else ret (Some "error"))
    (fun _ => ret (Some "error")).

Definition getFileDetails (file : TgFile) : FileData :=
  mkFileData (file_id file) (name_or_unique file).

Definition getFile (response : TgResponse) : M (option FileData) :=
  emit Extraction ;;
  catch
    (if negb (ok response) then ret None
     else
       emit ReadResult ;;
       match result response with
       | None => raise "Cannot read properties of undefined (reading 'photo')"
       | Some result =>
           match photo result with
           | Some sizes =>
               largestPhoto <- reduce larger sizes ;;
               ret (Some (getFileDetails largestPhoto))
           | None =>
               match video result with
               | Some file => ret (Some (getFileDetails file))
               | None =>
                   match document result with
                   | Some file => ret (Some (getFileDetails file))
                   | None => ret None
                   end
               end
           end
       end)
    (fun _ => console "Error getting file id:" ;; ret None).

(** A value inside a template literal. *)
Definition json_text (v : json) : string :=
  match v with
  | JNull => "null"
  | JBool true => "true"
  | JBool false => "false"
  | JNum z => Js.number_text z
  | JStr s => s
  | JTelegram _ => "[object Object]"
  end.

Definition newline : string := String (ascii_of_nat 10) EmptyString.

(** The statement of [insertImageData]: the values are written into
    its text. *)
Definition insert_statement (src referer ip : string) (rating : json) (time : string)
  : string :=
  "INSERT INTO imginfo (url, referer, ip, rating, total, time)" ++ newline
  ++ "           VALUES ('" ++ src ++ "', '" ++ referer ++ "', '" ++ ip ++ "', "
  ++ json_text rating ++ ", 1, '" ++ time ++ "')".

Definition insertImageData (env : D1) (w : World) (src referer ip : string)
  (rating : json) (time : string) : M unit :=
  catch
    (db_run (w_insert_info w) (insert_statement src referer ip rating time) [])
    (fun _ => ret tt).

Definition get_nowTime (w : World) : string := w_now w.

Definition getRating (env : Env) (w : World) (target : string) : M json :=
  catch
    (file_path <- getFile_path env w target ;;
     let apikey := ModerateContentApiKey env in
     let ModerateContentUrl :=
       match Js.truthy apikey with
       | Some apikey => "https://api.moderatecontent.com/moderate/?key=" ++ apikey ++ "&"
       | None => ""
       end in
     let ratingApi :=
       match Js.truthy (RATINGAPI env) with
       | Some base => base ++ "?"
       | None => ModerateContentUrl
       end in
     match Js.truthy (Some ratingApi) with
     | Some ratingApi =>
         data <- fetch_json (w_rating w)
                   (ratingApi ++ "url=" ++ file_api ++ TG_BOT_TOKEN env ++ "/"
                    ++ Js.template file_path) ;;
         let rating_index :=
           match rating_index data with
           | Some v => v
           | None => JNum (-1)
           end in
         ret rating_index
     | None => ret (JNum 0)
     end)
    (fun _ => ret (JNum (-1))).

Definition POST (request : Request) (env : Env) (w : World) : M Response :=
  ip <- match Js.truthy (Js.or_else (header request "x-forwarded-for")
                           (header request "x-real-ip")) with
        | Some v => ret (Some v)
        | None =>
            match socket request with
            | Some remoteAddress => ret remoteAddress
            | None => raise "Cannot read properties of undefined (reading 'remoteAddress')"
            end
        end ;;
  let clientIp :=
    match Js.truthy ip with
    | Some ip => Js.trim (Js.split_first "," ip)
    | None => "IP not found"
    end in
  let Referer := Js.or_default (header request "Referer") "Referer" in
  fileType <- match form_file request with
              | NoEntry => raise "Cannot read properties of null (reading 'type')"
              | TextEntry _ => ret None
              | FileEntry file => ret (Some (f_type file))
              end ;;
  e <- match fileType with
       | Some fileType => selectEndpoint fileType
       | None => raise "Cannot read properties of undefined (reading 'startsWith')"
       end ;;
  let file_name_sent :=
    match form_file request with
    | FileEntry file => f_name file
    | TextEntry s => s
    | NoEntry => "null"
    end in
  let up_url := api ++ TG_BOT_TOKEN env ++ "/" ++ endpoint e in
  console "--- Preparing to send request to Telegram ---" ;;
  console "Request URL:" ;;
  console "File Type Value (form key):" ;;
  console "FormData Content:" ;;
  console "--- End of request logging ---" ;;
  catch
    (emit (HttpPost up_url [("chat_id", TG_CHAT_ID env); (formFieldName e, file_name_sent)]) ;;
     res_img <- await (w_send w) ;;
     responseData <- await (up_body res_img) ;;
     fileData <- getFile responseData ;;
     match fileData with
     | None =>
         console "Failed to upload to Telegram. API Response:" ;;
         ret (mkResponse 500 corsHeaders
                (BodyJson [("status", JNum 500);
                           ("message", JStr "Failed to upload file to Telegram.");
                           ("success", JBool false);
                           ("telegram_response", JTelegram responseData)]))
     | Some fileData =>
         let data :=
           [("url", JStr (origin request ++ "/api/cfile/" ++ fd_file_id fileData));
            ("code", JNum 200);
            ("name", JStr (fd_file_name fileData))] in
         match IMG env with
         | None =>
             ret (mkResponse 200 corsHeaders
                    (BodyJson (data ++ [("env_img", JStr "null"); ("msg", JStr "1")])%list))
         | Some DB =>
             catch
               (rating_index <- getRating env w (fd_file_id fileData) ;;
                let nowTime := get_nowTime w in
                insertImageData DB w ("/cfile/" ++ fd_file_id fileData)
                  Referer clientIp rating_index nowTime ;;
                ret (mkResponse 200 corsHeaders
                       (BodyJson (data ++ [("msg", JStr "2");
                                           ("Referer", JStr Referer);
                                           ("clientIp", JStr clientIp);
                                           ("rating_index", rating_index);
                                           ("nowTime", JStr nowTime)])%list)))
               (fun message =>
                  console message ;;
                  insertImageData DB w ("/cfile/" ++ fd_file_id fileData)
                    Referer clientIp (JNum (-1)) "unknown_time" ;;
                  ret (mkResponse 500 corsHeaders (BodyJson [("msg", JStr message)])))
         end
     end)
    (fun message =>
       console "An unexpected error occurred in the POST handler:" ;;
       ret (mkResponse 500 corsHeaders
              (BodyJson [("status", JNum 500);
                         ("message", JStr (" " ++ message));
                         ("success", JBool false)]))).

End TgChannel.

(* ===================================================================== *)
(** ** The handler variants side by side                                  *)
(* ===================================================================== *)

Inductive retrieval : Type := RetrievalA | RetrievalB.

Inductive upload : Type := UploadCfile | UploadPart | UploadTgChannel.

Definition GET (v : retrieval) : Request -> string -> Env -> World -> M Response :=
  match v with
  | RetrievalA => CfileA.GET
  | RetrievalB => CfileB.GET
  end.

Definition POST (v : upload) : Request -> Env -> World -> M Response :=
  match v with
  | UploadCfile => CfileA.POST
  | UploadPart => Upload.POST
  | UploadTgChannel => TgChannel.POST
  end.

(** The allow-list test each retrieval handler applies to the referer. *)
Definition trusted (v : retrieval) (request : Request) : bool :=
  match v with
  | RetrievalA => CfileA.isAdminReferer request
  | RetrievalB => CfileB.trustedReferer request
  end.

(** The path under which each retrieval handler looks the rating up. *)
Definition retrieval_path (v : retrieval) (file_id : string) : string :=
  match v with
  | RetrievalA => CfileA.urlPath file_id
  | RetrievalB => CfileB.cfilePath file_id
  end.

(** Step 1 of a retrieval: the path the identifier resolves to, [None]
    when the handler takes the resolution as failed. *)
Definition resolved_path (v : retrieval) (env : Env) (w : World) (file_id : string)
  : option string :=
  match v with
  | RetrievalA =>
      match outcome (CfileA.getFilePathFromTelegram env w file_id) with
      | Ret file_path => Js.truthy file_path
      | Throw _ => None
      end
  | RetrievalB =>
      match outcome (CfileB.getFile_path env w file_id) with
      | Ret file_path => if String.eqb file_path "error" then None else Some file_path
      | Throw _ => None
      end
  end.

(** The [Content-Disposition] text each retrieval handler writes for a
    file name. *)
Definition disposition_text (v : retrieval) (fileName : string) : string :=
  match v with
  | RetrievalA => CfileA.disposition fileName
  | RetrievalB => CfileB.disposition fileName
  end.

(** The runtime takes that text as a header value, for the file name of
    a path: its last segment. *)
Definition name_accepted (v : retrieval) (file_path : string) : bool :=
  match Js.header_value (disposition_text v (Js.split_pop "/" file_path)) with
  | Some _ => true
  | None => false
  end.

(** The file response each retrieval handler builds, the header being
    stored without the white space around it. *)
Definition served (v : retrieval) (res : Fetched string) (file_path : string) : Response :=
  match v with
  | RetrievalA =>
      CfileA.file_response res
        (Js.http_trim (CfileA.disposition (Js.split_pop "/" file_path)))
  | RetrievalB =>
      CfileB.file_response res
        (Js.http_trim (CfileB.disposition (Js.split_pop "/" file_path)))
  end.

(** The endpoint choice of each upload handler. *)
Definition endpoint_of (v : upload) (fileType : string) : M Endpoint :=
  match v with
  | UploadCfile => ret (CfileA.getTelegramEndpoint fileType)
  | UploadPart => ret (Upload.getTelegramEndpoint fileType)
  | UploadTgChannel => TgChannel.selectEndpoint fileType
  end.

(** The file identity extraction of each upload handler. *)
Definition extract_of (v : upload) (response : TgResponse) : M (option FileData) :=
  match v with
  | UploadCfile => CfileA.extractFileData response
  | UploadPart => Upload.extractFileData response
  | UploadTgChannel => TgChannel.getFile response
  end.

(** The rating computation of each upload handler's bookkeeping. *)
Definition rating_of (v : upload) (env : Env) (w : World) (file_id : string) : M json :=
  match v with
  | UploadCfile => CfileA.getRatingFromApi env w file_id
  | UploadPart => Upload.getRating env w file_id
  | UploadTgChannel => TgChannel.getRating env w file_id
  end.

(** *** Observing a run *)

Fixpoint performed (e : event) : event :=
  match e with
  | Deferred e' => performed e'
  | _ => e
  end.

Definition is_update_total (e : event) : bool :=
  match performed e with
  | DbRun sql _ => String.eqb sql sql_update_total
  | _ => false
  end.

Definition is_log_insert (e : event) : bool :=
  match performed e with
  | DbRun sql _ => String.eqb sql sql_insert_log
  | _ => false
  end.

Definition is_rating_query (e : event) : bool :=
  match performed e with
  | DbFirst _ _ => true
  | _ => false
  end.

Definition is_store_call (e : event) : bool :=
  match performed e with
  | DbFirst _ _ | DbRun _ _ => true
  | _ => false
  end.

Definition is_outbound (e : event) : bool :=
  match performed e with
  | HttpGet _ | HttpPost _ _ => true
  | _ => false
  end.

(** The extraction is attempted: its helper is called or, further in,
    the [result] is read. *)
Definition is_extraction (e : event) : bool :=
  match performed e with
  | Extraction | ReadResult => true
  | _ => false
  end.

Definition is_result_read (e : event) : bool :=
  match performed e with
  | ReadResult => true
  | _ => false
  end.

(** An entry that carries its size, and that size. *)
Definition has_size (p : TgFile) : bool :=
  match file_size p with
  | Some _ => true
  | None => false
  end.

Definition size_of (p : TgFile) : Z :=
  match file_size p with
  | Some bytes => bytes
  | None => 0
  end.

Definition is_console (e : event) : bool :=
  match performed e with
  | Console _ => true
  | _ => false
  end.

Definition count (p : event -> bool) (t : list event) : nat := length (filter p t).

Definition never (p : event -> bool) (t : list event) : Prop := filter p t = [].

Definition status_of (r : exc Response) : option Z :=
  match r with
  | Ret resp => Some (status resp)
  | Throw _ => None
  end.

Definition returns_bytes (r : exc Response) : bool :=
  match r with
  | Ret resp => match body resp with BodyBytes _ => true | _ => false end
  | Throw _ => false
  end.

(** A member of a JSON object body. *)
Definition member (key : string) (r : Response) : option json :=
  match body r with
  | BodyJson o => option_map snd (find (fun kv => String.eqb (fst kv) key) o)
  | _ => None
  end.

(** The same world with another answer for the [UPDATE] of [total]. *)
Definition with_update (w : World) (failure : option string) : World :=
  mkWorld (w_send w) (w_getFile w) (w_download w) (w_rating w)
    (w_insert_log w) (w_select w) failure (w_insert_info w) (w_now w).

(** The same world with other answers for what the upload bookkeeping
    calls: [getFile], the rating service and the [INSERT] into [imginfo]. *)
Definition with_bookkeeping (w : World) (getFile : exc (exc GetFileResponse))
  (rate : exc (exc RatingResponse)) (insert : option string) : World :=
  mkWorld (w_send w) getFile (w_download w) rate
    (w_insert_log w) (w_select w) (w_update w) insert (w_now w).

Definition member_of (key : string) (r : exc Response) : option json :=
  match r with
  | Ret resp => member key resp
  | Throw _ => None
  end.

(** The submitted form carries a file object under [file]. *)
Definition has_file (request : Request) : bool :=
  match form_file request with
  | FileEntry _ => true
  | NoEntry | TextEntry _ => false
  end.

(** The client address is at hand: a forwarding header carries it or the
    request has a socket.  The tgchannel handler reads
    [request.socket.remoteAddress] when neither header is set. *)
Definition has_client_address (request : Request) : bool :=
  match Js.truthy (Js.or_else (header request "x-forwarded-for")
                     (header request "x-real-ip")) with
  | Some _ => true
  | None => match socket request with Some _ => true | None => false end
  end.

(** The console line each deferred bookkeeping writes when its insert
    fails; the tgchannel handler writes none. *)
Definition insert_failure_line (v : upload) : option string :=
  match v with
  | UploadCfile => Some "插入 imginfo 失败:"
  | UploadPart => Some "Database insert error:"
  | UploadTgChannel => None
  end.

(** *** The prefix rule, in the words of the specification *)

Definition prefix_rule (t : string) : Endpoint :=
  if Js.startsWith t "image/" then mkEndpoint "sendPhoto" "photo"
  else if Js.startsWith t "video/" then mkEndpoint "sendVideo" "video"
  else if Js.startsWith t "audio/" then mkEndpoint "sendAudio" "audio"
  else mkEndpoint "sendDocument" "document".

Definition routes (t : string) (e : Endpoint) : Prop :=
  (Js.startsWith t "image/" = true -> e = mkEndpoint "sendPhoto" "photo")
  /\ (Js.startsWith t "video/" = true -> e = mkEndpoint "sendVideo" "video")
  /\ (Js.startsWith t "audio/" = true -> e = mkEndpoint "sendAudio" "audio")
  /\ (Js.startsWith t "image/" = false ->
      Js.startsWith t "video/" = false ->
      Js.startsWith t "audio/" = false ->
      e = mkEndpoint "sendDocument" "document").

(** *** The cases of the rating computation *)

Inductive rating_case : Type :=
| PathFails        (* resolving the file path fails *)
| NotConfigured    (* no moderation key and no rating-API base *)
| ServiceFails     (* the call to the rating service fails *)
| NoRatingIndex.   (* the service answers without a rating index *)

(** The path the backend gives for the file, if it gives one. *)
Definition bookkeeping_path (w : World) : option string :=
  match w_getFile w with
  | Ret (Ret data) =>
      if gf_ok data then
        match gf_result data with
        | Some file_path => Js.truthy file_path
        | None => None
        end
      else None
  | _ => None
  end.

Definition resolves (w : World) : bool :=
  match bookkeeping_path w with
  | Some _ => true
  | None => false
  end.

Definition configured (env : Env) : bool :=
  match Js.truthy (RATINGAPI env), Js.truthy (ModerateContentApiKey env) with
  | None, None => false
  | _, _ => true
  end.

(** When a case applies.  A failed path resolution is a case of its own
    in the two handlers that test for it; the other cases are those of a
    resolved path. *)
Definition in_case (v : upload) (env : Env) (w : World) (c : rating_case) : bool :=
  match c with
  | PathFails =>
      negb (resolves w)
      && match v with UploadTgChannel => false | _ => true end
  | NotConfigured => resolves w && negb (configured env)
  | ServiceFails =>
      resolves w && configured env
      && match w_rating w with Ret (Ret _) => false | _ => true end
  | NoRatingIndex =>
      resolves w && configured env
      && match w_rating w with
         | Ret (Ret data) =>
             match rating_index data with None => true | Some _ => false end
         | _ => false
         end
  end.

Definition expected_rating (c : rating_case) : Z :=
  match c with
  | NotConfigured => 0
  | PathFails | ServiceFails | NoRatingIndex => -1
  end.

(* ===================================================================== *)
(** ** Concrete requests and worlds                                       *)
(* ===================================================================== *)

Module Sample.

Definition headers_of (referer : string) : string -> option string :=
  fun name =>
    if String.eqb name "Referer" then Some referer
    else if String.eqb name "x-forwarded-for" then Some "203.0.113.7, 10.0.0.1"
    else None.

Definition jpeg : File := mkFile "cat.jpg" "image/jpeg" 10240.

Definition visitor : Request :=
  mkRequest "https://img.example" (headers_of "https://else.example/page")
    (FileEntry jpeg) None.

Definition admin : Request :=
  mkRequest "https://img.example" (headers_of "https://img.example/admin")
    (FileEntry jpeg) None.

Definition no_file : Request :=
  mkRequest "https://img.example" (headers_of "https://else.example/page") NoEntry None.

Definition blocked_rows : D1 :=
  [mkRatingRecord "/api/cfile/F1" "-" "-" 3 1 "-";
   mkRatingRecord "/cfile/F1" "-" "-" 3 1 "-"].

Definition env : Env := mkEnv "TOKEN" "-1001" (Some blocked_rows) None (Some "KEY").

Definition env_plain : Env := mkEnv "TOKEN" "-1001" (Some blocked_rows) None None.

Definition size (id : string) (bytes : Z) : TgFile :=
  mkTgFile id ("u-" ++ id) None (Some bytes).

Definition three_sizes : list TgFile :=
  [size "small" 1000; size "large" 5000; size "medium" 3000].

Definition tied_sizes : list TgFile := [size "first" 5000; size "second" 5000].

Definition photo_message (sizes : list TgFile) : TgResponse :=
  mkTgResponse true (Some (mkTgResult (Some sizes) None None None)) None.

Definition audio_message : TgResponse :=
  mkTgResponse true
    (Some (mkTgResult None None None
             (Some (mkTgFile "AUD" "u-AUD" (Some "song.mp3") (Some 4096)))))
    None.

Definition refusal : TgResponse := mkTgResponse false None (Some "Bad Request").

Definition path_found : exc (exc GetFileResponse) :=
  Ret (Ret (mkGetFileResponse true (Some (Some "photos/file_1.jpg")) None)).

Definition path_unknown : exc (exc GetFileResponse) :=
  Ret (Ret (mkGetFileResponse false None (Some "Bad Request: invalid file_id"))).

Definition world (sent : TgResponse) (getFile : exc (exc GetFileResponse))
  (download : Fetched string) : World :=
  mkWorld (Ret (mkFetched 200 [] (Ret sent))) getFile (Ret download)
    (Ret (Ret (mkRatingResponse (Some (JNum 1)))))
    None None None None "2026-11-03 12:00:00".

Definition jpeg_bytes : Fetched string :=
  mkFetched 200 [("content-type", "image/jpeg")] "JPEG".

Definition fine : World := world (photo_message three_sizes) path_found jpeg_bytes.

Definition unresolved : World := world (photo_message three_sizes) path_unknown jpeg_bytes.

Definition gone : World :=
  world (photo_message three_sizes) path_found (mkFetched 404 [] "Not Found").

Definition refused : World := world refusal path_found jpeg_bytes.

(** As [fine], but the [SELECT] on [imginfo] throws. *)
Definition lookup_down : World :=
  mkWorld (w_send fine) (w_getFile fine) (w_download fine) (w_rating fine)
    None (Some "D1_ERROR") None None (w_now fine).

Definition audio_sent : World := world audio_message path_found jpeg_bytes.

(** A request with a file and nothing that tells the client address. *)
Definition anonymous : Request :=
  mkRequest "https://img.example" (fun _ => None) (FileEntry jpeg) None.

Definition other_rows : D1 := [mkRatingRecord "/api/cfile/F1" "-" "-" 1 7 "-"].

Definition env_rated : Env := mkEnv "TOKEN" "-1001" (Some other_rows) None (Some "KEY").

Definition env_unbound : Env := mkEnv "TOKEN" "-1001" None None (Some "KEY").

Definition env_custom : Env :=
  mkEnv "TOKEN" "-1001" None (Some "https://rate.example/check") (Some "KEY").

Definition env_empty : Env := mkEnv "TOKEN" "-1001" (Some []) None (Some "KEY").

Definition document_file : TgFile :=
  mkTgFile "DOC" "u-DOC" (Some "report.pdf") (Some 2048).

Definition video_file : TgFile := mkTgFile "VID" "u-VID" None (Some 9000).

Definition mixed_message : TgResponse :=
  mkTgResponse true
    (Some (mkTgResult None (Some document_file) (Some video_file) None)) None.

Definition empty_message : TgResponse :=
  mkTgResponse true (Some (mkTgResult None None None None)) None.

Definition no_sizes_message : TgResponse :=
  mkTgResponse true (Some (mkTgResult (Some []) (Some document_file) None None)) None.

Definition mixed_sent : World := world mixed_message path_found jpeg_bytes.

Definition empty_sent : World := world empty_message path_found jpeg_bytes.

Definition no_sizes_sent : World := world no_sizes_message path_found jpeg_bytes.

(** The send call itself fails. *)
Definition unreachable : World :=
  mkWorld (Throw "network down") path_found (Ret jpeg_bytes)
    (Ret (Ret (mkRatingResponse (Some (JNum 1))))) None None None None
    "2026-11-03 12:00:00".

(** The backend accepts the file in its body but answers with status 500. *)
Definition bad_gateway : World :=
  mkWorld (Ret (mkFetched 500 [] (Ret (photo_message three_sizes)))) path_found
    (Ret jpeg_bytes) (Ret (Ret (mkRatingResponse (Some (JNum 1)))))
    None None None None "2026-11-03 12:00:00".

(** The rating service answers 3. *)
Definition rated_three : World :=
  mkWorld (w_send fine) (w_getFile fine) (w_download fine)
    (Ret (Ret (mkRatingResponse (Some (JNum 3))))) None None None None (w_now fine).

(** The rating service answers with a null index. *)
Definition rated_null : World :=
  mkWorld (w_send fine) (w_getFile fine) (w_download fine)
    (Ret (Ret (mkRatingResponse (Some JNull)))) None None None None (w_now fine).

(** The byte fetch itself fails. *)
Definition download_down : World :=
  mkWorld (w_send fine) (w_getFile fine) (Throw "network down") (w_rating fine)
    None None None None (w_now fine).

(** The backend resolves the identifier to the path [error]. *)
Definition path_named_error : World :=
  world (photo_message three_sizes)
    (Ret (Ret (mkGetFileResponse true (Some (Some "error")) None))) jpeg_bytes.

(** A photo list whose middle entry carries no size. *)
Definition unsized_middle : list TgFile :=
  [size "big" 5000; mkTgFile "bare" "u-bare" None None; size "small" 1000].

(** The byte fetch is answered 304, as to a conditional request. *)
Definition not_modified : World :=
  world (photo_message three_sizes) path_found (mkFetched 304 [] EmptyString).

(** The backend resolves the identifier to a path whose last segment has
    a character above U+00FF. *)
Definition path_wide_name : World :=
  world (photo_message three_sizes)
    (Ret (Ret (mkGetFileResponse true (Some (Some "photos/文件.jpg")) None))) jpeg_bytes.

End Sample.

(* ===================================================================== *)
(** ** Further observations                                               *)
(* ===================================================================== *)

(** The same world with another answer to the send call. *)
Definition with_send (w : World) (sent : exc (Fetched (exc TgResponse))) : World :=
  mkWorld sent (w_getFile w) (w_download w) (w_rating w)
    (w_insert_log w) (w_select w) (w_update w) (w_insert_info w) (w_now w).

(** The same world with another answer for the [INSERT] into [tgimglog]. *)
Definition with_insert_log (w : World) (failure : option string) : World :=
  mkWorld (w_send w) (w_getFile w) (w_download w) (w_rating w)
    failure (w_select w) (w_update w) (w_insert_info w) (w_now w).

(** What the rating lookup of a retrieval comes back with: the stored
    rating, or nothing when there is no row or the statement fails. *)
Definition looked_up (w : World) (DB : D1) (path : string) : option Z :=
  match w_select w with
  | None => select_first DB path
  | Some _ => None
  end.

(** The first call of a retrieval. *)
Definition getFile_call (env : Env) (file_id : string) : event :=
  HttpGet (api ++ TG_BOT_TOKEN env ++ "/getFile?file_id=" ++ file_id).

(** The [Content-Disposition] value each retrieval handler's file
    response carries. *)
Definition disposition (v : retrieval) (fileName : string) : string :=
  Js.http_trim (disposition_text v fileName).

Fixpoint has_slash (s : string) : bool :=
  match s with
  | EmptyString => false
  | String a r => Ascii.eqb a "/" || has_slash r
  end.

(** The answer each retrieval handler gives to an identifier that does
    not resolve. *)
Definition unresolved_status (v : retrieval) : Z :=
  match v with
  | RetrievalA => 502
  | RetrievalB => 500
  end.

(** The path under which each upload handler records the file. *)
Definition stored_path (v : upload) (file_id : string) : string :=
  match v with
  | UploadCfile => "/api/cfile/" ++ file_id
  | UploadPart | UploadTgChannel => "/cfile/" ++ file_id
  end.

(** The referer and the client address each upload handler records. *)
Definition upload_referer (v : upload) (request : Request) : string :=
  match v with
  | UploadCfile | UploadPart =>
      Js.or_default (header request "Referer") "Referer not found"
  | UploadTgChannel => Js.or_default (header request "Referer") "Referer"
  end.

(** The headers each upload handler puts on its responses. *)
Definition upload_headers (v : upload) : list (string * string) :=
  match v with
  | UploadCfile => CfileA.jsonHeaders
  | UploadPart => Upload.jsonHeaders
  | UploadTgChannel => TgChannel.corsHeaders
  end.

(** The message of the 500 each upload handler makes of an exception. *)
Definition unexpected_message (v : upload) (msg : string) : string :=
  match v with
  | UploadCfile => "发生意外错误: " ++ msg
  | UploadPart => "An unexpected error occurred: " ++ msg
  | UploadTgChannel => " " ++ msg
  end.

(** The URL of the file that each rating computation hands to the
    rating service, after the base. *)
Definition rating_query (v : upload) (env : Env) (file_path : string) : string :=
  match v with
  | UploadCfile =>
      "url=" ++ Js.encodeURIComponent (file_api ++ TG_BOT_TOKEN env ++ "/" ++ file_path)
  | UploadPart => "url=" ++ file_api ++ TG_BOT_TOKEN env ++ "/" ++ file_path
  | UploadTgChannel => "?url=" ++ file_api ++ TG_BOT_TOKEN env ++ "/" ++ file_path
  end.

(** *** The rows of [imginfo] after a run *)

(** [INSERT INTO imginfo (...) VALUES (?, ?, ?, ?, 1, ?)], once it has
    succeeded: a row is added, with [total] 1.  The bound values must be
    four texts and a number. *)
Definition add_record (db : D1) (args : list json) : option D1 :=
  match args with
  | [JStr u; JStr r; JStr i; JNum z; JStr t] =>
      Some (db ++ [mkRatingRecord u r i z 1 t])%list
  | _ => None
  end.

(** [UPDATE imginfo SET total = total + 1 WHERE url = ?], once it has
    succeeded. *)
Definition count_hit (db : D1) (path : string) : D1 :=
  map (fun r =>
         if String.eqb (url r) path
         then mkRatingRecord (url r) (referer r) (ip r) (rating r) (total r + 1) (time r)
         else r)
      db.

(** The rows once every statement of a trace has settled, a statement
    taking effect when the world lets it succeed.  [None]: the trace has
    a statement on [imginfo] that is not one of the two bound ones. *)
Fixpoint store_after (w : World) (db : D1) (t : list event) : option D1 :=
  match t with
  | [] => Some db
  | e :: t' =>
      match performed e with
      | DbRun sql args =>
          if String.eqb sql sql_insert_info then
            match w_insert_info w with
            | Some _ => store_after w db t'
            | None =>
                match add_record db args with
                | Some db' => store_after w db' t'
                | None => None
                end
            end
          else if String.eqb sql sql_update_total then
            match w_update w, args with
            | Some _, _ => store_after w db t'
            | None, [JStr path] => store_after w (count_hit db path) t'
            | None, _ => None
            end
          else if String.eqb sql sql_insert_log then store_after w db t'
          else None
      | _ => store_after w db t'
      end
  end.

(** *** Predicates of the further properties *)

(** Only console lines. *)
Definition quiet (t : list event) : Prop := Forall (fun e => is_console e = true) t.

Definition reaches_gate (v : retrieval) (request : Request) (id : string) (env : Env)
  (w : World) : bool :=
  match resolved_path v env w id, w_download w, IMG env with
  | Some _, Ret res, Some _ => up_ok res && negb (trusted v request)
  | _, _, _ => false
  end.

(** The retrieval handler that looks where an upload handler writes. *)
Definition reader (v : upload) : retrieval :=
  match v with
  | UploadCfile => RetrievalA
  | UploadPart | UploadTgChannel => RetrievalB
  end.

Definition other (r : retrieval) : retrieval :=
  match r with
  | RetrievalA => RetrievalB
  | RetrievalB => RetrievalA
  end.

(** The statuses an upload handler answers with. *)
Definition upload_statuses (v : upload) : list Z :=
  match v with
  | UploadCfile | UploadPart => [200; 400; 500; 502]
  | UploadTgChannel => [200; 500]
  end.

Definition well_formed_upload_response (v : upload) (resp : Response) : Prop :=
  headers resp = upload_headers v
  /\ (exists payload, body resp = BodyJson payload)
  /\ In (status resp) (upload_statuses v).

(** What a helper that swallows the failure of its one statement does. *)
Definition swallowed (failure : option string) (statement : event) (m : M unit) : Prop :=
  outcome m = Ret tt
  /\ filter is_store_call (trace m) = [statement]
  /\ never is_outbound (trace m)
  /\ count is_console (trace m) = match failure with Some _ => 1 | None => 0 end%nat.

(* ===================================================================== *)
(** ** Running a handler symbolically                                     *)
(* ===================================================================== *)

(** The leaves of a handler stay folded while its control flow is run. *)
#[local] Arguments up_ok : simpl never.
#[local] Arguments Z.eqb : simpl never.
#[local] Arguments String.append : simpl never.
#[local] Arguments select_first : simpl never.
#[local] Arguments headers_set : simpl never.
#[local] Arguments name_or_unique : simpl never.
#[local] Arguments ratingApiBase : simpl never.
#[local] Arguments prefix_rule : simpl never.
#[local] Arguments Js.truthy : simpl never.
#[local] Arguments Js.or_default : simpl never.
#[local] Arguments Js.or_else : simpl never.
#[local] Arguments Js.split_pop : simpl never.
#[local] Arguments Js.split_first : simpl never.
#[local] Arguments Js.trim : simpl never.
#[local] Arguments Js.startsWith : simpl never.
#[local] Arguments Js.encodeURIComponent : simpl never.
#[local] Arguments Js.template : simpl never.
#[local] Arguments CfileA.isAdminReferer : simpl never.
#[local] Arguments CfileB.trustedReferer : simpl never.
#[local] Arguments TgChannel.json_text : simpl never.
#[local] Arguments TgChannel.insert_statement : simpl never.
#[local] Arguments Js.header_value : simpl never.
#[local] Arguments Js.http_trim : simpl never.
#[local] Arguments Js.status_error : simpl never.
#[local] Arguments Js.body_status : simpl nomatch.
#[local] Arguments CfileA.disposition : simpl never.
#[local] Arguments CfileB.disposition : simpl never.

(** One case split on the innermost undecided test of the goal. *)
Ltac case_step :=
  match goal with
  | |- context [match ?x with _ => _ end] =>
      lazymatch x with
      | context [match _ with _ => _ end] => fail
      | _ => destruct x eqn:?
      end
  end.

(** Compute, rewrite with what is known ([rw]), split; until done. *)
Ltac simp rw := repeat (progress (cbn in *; rw)).
Ltac run_with rw := simp rw; repeat (case_step; simp rw).
Ltac run := run_with idtac.

Ltac finish :=
  intros;
  repeat match goal with
    | H : negb _ = true |- _ => apply negb_true_iff in H
    | H : negb _ = false |- _ => apply negb_false_iff in H
    | H : (_, _) = (_, _) |- _ => injection H as ? ?
    end;
  subst; cbn in *;
  try split; congruence.

Ltac unfold_get :=
  unfold GET, CfileA.GET, CfileB.GET,
    CfileA.getFilePathFromTelegram, CfileB.getFile_path,
    CfileA.getRatingFromDb, CfileB.getRating,
    CfileA.insertViewLog, CfileB.insertTgImgLog,
    CfileA.serve, CfileB.serve, CfileB.failure, header_value, respond,
    fetch_json, db_first, db_run, waitUntil, await, console, emit,
    trusted, retrieval_path, resolved_path.

(* ===================================================================== *)
(** ** The monad of handlers                                              *)
(* ===================================================================== *)

Section MonadLaws.

Context {A B C : Type}.

Lemma M_bind_ret_l (a : A) (f : A -> M B) : M_bind (M_ret a) f = f a.
Proof. unfold M_bind, M_ret. destruct (f a). reflexivity. Qed.

Lemma M_bind_ret_r (m : M A) : M_bind m M_ret = m.
Proof.
  destruct m as [[a | msg] t]; cbn; [ | reflexivity ].
  rewrite app_nil_r. reflexivity.
Qed.

Lemma M_bind_assoc (m : M A) (f : A -> M B) (g : B -> M C) :
  M_bind (M_bind m f) g = M_bind m (fun a => M_bind (f a) g).
Proof.
  destruct m as [[a | msg] t]; cbn; [ | reflexivity ].
  destruct (f a) as [[b | msg] t']; cbn; [ | reflexivity ].
  destruct (g b) as [r t'']. rewrite app_assoc. reflexivity.
Qed.

(** A computation whose handler always returns, returns. *)
Lemma M_catch_total (m : M A) (h : string -> M A) :
  (forall msg, exists a, outcome (h msg) = Ret a) ->
  exists a, outcome (M_catch m h) = Ret a.
Proof.
  intros Hh. destruct m as [[a | msg] t]; cbn; [ eauto | ].
  destruct (Hh msg) as [a Ha]. destruct (h msg) as [r t']. cbn in *. eauto.
Qed.

(** What a deferred task does never reaches the code that follows. *)
Lemma waitUntil_outcome (task task' : M A) (k : unit -> M B) :
  outcome (M_bind (waitUntil task) k) = outcome (M_bind (waitUntil task') k).
Proof. unfold M_bind, waitUntil, outcome. destruct (k tt). reflexivity. Qed.

End MonadLaws.

(* ===================================================================== *)
(** ** The model on the scenarios of the specification                    *)
(* ===================================================================== *)

(** Upload of a JPEG answered with sizes 1000, 5000 and 3000: the 5000
    entry is taken and [name] is its [file_unique_id]. *)
Example upload_three_sizes :
  outcome (POST UploadPart Sample.visitor Sample.env Sample.fine)
  = Ret (mkResponse 200 Upload.jsonHeaders
           (BodyJson [("url", JStr "https://img.example/api/cfile/large");
                      ("code", JNum 200);
                      ("name", JStr "u-large")])).
Proof. reflexivity. Qed.

(** Retrieval of an identifier the backend does not know: a gateway
    style error and no bytes. *)
Example retrieval_unknown_identifier :
  status_of (outcome (GET RetrievalA Sample.visitor "F1" Sample.env Sample.unresolved))
  = Some 502
  /\ status_of (outcome (GET RetrievalB Sample.visitor "F1" Sample.env Sample.unresolved))
     = Some 500.
Proof. split; reflexivity. Qed.

(** Retrieval of a file whose name has a character above U+00FF, from
    a trusted referer: the header made of the name is refused where the
    response is built, and the catch-all answers 500. *)
Example retrieval_wide_name :
  name_accepted RetrievalA "photos/文件.jpg" = false
  /\ status_of (outcome (GET RetrievalA Sample.admin "F1" Sample.env Sample.path_wide_name))
     = Some 500
  /\ status_of (outcome (GET RetrievalB Sample.admin "F1" Sample.env Sample.path_wide_name))
     = Some 500.
Proof. repeat split; reflexivity. Qed.

(** An untrusted retrieval of a rated file issues the increment, once,
    in both handlers. *)
Example retrieval_increments_once :
  count is_update_total (trace (GET RetrievalA Sample.visitor "F1" Sample.env Sample.fine))
  = 1%nat
  /\ count is_update_total (trace (GET RetrievalB Sample.visitor "F1" Sample.env Sample.fine))
     = 1%nat.
Proof. split; reflexivity. Qed.

(* ===================================================================== *)
(** ** Retrieval                                                          *)
(* ===================================================================== *)

(** A header value that is accepted is stored trimmed. *)
Lemma header_value_stored (value stored : string) :
  Js.header_value value = Some stored -> stored = Js.http_trim value.
Proof.
  unfold Js.header_value.
  destruct (Js.byte_string value); [ | discriminate ].
  destruct (Js.header_clean (Js.http_trim value)); [ | discriminate ].
  intros H. injection H as <-. reflexivity.
Qed.

(** Close the branches of a run that went through the serving of a
    file. *)
Ltac by_stored_header :=
  intros;
  repeat match goal with
    | H : Some _ = Some _ |- _ => injection H as H; try subst
    end;
  repeat match goal with
    | H : Js.header_value _ = Some _ |- _ => apply header_value_stored in H
    | H : Js.header_value ?x = None, H' : context [Js.header_value ?x] |- _ =>
        rewrite H in H'
    end;
  subst; cbn in *; try split; congruence.

(** Both retrieval handlers answer every request: their bodies sit in
    a catch-all. *)
Lemma retrieval_always_responds (v : retrieval) request id env w :
  exists resp, outcome (GET v request id env w) = Ret resp.
Proof.
  destruct v; unfold GET, CfileA.GET, CfileB.GET;
    apply (M_catch_total (A := Response)); intros msg; eexists; reflexivity.
Qed.

(** C8.  In every retrieval, whichever handler serves it, at most one
    increment of [total] is issued; when one is issued the referer was
    not trusted, the store is bound, the lookup succeeded and found a
    record for the retrieval path; and whether that increment fails or
    not, the response is the same. *)
Theorem C8_one_increment_only_when_found (v : retrieval) request id env w :
  (count is_update_total (trace (GET v request id env w)) <= 1)%nat
  /\ (count is_update_total (trace (GET v request id env w)) = 1%nat ->
      trusted v request = false
      /\ exists DB r, IMG env = Some DB /\ w_select w = None
                      /\ select_first DB (retrieval_path v id) = Some r)
  /\ (forall failure,
        outcome (GET v request id env (with_update w failure))
        = outcome (GET v request id env w)).
Proof.
  destruct v; unfold_get; unfold count, with_update.
  - split; [| split];
      [ run; lia | run; intros; try discriminate; eauto 10 | intros; run; congruence ].
  - split; [| split];
      [ run; lia | run; intros; try discriminate; eauto 10 | intros; run; congruence ].
Qed.

(** C1 (amended).  When the referer is not trusted, the store is bound
    and its lookup for the retrieval path succeeds with a rating of 3,
    the handler never returns the file bytes; and when moreover the
    identifier resolves and the bytes are fetched with a success status,
    the response is the 302 redirect to [/img/blocked.png]. *)
Theorem C1_blocked_rating_redirects (v : retrieval) request id env w DB :
  trusted v request = false ->
  IMG env = Some DB ->
  select_first DB (retrieval_path v id) = Some 3 ->
  w_select w = None ->
  returns_bytes (outcome (GET v request id env w)) = false
  /\ (forall file_path res,
        resolved_path v env w id = Some file_path ->
        w_download w = Ret res ->
        up_ok res = true ->
        outcome (GET v request id env w)
        = Ret (redirect (origin request ++ "/img/blocked.png") 302)).
Proof.
  intros Hu Hdb Hsel Hok.
  destruct v; unfold_get; unfold returns_bytes in *; cbn in Hu, Hsel.
  - split; [| intros file_path res];
      run_with ltac:(rewrite ?Hu, ?Hdb, ?Hsel, ?Hok, ?Z.eqb_refl); finish.
  - split; [| intros file_path res];
      run_with ltac:(rewrite ?Hu, ?Hdb, ?Hsel, ?Hok, ?Z.eqb_refl); finish.
Qed.

Lemma C1_witness :
  trusted RetrievalB Sample.visitor = false
  /\ IMG Sample.env = Some Sample.blocked_rows
  /\ select_first Sample.blocked_rows (retrieval_path RetrievalB "F1") = Some 3
  /\ w_select Sample.fine = None
  /\ returns_bytes (outcome (GET RetrievalB Sample.visitor "F1" Sample.env Sample.fine))
     = false
  /\ outcome (GET RetrievalB Sample.visitor "F1" Sample.env Sample.fine)
     = Ret (redirect "https://img.example/img/blocked.png" 302).
Proof.
  do 4 (split; [ reflexivity | ]).
  destruct (C1_blocked_rating_redirects RetrievalB Sample.visitor "F1" Sample.env
              Sample.fine Sample.blocked_rows eq_refl eq_refl eq_refl eq_refl) as [Hb Hr].
  split.
  - exact Hb.
  - exact (Hr "photos/file_1.jpg" Sample.jpeg_bytes eq_refl eq_refl eq_refl).
Defined.

(** C1, as stated, fails.  The referer is not trusted and the store holds
    a rating of 3 for the path, yet: an identifier that does not resolve
    is answered 502; a byte fetch answered 404 is passed on as 404; and
    when the lookup itself throws, the handler of part_000 takes the
    rating as absent and serves the bytes. *)
Lemma C1_unresolved_is_not_redirected :
  trusted RetrievalA Sample.visitor = false
  /\ IMG Sample.env = Some Sample.blocked_rows
  /\ select_first Sample.blocked_rows (retrieval_path RetrievalA "F1") = Some 3
  /\ status_of (outcome (GET RetrievalA Sample.visitor "F1" Sample.env Sample.unresolved))
     = Some 502
  /\ status_of (outcome (GET RetrievalA Sample.visitor "F1" Sample.env Sample.gone))
     = Some 404
  /\ status_of (outcome (GET RetrievalA Sample.visitor "F1" Sample.env Sample.lookup_down))
     = Some 200
  /\ returns_bytes (outcome (GET RetrievalA Sample.visitor "F1" Sample.env Sample.lookup_down))
     = true.
Proof. repeat split; reflexivity. Qed.

(** C6 (amended).  When the referer is trusted and the identifier
    resolves, no log insert and no rating query is issued, whether a
    store is bound or not; and when the bytes are fetched with a success
    status no call to the store is made, and the bytes are served at
    once, provided the runtime takes the [Content-Disposition] text made
    of the file name as a header value. *)
Theorem C6_trusted_referer_skips_the_store (v : retrieval) request id env w file_path :
  trusted v request = true ->
  resolved_path v env w id = Some file_path ->
  never is_log_insert (trace (GET v request id env w))
  /\ never is_rating_query (trace (GET v request id env w))
  /\ (forall res,
        w_download w = Ret res ->
        up_ok res = true ->
        never is_store_call (trace (GET v request id env w))
        /\ (name_accepted v file_path = true ->
            outcome (GET v request id env w) = Ret (served v res file_path))).
Proof.
  intros Ht.
  destruct v; unfold_get; unfold never, served, name_accepted, disposition_text;
    cbn in Ht.
  - intros Hr; split; [| split]; [ | | intros res Hd Hok; split; [ | intros Hn ] ];
      run_with ltac:(rewrite ?Ht, ?Hd, ?Hok); solve [ finish | by_stored_header ].
  - intros Hr; split; [| split]; [ | | intros res Hd Hok; split; [ | intros Hn ] ];
      run_with ltac:(rewrite ?Ht, ?Hd, ?Hok); solve [ finish | by_stored_header ].
Qed.

Lemma C6_witness :
  trusted RetrievalA Sample.admin = true
  /\ resolved_path RetrievalA Sample.env Sample.fine "F1" = Some "photos/file_1.jpg"
  /\ name_accepted RetrievalA "photos/file_1.jpg" = true
  /\ never is_log_insert (trace (GET RetrievalA Sample.admin "F1" Sample.env Sample.fine))
  /\ never is_rating_query (trace (GET RetrievalA Sample.admin "F1" Sample.env Sample.fine))
  /\ outcome (GET RetrievalA Sample.admin "F1" Sample.env Sample.fine)
     = Ret (served RetrievalA Sample.jpeg_bytes "photos/file_1.jpg").
Proof.
  do 3 (split; [ reflexivity | ]).
  destruct (C6_trusted_referer_skips_the_store RetrievalA Sample.admin "F1" Sample.env
              Sample.fine "photos/file_1.jpg" eq_refl eq_refl) as (Hl & Hq & Hs).
  split; [ exact Hl | ].
  split; [ exact Hq | ].
  exact (proj2 (Hs Sample.jpeg_bytes eq_refl eq_refl) eq_refl).
Defined.

(** C6, as stated, fails: the referer is trusted and the identifier
    resolves, yet the byte fetch answers 404 and the handler passes that
    status on instead of serving bytes. *)
Lemma C6_failed_fetch_serves_no_bytes :
  trusted RetrievalA Sample.admin = true
  /\ resolved_path RetrievalA Sample.env Sample.gone "F1" = Some "photos/file_1.jpg"
  /\ status_of (outcome (GET RetrievalA Sample.admin "F1" Sample.env Sample.gone)) = Some 404
  /\ returns_bytes (outcome (GET RetrievalA Sample.admin "F1" Sample.env Sample.gone)) = false.
Proof. repeat split; reflexivity. Qed.

(* ===================================================================== *)
(** ** Upload: what the helpers do                                        *)
(* ===================================================================== *)

(** The three prefixes exclude one another, so the order of the tests
    decides nothing. *)
Lemma prefixes_exclusive (t : string) :
  (Js.startsWith t "image/" = true ->
   Js.startsWith t "video/" = false /\ Js.startsWith t "audio/" = false)
  /\ (Js.startsWith t "video/" = true -> Js.startsWith t "audio/" = false).
Proof.
  unfold Js.startsWith.
  destruct t as [| a t']; cbn -[ascii_dec]; [ split; intros; discriminate | ].
  destruct (ascii_dec "i" a) as [Hi | Hi], (ascii_dec "v" a) as [Hv | Hv],
    (ascii_dec "a" a) as [Ha | Ha];
    split; intros; try split; congruence.
Qed.

Lemma prefix_rule_routes (t : string) : routes t (prefix_rule t).
Proof.
  destruct (prefixes_exclusive t) as [Hi Hv].
  unfold routes, prefix_rule.
  destruct (Js.startsWith t "image/") eqn:Ei.
  - destruct (Hi eq_refl) as [-> ->]. repeat split; intros; try discriminate; reflexivity.
  - destruct (Js.startsWith t "video/") eqn:Ev.
    + rewrite (Hv eq_refl). repeat split; intros; try discriminate; reflexivity.
    + destruct (Js.startsWith t "audio/");
        repeat split; intros; try discriminate; reflexivity.
Qed.

(** The lookup through [fileTypeMap] never fails and agrees with the
    rule; the [application/pdf] key gives what the default gives. *)
Lemma selectEndpoint_rule (t : string) :
  TgChannel.selectEndpoint t = (Ret (prefix_rule t), []).
Proof.
  unfold TgChannel.selectEndpoint, prefix_rule, TgChannel.fileTypeMap.
  cbn [map fst find].
  destruct (Js.startsWith t "image/"); [ reflexivity | ].
  destruct (Js.startsWith t "video/"); [ reflexivity | ].
  destruct (Js.startsWith t "audio/"); [ reflexivity | ].
  destruct (Js.startsWith t "application/pdf"); reflexivity.
Qed.

(** On two entries that carry a size, the reducer compares the sizes. *)
Lemma larger_sized (x y : TgFile) :
  has_size x = true ->
  has_size y = true ->
  larger x y = if size_of x >? size_of y then x else y.
Proof.
  unfold has_size, size_of, larger, greater.
  destruct (file_size x), (file_size y); intros; try discriminate; reflexivity.
Qed.

(** Where the fold of [larger] lands when every entry carries a size:
    on the last entry among those of greatest size. *)
Lemma fold_larger_position (xs : list TgFile) (x : TgFile) :
  forallb has_size (x :: xs) = true ->
  exists before after,
    (x :: xs = before ++ fold_left larger xs x :: after)%list
    /\ Forall (fun q => size_of q <= size_of (fold_left larger xs x)) before
    /\ Forall (fun q => size_of q < size_of (fold_left larger xs x)) after.
Proof.
  revert x. induction xs as [| y ys IH]; intros x Hs.
  - exists [], []. cbn. auto.
  - cbn [forallb] in Hs. apply andb_true_iff in Hs as [Hx Hs].
    apply andb_true_iff in Hs as [Hy Hys].
    cbn [fold_left]. rewrite (larger_sized x y Hx Hy).
    destruct (Z.gtb_spec (size_of x) (size_of y)) as [Hgt | Hle].
    + destruct (IH x) as (before & after & Heq & Hb & Ha).
      { cbn [forallb]. rewrite Hx, Hys. reflexivity. }
      destruct before as [| b before'].
      * cbn in Heq. injection Heq as Hx' Hys'.
        exists [], (y :: after). cbn. repeat split.
        -- rewrite <- Hx'. do 2 f_equal. exact Hys'.
        -- constructor.
        -- constructor; [ rewrite <- Hx'; lia | exact Ha ].
      * cbn in Heq. injection Heq as Hx' Hys'. subst b.
        exists (x :: y :: before'), after. cbn. repeat split.
        -- do 2 f_equal. exact Hys'.
        -- inversion Hb as [| ? ? Hx'' Hrest]; subst.
           constructor; [ exact Hx'' | constructor; [ lia | exact Hrest ] ].
        -- exact Ha.
    + destruct (IH y) as (before & after & Heq & Hb & Ha).
      { cbn [forallb]. rewrite Hy, Hys. reflexivity. }
      exists (x :: before), after. cbn. repeat split.
      * f_equal. exact Heq.
      * constructor; [ | exact Hb ].
        destruct before as [| b before'].
        -- cbn in Heq. injection Heq as Hy' _. rewrite <- Hy'. lia.
        -- cbn in Heq. injection Heq as Hy' _. subst b.
           inversion Hb; subst. lia.
      * exact Ha.
Qed.

Lemma name_without_file_name (p : TgFile) :
  Js.truthy (file_name p) = None -> name_or_unique p = file_unique_id p.
Proof. unfold name_or_unique, Js.or_default. intros ->. reflexivity. Qed.

Lemma truthy_with_mark (s : string) :
  Js.truthy (Some (s ++ "?")) = Some (s ++ "?").
Proof. destruct s; reflexivity. Qed.

(** An extraction only yields a file for a response marked [ok]. *)
Lemma extract_needs_ok (v : upload) tg fd :
  outcome (extract_of v tg) = Ret (Some fd) -> ok tg = true.
Proof.
  destruct (ok tg) eqn:Hok; [ reflexivity | ].
  destruct v; unfold extract_of, CfileA.extractFileData, Upload.extractFileData,
    TgChannel.getFile; rewrite Hok; cbn; discriminate.
Qed.

Lemma tg_getFile_refused tg :
  ok tg = false -> TgChannel.getFile tg = (Ret None, [Extraction]).
Proof. intros H. unfold TgChannel.getFile. rewrite H. reflexivity. Qed.

(** The bookkeeping helpers return whatever the outside answers. *)
Lemma tg_getRating_returns env w id :
  exists r t, TgChannel.getRating env w id = (Ret r, t).
Proof.
  unfold TgChannel.getRating, TgChannel.getFile_path, fetch_json, await, emit.
  run; eauto.
Qed.

Lemma tg_insert_run DB w src referer ip rating time :
  TgChannel.insertImageData DB w src referer ip rating time
  = (Ret tt, [DbRun (TgChannel.insert_statement src referer ip rating time) []]).
Proof.
  unfold TgChannel.insertImageData, db_run, emit.
  destruct (w_insert_info w); reflexivity.
Qed.

Lemma cfile_rating_returns env w id :
  exists r t, CfileA.getRatingFromApi env w id = (Ret r, t).
Proof.
  unfold CfileA.getRatingFromApi, CfileA.getFilePathFromTelegram, fetch_json, await,
    console, emit.
  run; eauto.
Qed.

Lemma upload_rating_returns env w id :
  exists r t, Upload.getRating env w id = (Ret r, t).
Proof.
  unfold Upload.getRating, Upload.getFilePath, fetch_json, await, console, emit.
  run; eauto.
Qed.

#[local] Arguments TgChannel.getRating : simpl never.
#[local] Arguments TgChannel.insertImageData : simpl never.
#[local] Arguments TgChannel.getFile : simpl never.
#[local] Arguments TgChannel.selectEndpoint : simpl never.
#[local] Arguments CfileA.extractFileData : simpl never.
#[local] Arguments Upload.extractFileData : simpl never.
#[local] Arguments CfileA.getRatingFromApi : simpl never.
#[local] Arguments Upload.getRating : simpl never.
#[local] Arguments CfileA.insertUploadData : simpl never.
#[local] Arguments Upload.insertImageData : simpl never.

(** In the two handlers that defer their bookkeeping, a failed insert
    leaves a console line, written by the deferred task. *)
Lemma deferred_insert_failure_logged (v : upload) request env w file res tg fd DB e label :
  form_file request = FileEntry file ->
  w_send w = Ret res ->
  up_ok res = true ->
  up_body res = Ret tg ->
  outcome (extract_of v tg) = Ret (Some fd) ->
  IMG env = Some DB ->
  w_insert_info w = Some e ->
  insert_failure_line v = Some label ->
  In (Deferred (Console label)) (trace (POST v request env w)).
Proof.
  intros Hf Hs Hu Hb Hx Hdb Hi Hl.
  pose proof (extract_needs_ok v tg fd Hx) as Hok.
  destruct v; unfold extract_of in Hx; cbn in Hl; try discriminate;
    injection Hl as <-.
  - destruct (CfileA.extractFileData tg) as [x tx] eqn:Hex; cbn in Hx; subst x.
    destruct (cfile_rating_returns env w (fd_file_id fd)) as (r & t & Hr).
    unfold POST, CfileA.POST, await, console, emit, waitUntil, trace.
    unfold CfileA.insertUploadData, db_run, emit.
    run_with ltac:(rewrite ?Hf, ?Hs, ?Hu, ?Hb, ?Hok, ?Hex, ?Hdb, ?Hr, ?Hi).
    rewrite !map_app, !in_app_iff. cbn. auto 10.
  - destruct (Upload.extractFileData tg) as [x tx] eqn:Hex; cbn in Hx; subst x.
    destruct (upload_rating_returns env w (fd_file_id fd)) as (r & t & Hr).
    unfold POST, Upload.POST, await, console, emit, waitUntil, trace.
    unfold Upload.insertImageData, db_run, emit.
    run_with ltac:(rewrite ?Hf, ?Hs, ?Hu, ?Hb, ?Hok, ?Hex, ?Hdb, ?Hr, ?Hi).
    rewrite !map_app, !in_app_iff. cbn. auto 10.
Qed.

(* ===================================================================== *)
(** ** Upload                                                             *)
(* ===================================================================== *)

(** The first outbound call of a run that starts, inside its catch-all,
    by emitting one. *)
Lemma first_outbound_emit {A} (e : event) (k : unit -> M A) (h : string -> M A) :
  is_outbound e = true ->
  hd_error (filter is_outbound (trace (M_catch (M_bind (emit e) k) h))) = Some e.
Proof.
  intros He. unfold M_catch, M_bind, emit, trace.
  destruct (k tt) as [[a | msg] t]; cbn; [ | destruct (h msg) ]; cbn; rewrite He; reflexivity.
Qed.

Lemma first_outbound_console {A} (label : string) (k : unit -> M A) :
  hd_error (filter is_outbound (trace (M_bind (console label) k)))
  = hd_error (filter is_outbound (trace (k tt))).
Proof.
  unfold M_bind, console, emit, trace. destruct (k tt) as [r t]. reflexivity.
Qed.

Lemma trace_bind_ret {A B} (a : A) (k : A -> M B) :
  trace (M_bind (M_ret a) k) = trace (k a).
Proof. unfold M_bind, M_ret, trace. destruct (k a). reflexivity. Qed.

(** The send call of an upload goes to the endpoint the rule gives for
    the type of the file, with the file under the matching form field. *)
Lemma upload_calls_routed_endpoint (v : upload) request env w file :
  form_file request = FileEntry file ->
  (v = UploadTgChannel -> has_client_address request = true) ->
  hd_error (filter is_outbound (trace (POST v request env w)))
  = Some (HttpPost (api ++ TG_BOT_TOKEN env ++ "/" ++ endpoint (prefix_rule (f_type file)))
            [("chat_id", TG_CHAT_ID env);
             (formFieldName (prefix_rule (f_type file)), f_name file)]).
Proof.
  intros Hf Ha.
  destruct v.
  - unfold POST, CfileA.POST. rewrite Hf.
    apply (first_outbound_emit (A := Response)). reflexivity.
  - unfold POST, Upload.POST. rewrite Hf.
    apply (first_outbound_emit (A := Response)). reflexivity.
  - specialize (Ha eq_refl). unfold has_client_address in Ha.
    unfold POST, TgChannel.POST. rewrite Hf.
    unfold bind, ret, catch, raise, Monad_M, Exc_M.
    assert (Hip : exists ip,
               match Js.truthy (Js.or_else (header request "x-forwarded-for")
                                  (header request "x-real-ip")) with
               | Some v => M_ret (Some v)
               | None =>
                   match socket request with
                   | Some remoteAddress => M_ret remoteAddress
                   | None =>
                       M_raise "Cannot read properties of undefined (reading 'remoteAddress')"
                   end
               end = M_ret ip).
    { destruct (Js.truthy _); [ eauto | ].
      destruct (socket request); [ eauto | discriminate ]. }
    destruct Hip as [ip ->].
    rewrite !trace_bind_ret. cbn beta iota.
    rewrite selectEndpoint_rule.
    change (Ret (prefix_rule (f_type file)), @nil event)
      with (M_ret (prefix_rule (f_type file))).
    rewrite trace_bind_ret, !first_outbound_console.
    apply (first_outbound_emit (A := Response)). reflexivity.
Qed.

(** The two upload handlers whose body sits in a catch-all answer every
    request. *)
Lemma guarded_upload_always_responds (v : upload) request env w :
  v <> UploadTgChannel ->
  exists resp, outcome (POST v request env w) = Ret resp.
Proof.
  intros Hv. destruct v; [ | | congruence ]; unfold POST, CfileA.POST, Upload.POST;
    apply (M_catch_total (A := Response)); intros msg; eexists; reflexivity.
Qed.

(** C7.  For every MIME type string and in every upload handler, the
    endpoint choice returns (it never throws and performs nothing) and
    follows the prefix rule: [image/] gives sendPhoto, [video/]
    sendVideo, [audio/] sendAudio, and any other string, the empty one
    included, gives sendDocument. *)
Theorem C7_endpoint_follows_prefix_rule (v : upload) (t : string) :
  endpoint_of v t = (Ret (prefix_rule t), [])
  /\ routes t (prefix_rule t)
  /\ endpoint (prefix_rule "") = "sendDocument".
Proof.
  split; [ | split; [ apply prefix_rule_routes | reflexivity ] ].
  destruct v; cbn.
  - reflexivity.
  - reflexivity.
  - apply selectEndpoint_rule.
Qed.

(** C2 (amended).  For a send response marked [ok] whose [result] has a
    non-empty [photo] list every entry of which carries a [file_size],
    the extraction takes an entry of greatest [file_size], and among
    entries of that size the one seen last: no earlier entry is larger
    and every later entry is strictly smaller.  The name returned is
    that entry's [file_unique_id]; in the tgchannel handler this needs
    that photo sizes carry no [file_name]. *)
Theorem C2_largest_photo_last_on_ties (v : upload) tg r sizes :
  ok tg = true ->
  result tg = Some r ->
  photo r = Some sizes ->
  sizes <> [] ->
  forallb has_size sizes = true ->
  (v = UploadTgChannel -> Forall (fun p => Js.truthy (file_name p) = None) sizes) ->
  exists before p after,
    (sizes = before ++ p :: after)%list
    /\ Forall (fun q => size_of q <= size_of p) before
    /\ Forall (fun q => size_of q < size_of p) after
    /\ outcome (extract_of v tg)
       = Ret (Some (mkFileData (file_id p) (file_unique_id p))).
Proof.
  intros Hok Hres Hph Hne Hsized Hnames.
  destruct sizes as [| x xs]; [ contradiction | ].
  destruct (fold_larger_position xs x Hsized) as (before & after & Heq & Hb & Ha).
  exists before, (fold_left larger xs x), after.
  repeat split; try assumption.
  destruct v; unfold extract_of, CfileA.extractFileData, Upload.extractFileData,
    TgChannel.getFile, TgChannel.getFileDetails; rewrite Hok, Hres, Hph; cbn;
    try reflexivity.
  rewrite name_without_file_name; [ reflexivity | ].
  specialize (Hnames eq_refl). rewrite Forall_forall in Hnames. apply Hnames.
  rewrite Heq. apply in_or_app. right. left. reflexivity.
Qed.

Lemma C2_witness :
  ok (Sample.photo_message Sample.three_sizes) = true
  /\ Sample.three_sizes <> []
  /\ forallb has_size Sample.three_sizes = true
  /\ exists before p after,
       (Sample.three_sizes = before ++ p :: after)%list
       /\ Forall (fun q => size_of q <= size_of p) before
       /\ Forall (fun q => size_of q < size_of p) after
       /\ outcome (extract_of UploadTgChannel (Sample.photo_message Sample.three_sizes))
          = Ret (Some (mkFileData (file_id p) (file_unique_id p))).
Proof.
  split; [ reflexivity | ].
  split; [ discriminate | ].
  split; [ reflexivity | ].
  apply (C2_largest_photo_last_on_ties UploadTgChannel
           (Sample.photo_message Sample.three_sizes)
           (mkTgResult (Some Sample.three_sizes) None None None)
           Sample.three_sizes eq_refl eq_refl eq_refl).
  - discriminate.
  - reflexivity.
  - intros _. repeat constructor.
Defined.

(** C2, as stated, fails: of two entries of the same size the first seen
    does not win; the extraction returns the second. *)
Lemma C2_tie_goes_to_the_later_entry :
  map file_id Sample.tied_sizes = ["first"; "second"]
  /\ map file_size Sample.tied_sizes = [Some 5000; Some 5000]
  /\ outcome (extract_of UploadCfile (Sample.photo_message Sample.tied_sizes))
     = Ret (Some (mkFileData "second" "u-second"))
  /\ outcome (extract_of UploadPart (Sample.photo_message Sample.tied_sizes))
     = Ret (Some (mkFileData "second" "u-second"))
  /\ outcome (extract_of UploadTgChannel (Sample.photo_message Sample.tied_sizes))
     = Ret (Some (mkFileData "second" "u-second")).
Proof. repeat split; reflexivity. Qed.

(** C5 (amended).  When the send call is answered with a body whose
    [ok] is false, in every upload handler the response is not a 200 and
    the [result] of the body is never read; and in the handlers of
    part_000 and part_001 the extraction is not called at all. *)
Theorem C5_refused_upload_is_not_a_success (v : upload) request env w res tg :
  w_send w = Ret res ->
  up_body res = Ret tg ->
  ok tg = false ->
  status_of (outcome (POST v request env w)) <> Some 200
  /\ never is_result_read (trace (POST v request env w))
  /\ (v <> UploadTgChannel -> never is_extraction (trace (POST v request env w))).
Proof.
  intros Hs Hb Hok.
  destruct v; unfold never, status_of.
  - unfold POST, CfileA.POST, await, console, emit.
    split; [ | split; [ | intros _ ] ];
      run_with ltac:(rewrite ?Hs, ?Hb, ?Hok, ?orb_true_r); finish.
  - unfold POST, Upload.POST, await, console, emit.
    split; [ | split; [ | intros _ ] ];
      run_with ltac:(rewrite ?Hs, ?Hb, ?Hok, ?orb_true_r); finish.
  - unfold POST, TgChannel.POST, await, console, emit.
    split; [ | split; [ | intros Hv; congruence ] ];
      run_with ltac:(rewrite ?Hs, ?Hb, ?selectEndpoint_rule, ?(tg_getFile_refused _ Hok));
      finish.
Qed.

Lemma C5_witness :
  w_send Sample.refused = Ret (mkFetched 200 [] (Ret Sample.refusal))
  /\ ok Sample.refusal = false
  /\ status_of (outcome (POST UploadPart Sample.visitor Sample.env Sample.refused))
     <> Some 200
  /\ never is_extraction (trace (POST UploadPart Sample.visitor Sample.env Sample.refused)).
Proof.
  do 2 (split; [ reflexivity | ]).
  destruct (C5_refused_upload_is_not_a_success UploadPart Sample.visitor Sample.env
              Sample.refused (mkFetched 200 [] (Ret Sample.refusal)) Sample.refusal
              eq_refl eq_refl eq_refl) as (Hs & _ & Hn).
  split; [ exact Hs | ].
  apply Hn. discriminate.
Defined.

(** C5, as stated, fails in the tgchannel handler: it hands every body
    to its extraction, also one whose [ok] is false; the extraction
    returns null at its first test and the handler answers 500. *)
Lemma C5_tgchannel_calls_its_extraction :
  w_send Sample.refused = Ret (mkFetched 200 [] (Ret Sample.refusal))
  /\ ok Sample.refusal = false
  /\ filter is_extraction
       (trace (POST UploadTgChannel Sample.visitor Sample.env Sample.refused))
     = [Extraction]
  /\ ~ never is_extraction
        (trace (POST UploadTgChannel Sample.visitor Sample.env Sample.refused))
  /\ status_of (outcome (POST UploadTgChannel Sample.visitor Sample.env Sample.refused))
     = Some 500.
Proof.
  repeat split; try reflexivity.
  unfold never. vm_compute. discriminate.
Qed.

(** C4.  For a submission whose [file] member is missing or is not a
    file object, no handler makes an outbound call.  The two handlers of
    part_000 and part_001 answer 400.  The tgchannel handler answers
    nothing: it reads [formData.get('file').type] before any test and
    outside its [try], and the exception leaves the handler. *)
Theorem C4_upload_without_file (request : Request) env w :
  has_file request = false ->
  (status_of (outcome (POST UploadCfile request env w)) = Some 400
   /\ never is_outbound (trace (POST UploadCfile request env w)))
  /\ (status_of (outcome (POST UploadPart request env w)) = Some 400
      /\ never is_outbound (trace (POST UploadPart request env w)))
  /\ (status_of (outcome (POST UploadTgChannel request env w)) = None
      /\ never is_outbound (trace (POST UploadTgChannel request env w))).
Proof.
  unfold has_file, POST, CfileA.POST, Upload.POST, TgChannel.POST, never, status_of.
  destruct (form_file request) eqn:E; intros Hf; try discriminate.
  all: repeat split; run; finish.
Qed.

Lemma C4_witness :
  has_file Sample.no_file = false
  /\ outcome (POST UploadTgChannel Sample.no_file Sample.env Sample.fine)
     = Throw "Cannot read properties of null (reading 'type')"
  /\ status_of (outcome (POST UploadTgChannel Sample.no_file Sample.env Sample.fine)) = None
  /\ status_of (outcome (POST UploadPart Sample.no_file Sample.env Sample.fine)) = Some 400.
Proof.
  do 2 (split; [ reflexivity | ]).
  destruct (C4_upload_without_file Sample.no_file Sample.env Sample.fine eq_refl)
    as (_ & [Hp _] & [Ht _]).
  split; [ exact Ht | exact Hp ].
Defined.

(** C10.  In the tgchannel handler the extraction looks at [photo],
    [video] and [document] only.  For a send response marked [ok] whose
    [result] holds an [audio] object and none of those, the extraction
    returns null and the handler answers 500, not 200; and a file whose
    type starts with [audio/] is what that handler sends to sendAudio. *)
Theorem C10_tgchannel_audio_is_not_extracted request env w file res a d :
  has_client_address request = true ->
  form_file request = FileEntry file ->
  w_send w = Ret res ->
  up_body res = Ret (mkTgResponse true (Some (mkTgResult None None None (Some a))) d) ->
  TgChannel.getFile (mkTgResponse true (Some (mkTgResult None None None (Some a))) d)
  = (Ret None, [Extraction; ReadResult])
  /\ status_of (outcome (POST UploadTgChannel request env w)) = Some 500
  /\ (Js.startsWith (f_type file) "audio/" = true ->
      outcome (TgChannel.selectEndpoint (f_type file)) = Ret (mkEndpoint "sendAudio" "audio")).
Proof.
  intros Ha Hf Hs Hb. unfold has_client_address in Ha.
  split; [ reflexivity | ].
  assert (Hg : TgChannel.getFile
                 (mkTgResponse true (Some (mkTgResult None None None (Some a))) d)
               = (Ret None, [Extraction; ReadResult])) by reflexivity.
  split.
  - unfold POST, TgChannel.POST, await, console, emit, status_of.
    run_with ltac:(rewrite ?Hf, ?Hs, ?Hb, ?selectEndpoint_rule, ?Hg); finish.
  - intros Haudio. rewrite selectEndpoint_rule. cbn. f_equal.
    destruct (prefix_rule_routes (f_type file)) as (_ & _ & Hrule & _).
    exact (Hrule Haudio).
Qed.

Lemma C10_witness :
  has_client_address Sample.visitor = true
  /\ w_send Sample.audio_sent = Ret (mkFetched 200 [] (Ret Sample.audio_message))
  /\ outcome (TgChannel.getFile Sample.audio_message) = Ret None
  /\ status_of (outcome (POST UploadTgChannel Sample.visitor Sample.env Sample.audio_sent))
     = Some 500.
Proof.
  do 2 (split; [ reflexivity | ]).
  destruct (C10_tgchannel_audio_is_not_extracted Sample.visitor Sample.env Sample.audio_sent
              Sample.jpeg (mkFetched 200 [] (Ret Sample.audio_message))
              (mkTgFile "AUD" "u-AUD" (Some "song.mp3") (Some 4096)) None
              eq_refl eq_refl eq_refl eq_refl) as (Hg & Hs & _).
  split; [ | exact Hs ].
  change Sample.audio_message
    with (mkTgResponse true
            (Some (mkTgResult None None None
                     (Some (mkTgFile "AUD" "u-AUD" (Some "song.mp3") (Some 4096))))) None).
  rewrite Hg. reflexivity.
Defined.

(** C3 (amended).  Take an upload that the backend accepted and whose
    file identity was extracted.  Whatever the bookkeeping calls answer
    (the path lookup, the rating service, the insert), every handler
    responds 200 with the same [url], [code] and [name].  In the two
    handlers that defer the bookkeeping the whole response is the same
    and a failed insert leaves a console line written by the deferred
    task.  (The tgchannel handler awaits the bookkeeping and reports its
    [rating_index] in the body.) *)
Theorem C3_bookkeeping_keeps_the_success (v : upload) request env w file res tg fd
  getFile rate insert :
  form_file request = FileEntry file ->
  (v = UploadTgChannel -> has_client_address request = true) ->
  w_send w = Ret res ->
  up_ok res = true ->
  up_body res = Ret tg ->
  outcome (extract_of v tg) = Ret (Some fd) ->
  (exists resp,
      outcome (POST v request env (with_bookkeeping w getFile rate insert)) = Ret resp
      /\ status resp = 200
      /\ member "url" resp = Some (JStr (origin request ++ "/api/cfile/" ++ fd_file_id fd))
      /\ member "code" resp = Some (JNum 200)
      /\ member "name" resp = Some (JStr (fd_file_name fd)))
  /\ (v <> UploadTgChannel ->
      outcome (POST v request env (with_bookkeeping w getFile rate insert))
      = outcome (POST v request env w))
  /\ (forall DB e label,
        IMG env = Some DB ->
        insert = Some e ->
        insert_failure_line v = Some label ->
        In (Deferred (Console label))
          (trace (POST v request env (with_bookkeeping w getFile rate insert)))).
Proof.
  intros Hf Ha Hs Hu Hb Hx.
  pose proof (extract_needs_ok v tg fd Hx) as Hok.
  split; [ | split ].
  3: { intros DB e label Hdb -> Hl.
       exact (deferred_insert_failure_logged v request env
                (with_bookkeeping w getFile rate (Some e)) file res tg fd DB e label
                Hf Hs Hu Hb Hx Hdb eq_refl Hl). }
  - destruct v; unfold extract_of in Hx.
    + destruct (CfileA.extractFileData tg) as [x tx] eqn:Hex; cbn in Hx; subst x.
      unfold POST, CfileA.POST, with_bookkeeping, await, console, emit, waitUntil, member.
      eexists; split.
      * run_with ltac:(rewrite ?Hf, ?Hs, ?Hu, ?Hb, ?Hok, ?Hex); reflexivity.
      * cbn. repeat split.
    + destruct (Upload.extractFileData tg) as [x tx] eqn:Hex; cbn in Hx; subst x.
      unfold POST, Upload.POST, with_bookkeeping, await, console, emit, waitUntil, member.
      eexists; split.
      * run_with ltac:(rewrite ?Hf, ?Hs, ?Hu, ?Hb, ?Hok, ?Hex); reflexivity.
      * cbn. repeat split.
    + destruct (TgChannel.getFile tg) as [x tx] eqn:Hex; cbn in Hx; subst x.
      specialize (Ha eq_refl). unfold has_client_address in Ha.
      destruct (tg_getRating_returns env (with_bookkeeping w getFile rate insert)
                  (fd_file_id fd)) as (r & t & Hr).
      unfold POST, TgChannel.POST, await, console, emit, member.
      destruct (IMG env) as [DB|] eqn:Hdb.
      * run_with ltac:(rewrite ?Hf, ?Hs, ?Hb, ?selectEndpoint_rule, ?Hex, ?Hr, ?tg_insert_run).
        all: try discriminate.
        all: eexists; split; [ reflexivity | cbn; repeat split ].
      * run_with ltac:(rewrite ?Hf, ?Hs, ?Hb, ?selectEndpoint_rule, ?Hex, ?Hr).
        all: try discriminate.
        all: eexists; split; [ reflexivity | cbn; repeat split ].
  - intros Hv. destruct v; [ | | congruence ]; unfold extract_of in Hx.
    + destruct (CfileA.extractFileData tg) as [x tx] eqn:Hex; cbn in Hx; subst x.
      unfold POST, CfileA.POST, with_bookkeeping, await, console, emit, waitUntil.
      run_with ltac:(rewrite ?Hf, ?Hs, ?Hu, ?Hb, ?Hok, ?Hex); reflexivity.
    + destruct (Upload.extractFileData tg) as [x tx] eqn:Hex; cbn in Hx; subst x.
      unfold POST, Upload.POST, with_bookkeeping, await, console, emit, waitUntil.
      run_with ltac:(rewrite ?Hf, ?Hs, ?Hu, ?Hb, ?Hok, ?Hex); reflexivity.
Qed.

Lemma C3_witness :
  form_file Sample.visitor = FileEntry Sample.jpeg
  /\ up_ok (mkFetched 200 [] (Ret (Sample.photo_message Sample.three_sizes))) = true
  /\ outcome (extract_of UploadPart (Sample.photo_message Sample.three_sizes))
     = Ret (Some (mkFileData "large" "u-large"))
  /\ outcome (POST UploadPart Sample.visitor Sample.env
                (with_bookkeeping Sample.fine (Throw "network down")
                   (Throw "network down") (Some "D1_ERROR")))
     = outcome (POST UploadPart Sample.visitor Sample.env Sample.fine)
  /\ In (Deferred (Console "Database insert error:"))
       (trace (POST UploadPart Sample.visitor Sample.env
                 (with_bookkeeping Sample.fine Sample.path_found
                    (Throw "network down") (Some "D1_ERROR")))).
Proof.
  do 3 (split; [ reflexivity | ]).
  split.
  - assert (Hv : UploadPart = UploadTgChannel -> has_client_address Sample.visitor = true)
      by (intros _; reflexivity).
    destruct (C3_bookkeeping_keeps_the_success UploadPart Sample.visitor Sample.env
                Sample.fine Sample.jpeg
                (mkFetched 200 [] (Ret (Sample.photo_message Sample.three_sizes)))
                (Sample.photo_message Sample.three_sizes) (mkFileData "large" "u-large")
                (Throw "network down") (Throw "network down") (Some "D1_ERROR")
                eq_refl Hv eq_refl eq_refl eq_refl eq_refl) as (_ & Hsame & _).
    apply Hsame. discriminate.
  - assert (Hv : UploadPart = UploadTgChannel -> has_client_address Sample.visitor = true)
      by (intros _; reflexivity).
    destruct (C3_bookkeeping_keeps_the_success UploadPart Sample.visitor Sample.env
                Sample.fine Sample.jpeg
                (mkFetched 200 [] (Ret (Sample.photo_message Sample.three_sizes)))
                (Sample.photo_message Sample.three_sizes) (mkFileData "large" "u-large")
                Sample.path_found (Throw "network down") (Some "D1_ERROR")
                eq_refl Hv eq_refl eq_refl eq_refl eq_refl) as (_ & _ & Hlog).
    exact (Hlog Sample.blocked_rows "D1_ERROR" "Database insert error:"
             eq_refl eq_refl eq_refl).
Defined.

(** C3, as stated, fails in the tgchannel handler: with the rating
    service unreachable the response is still a 200, but it is not the
    response of the run in which the service answered; its body says
    [rating_index: -1] instead of the rating. *)
Lemma C3_tgchannel_reports_the_failed_rating :
  status_of (outcome (POST UploadTgChannel Sample.visitor Sample.env Sample.fine)) = Some 200
  /\ status_of (outcome (POST UploadTgChannel Sample.visitor Sample.env
                           (with_bookkeeping Sample.fine Sample.path_found
                              (Throw "network down") None))) = Some 200
  /\ member_of "rating_index"
       (outcome (POST UploadTgChannel Sample.visitor Sample.env Sample.fine))
     = Some (JNum 1)
  /\ member_of "rating_index"
       (outcome (POST UploadTgChannel Sample.visitor Sample.env
                   (with_bookkeeping Sample.fine Sample.path_found
                      (Throw "network down") None)))
     = Some (JNum (-1))
  /\ outcome (POST UploadTgChannel Sample.visitor Sample.env
                (with_bookkeeping Sample.fine Sample.path_found (Throw "network down") None))
     <> outcome (POST UploadTgChannel Sample.visitor Sample.env Sample.fine).
Proof. repeat split; try reflexivity. vm_compute. discriminate. Qed.

(** C9 (amended).  The rating computed by the upload bookkeeping, by
    case.  When the path of the file resolves: 0 when neither a
    moderation key nor a rating-API base is configured; -1 when the call
    to the rating service fails; -1 when its answer has no rating index.
    When the path does not resolve: -1 in the handlers of part_000 and
    part_001, whatever is configured. *)
Theorem C9_rating_by_case (v : upload) env w file_id c :
  in_case v env w c = true ->
  outcome (rating_of v env w file_id) = Ret (JNum (expected_rating c)).
Proof.
  unfold in_case, resolves, bookkeeping_path, configured, expected_rating.
  destruct v; unfold rating_of, CfileA.getRatingFromApi, Upload.getRating, TgChannel.getRating,
    CfileA.getFilePathFromTelegram, Upload.getFilePath, TgChannel.getFile_path,
    ratingApiBase, nullish, fetch_json, await, console, emit.
  all: destruct c.
  all: run_with ltac:(rewrite ?andb_false_r, ?andb_true_r, ?truthy_with_mark);
    intros; try discriminate; reflexivity.
Qed.

Lemma C9_witness :
  in_case UploadTgChannel Sample.env_plain Sample.fine NotConfigured = true
  /\ outcome (rating_of UploadTgChannel Sample.env_plain Sample.fine "large")
     = Ret (JNum 0).
Proof.
  split; [ reflexivity | ].
  exact (C9_rating_by_case UploadTgChannel Sample.env_plain Sample.fine "large"
           NotConfigured eq_refl).
Defined.

(** C9, as stated, fails: with neither a moderation key nor a rating-API
    base configured the rating is not 0 when the path of the file does
    not resolve; the handlers of part_000 and part_001 test the path
    first and return -1. *)
Lemma C9_unconfigured_rating_is_not_always_zero :
  configured Sample.env_plain = false
  /\ resolves Sample.unresolved = false
  /\ outcome (rating_of UploadPart Sample.env_plain Sample.unresolved "large")
     = Ret (JNum (-1))
  /\ outcome (rating_of UploadCfile Sample.env_plain Sample.unresolved "large")
     = Ret (JNum (-1)).
Proof. repeat split; reflexivity. Qed.

(* ===================================================================== *)
(** ** Further properties of the handlers                                 *)
(* ===================================================================== *)

(** The properties below are read off the code: what the handlers do on
    their error paths, what they leave alone, and how what an upload
    records meets what a retrieval looks up. *)

(** *** Retrieval *)

#[local] Arguments CfileA.getFilePathFromTelegram : simpl never.
#[local] Arguments CfileB.getFile_path : simpl never.

Lemma quiet_filter (p : event -> bool) (t : list event) :
  (forall e, is_console e = true -> p e = false) ->
  quiet t -> filter p t = [].
Proof.
  intros Hp Hq. induction Hq as [| e t He _ IH]; [ reflexivity | ].
  cbn. rewrite (Hp e He). exact IH.
Qed.

Lemma console_only (e : event) :
  is_console e = true ->
  is_outbound e = false /\ is_store_call e = false /\ is_log_insert e = false
  /\ is_update_total e = false /\ is_rating_query e = false /\ is_extraction e = false.
Proof.
  unfold is_console, is_outbound, is_store_call, is_log_insert, is_update_total,
    is_rating_query, is_extraction.
  destruct (performed e); intros; try discriminate; repeat split.
Qed.

Ltac hush Hq :=
  rewrite ?(quiet_filter is_outbound _ (fun e H => proj1 (console_only e H)) Hq),
    ?(quiet_filter is_store_call _ (fun e H => proj1 (proj2 (console_only e H))) Hq),
    ?(quiet_filter is_log_insert _
        (fun e H => proj1 (proj2 (proj2 (console_only e H)))) Hq),
    ?(quiet_filter is_update_total _
        (fun e H => proj1 (proj2 (proj2 (proj2 (console_only e H))))) Hq).

Lemma resolved_in_A env w id file_path :
  resolved_path RetrievalA env w id = Some file_path ->
  exists raw,
    CfileA.getFilePathFromTelegram env w id = (Ret raw, [getFile_call env id])
    /\ Js.truthy raw = Some file_path.
Proof.
  unfold resolved_path, CfileA.getFilePathFromTelegram, getFile_call,
    fetch_json, await, console, emit.
  run; intros; try discriminate; eauto.
Qed.

Lemma resolved_in_B env w id file_path :
  resolved_path RetrievalB env w id = Some file_path ->
  CfileB.getFile_path env w id = (Ret file_path, [getFile_call env id])
  /\ String.eqb file_path "error" = false.
Proof.
  unfold resolved_path, CfileB.getFile_path, getFile_call, fetch_json, await, console, emit.
  run; intros; try discriminate; finish.
Qed.

Lemma unresolved_in_A env w id :
  resolved_path RetrievalA env w id = None ->
  exists raw logs,
    CfileA.getFilePathFromTelegram env w id = (Ret raw, getFile_call env id :: logs)
    /\ Js.truthy raw = None /\ quiet logs.
Proof.
  unfold resolved_path, CfileA.getFilePathFromTelegram, getFile_call, quiet,
    fetch_json, await, console, emit.
  run; intros; try discriminate; eauto 10.
Qed.

Lemma unresolved_in_B env w id :
  resolved_path RetrievalB env w id = None ->
  exists logs,
    CfileB.getFile_path env w id = (Ret "error", getFile_call env id :: logs)
    /\ quiet logs.
Proof.
  unfold resolved_path, CfileB.getFile_path, getFile_call, quiet,
    fetch_json, await, console, emit.
  run; intros; try discriminate; eauto 10.
  all: match goal with H : String.eqb _ _ = true |- _ => apply String.eqb_eq in H; subst end.
  all: eauto 10.
Qed.

(** Close a branch after settling the tests it went through. *)
Ltac settle :=
  intros;
  repeat match goal with
    | H : negb _ = true |- _ => apply negb_true_iff in H
    | H : negb _ = false |- _ => apply negb_false_iff in H
    | H : ?b = true, H' : context [?b] |- _ => rewrite H in H'
    | H : ?b = false, H' : context [?b] |- _ => rewrite H in H'
    end;
  cbn in *; congruence.

Ltac unfold_get_body :=
  unfold GET, CfileA.GET, CfileB.GET,
    CfileA.getRatingFromDb, CfileB.getRating,
    CfileA.insertViewLog, CfileB.insertTgImgLog,
    CfileA.serve, CfileB.serve, CfileB.failure, header_value, respond,
    db_first, db_run, waitUntil, await, console, emit,
    trusted, retrieval_path.

(** Enter a retrieval whose identifier resolves. *)
Ltac resolved_get v Hr :=
  let raw := fresh "raw" in
  let Hg := fresh "Hg" in
  let Ht := fresh "Ht" in
  destruct v;
  [ destruct (resolved_in_A _ _ _ _ Hr) as (raw & Hg & Ht)
  | destruct (resolved_in_B _ _ _ _ Hr) as (Hg & Ht) ];
  unfold_get_body; rewrite Hg; clear Hg.

(** Enter a retrieval whose identifier does not resolve. *)
Ltac unresolved_get v Hr :=
  let raw := fresh "raw" in
  let logs := fresh "logs" in
  let Hg := fresh "Hg" in
  let Ht := fresh "Ht" in
  let Hq := fresh "Hq" in
  destruct v;
  [ destruct (unresolved_in_A _ _ _ Hr) as (raw & logs & Hg & Ht & Hq)
  | destruct (unresolved_in_B _ _ _ Hr) as (logs & Hg & Hq) ];
  unfold_get_body; rewrite Hg; clear Hg; cbn; rewrite ?Ht; cbn;
  rewrite ?app_nil_r; hush Hq.

(** X1.  When the identifier does not resolve to a path, a retrieval is
    answered 502 by the first handler and 500 by the second; the lookup
    of the path is its only outbound call, and the store is not touched. *)
Theorem X1_retrieval_unresolved (v : retrieval) request id env w :
  resolved_path v env w id = None ->
  status_of (outcome (GET v request id env w)) = Some (unresolved_status v)
  /\ filter is_outbound (trace (GET v request id env w)) = [getFile_call env id]
  /\ never is_store_call (trace (GET v request id env w)).
Proof.
  intros Hp. unfold never.
  unresolved_get v Hp; repeat split.
Qed.

Lemma X1_witness :
  resolved_path RetrievalB Sample.env Sample.unresolved "F1" = None
  /\ status_of (outcome (GET RetrievalB Sample.visitor "F1" Sample.env Sample.unresolved))
     = Some 500
  /\ never is_store_call
       (trace (GET RetrievalB Sample.visitor "F1" Sample.env Sample.unresolved)).
Proof.
  split; [ reflexivity | ].
  destruct (X1_retrieval_unresolved RetrievalB Sample.visitor "F1" Sample.env
              Sample.unresolved eq_refl) as (Hs & _ & Hn).
  split; [ exact Hs | exact Hn ].
Defined.

(** X2.  A retrieval inserts into [tgimglog] once when it reaches the
    referer gate with a referer that is not trusted (the identifier
    resolved, the bytes were fetched with a success status, the store is
    bound), and not at all otherwise; whether that insert succeeds or
    fails changes nothing of the response. *)
Theorem X2_retrieval_logs_once (v : retrieval) request id env w :
  count is_log_insert (trace (GET v request id env w))
  = (if reaches_gate v request id env w then 1 else 0)%nat
  /\ (forall failure,
        outcome (GET v request id env (with_insert_log w failure))
        = outcome (GET v request id env w)).
Proof.
  split.
  - unfold reaches_gate, count.
    destruct (resolved_path v env w id) as [file_path |] eqn:Hp.
    + resolved_get v Hp; run_with ltac:(rewrite ?Ht); settle.
    + unresolved_get v Hp; reflexivity.
  - intros failure. destruct v; unfold_get_body.
    + change (CfileA.getFilePathFromTelegram env (with_insert_log w failure) id)
        with (CfileA.getFilePathFromTelegram env w id).
      destruct (CfileA.getFilePathFromTelegram env w id) as [[raw | msg] t];
        unfold with_insert_log; run; finish.
    + change (CfileB.getFile_path env (with_insert_log w failure) id)
        with (CfileB.getFile_path env w id).
      destruct (CfileB.getFile_path env w id) as [[raw | msg] t];
        unfold with_insert_log; run; finish.
Qed.

(** X3.  With a referer that is not trusted and a stored rating other than
    3, a retrieval whose identifier resolves, whose bytes are fetched
    with a success status and whose file name makes a header value that
    the runtime takes, serves the file. *)
Theorem X3_retrieval_other_rating_serves (v : retrieval) request id env w DB r file_path res :
  trusted v request = false ->
  IMG env = Some DB ->
  looked_up w DB (retrieval_path v id) = Some r ->
  r <> 3 ->
  resolved_path v env w id = Some file_path ->
  w_download w = Ret res ->
  up_ok res = true ->
  name_accepted v file_path = true ->
  outcome (GET v request id env w) = Ret (served v res file_path).
Proof.
  intros Hu Hdb Hl Hr Hp Hd Hok Hn.
  apply Z.eqb_neq in Hr.
  unfold looked_up in Hl. unfold name_accepted, disposition_text in Hn.
  resolved_get v Hp; unfold served; cbn in Hu, Hl.
  - run_with ltac:(rewrite ?Ht, ?Hd, ?Hok, ?Hu, ?Hdb, ?Hr); by_stored_header.
  - run_with ltac:(rewrite ?Ht, ?Hd, ?Hok, ?Hu, ?Hdb, ?Hr); by_stored_header.
Qed.

Lemma X3_witness :
  trusted RetrievalA Sample.visitor = false
  /\ looked_up Sample.fine Sample.other_rows (retrieval_path RetrievalA "F1") = Some 1
  /\ name_accepted RetrievalA "photos/file_1.jpg" = true
  /\ outcome (GET RetrievalA Sample.visitor "F1" Sample.env_rated Sample.fine)
     = Ret (served RetrievalA Sample.jpeg_bytes "photos/file_1.jpg").
Proof.
  do 3 (split; [ reflexivity | ]).
  apply (X3_retrieval_other_rating_serves RetrievalA Sample.visitor "F1" Sample.env_rated
           Sample.fine Sample.other_rows 1 "photos/file_1.jpg" Sample.jpeg_bytes);
    solve [ reflexivity | discriminate ].
Defined.

(** X4.  With a referer that is not trusted, a bound store and a lookup that
    gives nothing (no row, or a failed statement), the first retrieval
    handler serves the file, when its name makes a header value that the
    runtime takes, and the second answers 404 without the bytes; neither
    increments a counter. *)
Theorem X4_retrieval_without_record (v : retrieval) request id env w DB file_path res :
  trusted v request = false ->
  IMG env = Some DB ->
  looked_up w DB (retrieval_path v id) = None ->
  resolved_path v env w id = Some file_path ->
  w_download w = Ret res ->
  up_ok res = true ->
  match v with
  | RetrievalA => name_accepted v file_path = true ->
                  outcome (GET v request id env w) = Ret (served v res file_path)
  | RetrievalB => status_of (outcome (GET v request id env w)) = Some 404
                  /\ returns_bytes (outcome (GET v request id env w)) = false
  end
  /\ count is_update_total (trace (GET v request id env w)) = 0%nat.
Proof.
  intros Hu Hdb Hl Hp Hd Hok.
  unfold looked_up in Hl.
  resolved_get v Hp;
    unfold served, count, status_of, returns_bytes, name_accepted, disposition_text;
    cbn in Hu, Hl.
  - split; [ intros Hn | ];
      run_with ltac:(rewrite ?Ht, ?Hd, ?Hok, ?Hu, ?Hdb); solve [ finish | by_stored_header ].
  - run_with ltac:(rewrite ?Ht, ?Hd, ?Hok, ?Hu, ?Hdb); intros; repeat split; finish.
Qed.

Lemma X4_witness :
  looked_up Sample.fine [] (retrieval_path RetrievalB "F1") = None
  /\ status_of (outcome (GET RetrievalB Sample.visitor "F1" Sample.env_empty Sample.fine))
     = Some 404.
Proof.
  split; [ reflexivity | ].
  destruct (X4_retrieval_without_record RetrievalB Sample.visitor "F1" Sample.env_empty
              Sample.fine [] "photos/file_1.jpg" Sample.jpeg_bytes
              eq_refl eq_refl eq_refl eq_refl eq_refl eq_refl) as [[Hs _] _].
  exact Hs.
Defined.

(** X5.  Without a bound store a retrieval sends no statement at all, and
    serves every file that resolves, is fetched with a success status
    and has a name making a header value that the runtime takes,
    whatever the referer. *)
Theorem X5_retrieval_unbound_store (v : retrieval) request id env w :
  IMG env = None ->
  never is_store_call (trace (GET v request id env w))
  /\ (forall file_path res,
        resolved_path v env w id = Some file_path ->
        w_download w = Ret res ->
        up_ok res = true ->
        name_accepted v file_path = true ->
        outcome (GET v request id env w) = Ret (served v res file_path)).
Proof.
  intros Hdb. split.
  - unfold never.
    destruct (resolved_path v env w id) as [file_path |] eqn:Hp.
    + resolved_get v Hp; run_with ltac:(rewrite ?Ht, ?Hdb); finish.
    + unresolved_get v Hp; reflexivity.
  - intros file_path res Hp Hd Hok Hn.
    unfold name_accepted, disposition_text in Hn.
    resolved_get v Hp; unfold served;
      run_with ltac:(rewrite ?Ht, ?Hd, ?Hok, ?Hdb); by_stored_header.
Qed.

Lemma X5_witness :
  IMG Sample.env_unbound = None
  /\ name_accepted RetrievalA "photos/file_1.jpg" = true
  /\ never is_store_call
       (trace (GET RetrievalA Sample.visitor "F1" Sample.env_unbound Sample.fine))
  /\ outcome (GET RetrievalA Sample.visitor "F1" Sample.env_unbound Sample.fine)
     = Ret (served RetrievalA Sample.jpeg_bytes "photos/file_1.jpg").
Proof.
  do 2 (split; [ reflexivity | ]).
  destruct (X5_retrieval_unbound_store RetrievalA Sample.visitor "F1" Sample.env_unbound
              Sample.fine eq_refl) as [Hn Hs].
  split; [ exact Hn | ].
  exact (Hs "photos/file_1.jpg" Sample.jpeg_bytes eq_refl eq_refl eq_refl eq_refl).
Defined.

(** X6.  When the identifier resolves and the fetch of the bytes fails: a
    response without a success status is answered [success: false],
    after exactly the two calls (path lookup, file), with its own status
    when that is a status a response with a body may have, and with 500
    otherwise (304 and what lies outside 200..599 make the constructor
    throw); a fetch that throws gives 500 with the handler's message.
    The store is not touched in either case. *)
Theorem X6_retrieval_failed_fetch (v : retrieval) request id env w file_path :
  resolved_path v env w id = Some file_path ->
  (forall res,
     w_download w = Ret res ->
     up_ok res = false ->
     status_of (outcome (GET v request id env w))
     = Some (if Js.body_status (up_status res) then up_status res else 500)
     /\ member_of "success" (outcome (GET v request id env w)) = Some (JBool false)
     /\ filter is_outbound (trace (GET v request id env w))
        = [getFile_call env id; HttpGet (file_api ++ TG_BOT_TOKEN env ++ "/" ++ file_path)]
     /\ never is_store_call (trace (GET v request id env w)))
  /\ (forall msg,
        w_download w = Throw msg ->
        status_of (outcome (GET v request id env w)) = Some 500
        /\ member_of "message" (outcome (GET v request id env w))
           = Some (JStr ("服务器内部错误: " ++ msg))
        /\ never is_store_call (trace (GET v request id env w))).
Proof.
  intros Hp.
  resolved_get v Hp; unfold never, status_of, member_of, member.
  - split; [ intros res Hd Hok | intros msg Hd ];
      run_with ltac:(rewrite ?Ht, ?Hd, ?Hok); repeat split; finish.
  - split; [ intros res Hd Hok | intros msg Hd ];
      run_with ltac:(rewrite ?Ht, ?Hd, ?Hok); repeat split; finish.
Qed.

Lemma X6_witness :
  resolved_path RetrievalA Sample.env Sample.gone "F1" = Some "photos/file_1.jpg"
  /\ status_of (outcome (GET RetrievalA Sample.visitor "F1" Sample.env Sample.gone))
     = Some 404
  /\ status_of (outcome (GET RetrievalB Sample.visitor "F1" Sample.env Sample.not_modified))
     = Some 500
  /\ status_of (outcome (GET RetrievalA Sample.visitor "F1" Sample.env Sample.download_down))
     = Some 500.
Proof.
  split; [ reflexivity | split; [ | split ] ].
  - destruct (X6_retrieval_failed_fetch RetrievalA Sample.visitor "F1" Sample.env
                Sample.gone "photos/file_1.jpg" eq_refl) as [Hres _].
    exact (proj1 (Hres (mkFetched 404 [] "Not Found") eq_refl eq_refl)).
  - destruct (X6_retrieval_failed_fetch RetrievalB Sample.visitor "F1" Sample.env
                Sample.not_modified "photos/file_1.jpg" eq_refl) as [Hres _].
    exact (proj1 (Hres (mkFetched 304 [] EmptyString) eq_refl eq_refl)).
  - destruct (X6_retrieval_failed_fetch RetrievalA Sample.visitor "F1" Sample.env
                Sample.download_down "photos/file_1.jpg" eq_refl) as [_ Hthrow].
    exact (proj1 (Hthrow "network down" eq_refl)).
Defined.

Lemma not_ok_is_not_200 {B} (res : Fetched B) :
  up_ok res = false -> up_status res <> 200.
Proof. unfold up_ok. intros H Heq. rewrite Heq in H. discriminate. Qed.

(** X7.  A retrieval response with status 200, or with a body of bytes, is
    the served file: the identifier resolved, the bytes were fetched
    with a success status, and the response is the one built from
    them. *)
Theorem X7_retrieval_200_is_the_file (v : retrieval) request id env w resp :
  outcome (GET v request id env w) = Ret resp ->
  status resp = 200 \/ (exists b, body resp = BodyBytes b) ->
  exists res file_path,
    w_download w = Ret res /\ up_ok res = true
    /\ resolved_path v env w id = Some file_path
    /\ resp = served v res file_path.
Proof.
  destruct (resolved_path v env w id) as [file_path |] eqn:Hp.
  - resolved_get v Hp; unfold served.
    all: run_with ltac:(rewrite ?Ht); intros Hresp Hs; injection Hresp as <-; cbn in Hs.
    all: repeat match goal with
           | H : negb _ = true |- _ => apply negb_true_iff in H
           | H : negb _ = false |- _ => apply negb_false_iff in H
           | H : Js.header_value _ = Some _ |- _ => apply header_value_stored in H; subst
           end.
    all: first
           [ solve [ do 2 eexists; repeat split; try eassumption; reflexivity ]
           | destruct Hs as [Hs | [b Hs]]; try discriminate;
             exfalso; eapply not_ok_is_not_200; eassumption ].
  - unresolved_get v Hp; intros Hresp Hs; injection Hresp as <-; cbn in Hs.
    all: destruct Hs as [Hs | [b Hs]]; discriminate.
Qed.

Lemma X7_witness :
  outcome (GET RetrievalB Sample.admin "F1" Sample.env Sample.fine)
  = Ret (served RetrievalB Sample.jpeg_bytes "photos/file_1.jpg")
  /\ exists res file_path,
       w_download Sample.fine = Ret res /\ up_ok res = true
       /\ resolved_path RetrievalB Sample.env Sample.fine "F1" = Some file_path
       /\ served RetrievalB Sample.jpeg_bytes "photos/file_1.jpg"
          = served RetrievalB res file_path.
Proof.
  split; [ reflexivity | ].
  exact (X7_retrieval_200_is_the_file RetrievalB Sample.admin "F1" Sample.env Sample.fine
           (served RetrievalB Sample.jpeg_bytes "photos/file_1.jpg")
           eq_refl (or_introl eq_refl)).
Defined.

(** *** The name of the served file *)

Lemma string_app_assoc (a b c : string) : (a ++ b) ++ c = a ++ (b ++ c).
Proof.
  induction a as [| x a IH]; [ reflexivity | ].
  change (String x ((a ++ b) ++ c) = String x (a ++ (b ++ c))).
  rewrite IH. reflexivity.
Qed.


Lemma has_slash_app (a b : string) : has_slash (a ++ b) = has_slash a || has_slash b.
Proof.
  induction a as [| x a IH]; [ reflexivity | ].
  change (Ascii.eqb x "/" || has_slash (a ++ b)
          = Ascii.eqb x "/" || has_slash a || has_slash b).
  rewrite IH, orb_assoc. reflexivity.
Qed.







(** *** The rows of [imginfo] across a retrieval *)

Lemma count_hit_keeps (db : D1) (path : string) :
  map url (count_hit db path) = map url db
  /\ map rating (count_hit db path) = map rating db
  /\ length (count_hit db path) = length db.
Proof.
  unfold count_hit. rewrite !map_map, length_map.
  repeat split; apply map_ext; intros r; destruct (String.eqb (url r) path); reflexivity.
Qed.

(** X9.  Whatever a retrieval does, the rows of [imginfo] keep their paths
    and their ratings: the rows are left as they were, or the counters
    of the rows of the retrieved path are incremented, which takes a
    lookup that found a rating and an [UPDATE] that succeeded. *)
Theorem X9_retrieval_keeps_the_records (v : retrieval) request id env w DB :
  IMG env = Some DB ->
  exists DB',
    store_after w DB (trace (GET v request id env w)) = Some DB'
    /\ map url DB' = map url DB
    /\ map rating DB' = map rating DB
    /\ (DB' = DB
        \/ (DB' = count_hit DB (retrieval_path v id)
            /\ looked_up w DB (retrieval_path v id) <> None
            /\ w_update w = None)).
Proof.
  intros Hdb. unfold looked_up.
  destruct (resolved_path v env w id) as [file_path |] eqn:Hp.
  - resolved_get v Hp.
    all: run_with ltac:(rewrite ?Ht, ?Hdb).
    all: first
           [ solve [ eexists; split; [ reflexivity | ]; split; [ reflexivity | ];
                     split; [ reflexivity | ]; left; reflexivity ]
           | eexists; split; [ reflexivity | ];
             split; [ apply count_hit_keeps | ];
             split; [ apply count_hit_keeps | ];
             right; split; [ reflexivity | split; congruence ] ].
  - exists DB.
    assert (Hsame : forall logs, quiet logs -> store_after w DB logs = Some DB).
    { intros logs Hq. induction Hq as [| e t He _ IH]; [ reflexivity | ].
      cbn. unfold is_console in He. destruct (performed e); try discriminate. exact IH. }
    destruct v.
    + destruct (unresolved_in_A _ _ _ Hp) as (raw & logs & Hg & Ht & Hq).
      unfold_get_body. rewrite Hg. cbn. rewrite Ht. cbn. rewrite app_nil_r.
      rewrite (Hsame _ Hq). auto.
    + destruct (unresolved_in_B _ _ _ Hp) as (logs & Hg & Hq).
      unfold_get_body. rewrite Hg. cbn. rewrite app_nil_r.
      rewrite (Hsame _ Hq). auto.
Qed.

Lemma X9_witness :
  IMG Sample.env_rated = Some Sample.other_rows
  /\ exists DB',
       store_after Sample.fine Sample.other_rows
         (trace (GET RetrievalA Sample.visitor "F1" Sample.env_rated Sample.fine))
       = Some DB'
       /\ map url DB' = map url Sample.other_rows
       /\ map rating DB' = map rating Sample.other_rows.
Proof.
  split; [ reflexivity | ].
  destruct (X9_retrieval_keeps_the_records RetrievalA Sample.visitor "F1" Sample.env_rated
              Sample.fine Sample.other_rows eq_refl) as (DB' & Hs & Hu & Hr & _).
  exists DB'. split; [ exact Hs | split; [ exact Hu | exact Hr ] ].
Defined.

(** *** Upload *)

Ltac unfold_post_body :=
  unfold POST, CfileA.POST, Upload.POST, TgChannel.POST, await, console, emit, waitUntil.

(** Open the helpers that a run has left folded. *)
Ltac open_extraction :=
  repeat match goal with
    | |- context [CfileA.extractFileData ?t] =>
        destruct (CfileA.extractFileData t) as [[[? |] | ?] ?]
    | |- context [Upload.extractFileData ?t] =>
        destruct (Upload.extractFileData t) as [[[? |] | ?] ?]
    | |- context [TgChannel.getFile ?t] =>
        destruct (TgChannel.getFile t) as [[[? |] | ?] ?]
    end.

Ltac open_rating :=
  repeat match goal with
    | |- context [TgChannel.getRating ?e ?w ?i] =>
        let r := fresh "r" in
        let t := fresh "t" in
        let Hr := fresh "Hr" in
        destruct (tg_getRating_returns e w i) as (r & t & Hr); rewrite Hr
    end.


(** X10.  The tgchannel handler reads [request.socket.remoteAddress] before
    its [try]: a request with neither forwarding header nor socket makes
    it throw, with nothing performed and no response. *)
Theorem X10_tgchannel_needs_an_address request env w :
  has_client_address request = false ->
  outcome (POST UploadTgChannel request env w)
  = Throw "Cannot read properties of undefined (reading 'remoteAddress')"
  /\ trace (POST UploadTgChannel request env w) = [].
Proof.
  unfold has_client_address. unfold_post_body.
  run; intros; try discriminate; split; reflexivity.
Qed.

Lemma X10_witness :
  has_client_address Sample.anonymous = false
  /\ outcome (POST UploadTgChannel Sample.anonymous Sample.env Sample.fine)
     = Throw "Cannot read properties of undefined (reading 'remoteAddress')".
Proof.
  split; [ reflexivity | ].
  exact (proj1 (X10_tgchannel_needs_an_address Sample.anonymous Sample.env Sample.fine eq_refl)).
Defined.

(** X11.  In the two guarded upload handlers a send that Telegram answers
    without a success status is answered 502 with Telegram's body under
    [telegram_response], after the one send call; nothing is extracted
    and the store is not touched, whatever the body says. *)
Theorem X11_upload_http_failure_is_502 (v : upload) request env w file res tg :
  v <> UploadTgChannel ->
  form_file request = FileEntry file ->
  w_send w = Ret res ->
  up_body res = Ret tg ->
  up_ok res = false ->
  status_of (outcome (POST v request env w)) = Some 502
  /\ member_of "telegram_response" (outcome (POST v request env w)) = Some (JTelegram tg)
  /\ count is_outbound (trace (POST v request env w)) = 1%nat
  /\ never is_extraction (trace (POST v request env w))
  /\ never is_store_call (trace (POST v request env w)).
Proof.
  intros Hv Hf Hs Hb Hok.
  destruct v; [ | | congruence ]; unfold_post_body;
    unfold status_of, member_of, member, count, never;
    run_with ltac:(rewrite ?Hf, ?Hs, ?Hb, ?Hok); repeat split.
Qed.

Lemma X11_witness :
  w_send Sample.bad_gateway
  = Ret (mkFetched 500 [] (Ret (Sample.photo_message Sample.three_sizes)))
  /\ status_of (outcome (POST UploadPart Sample.visitor Sample.env Sample.bad_gateway))
     = Some 502
  /\ never is_store_call
       (trace (POST UploadPart Sample.visitor Sample.env Sample.bad_gateway)).
Proof.
  split; [ reflexivity | ].
  destruct (X11_upload_http_failure_is_502 UploadPart Sample.visitor Sample.env
              Sample.bad_gateway Sample.jpeg
              (mkFetched 500 [] (Ret (Sample.photo_message Sample.three_sizes)))
              (Sample.photo_message Sample.three_sizes)
              ltac:(discriminate) eq_refl eq_refl eq_refl eq_refl)
    as (Hs & _ & _ & _ & Hn).
  split; [ exact Hs | exact Hn ].
Defined.

(** X12.  The tgchannel handler does not look at the status of the send
    response: with the same headers and body, every status gives the
    same response and the same effects. *)
Theorem X12_tgchannel_ignores_the_http_status request env w res code :
  w_send w = Ret res ->
  POST UploadTgChannel request env
    (with_send w (Ret (mkFetched code (up_headers res) (up_body res))))
  = POST UploadTgChannel request env w.
Proof.
  intros Hs. unfold POST, TgChannel.POST, with_send. cbn [w_send]. rewrite Hs.
  reflexivity.
Qed.

Lemma X12_witness :
  w_send Sample.fine = Ret (mkFetched 200 [] (Ret (Sample.photo_message Sample.three_sizes)))
  /\ POST UploadTgChannel Sample.visitor Sample.env
       (with_send Sample.fine
          (Ret (mkFetched 500 [] (Ret (Sample.photo_message Sample.three_sizes)))))
     = POST UploadTgChannel Sample.visitor Sample.env Sample.fine.
Proof.
  split; [ reflexivity | ].
  exact (X12_tgchannel_ignores_the_http_status Sample.visitor Sample.env Sample.fine
           (mkFetched 200 [] (Ret (Sample.photo_message Sample.three_sizes))) 500 eq_refl).
Defined.

(** X13.  When the send call throws, or its body cannot be parsed, each
    upload handler answers 500 with its own message made of the error's;
    nothing is extracted and the store is not touched. *)
Theorem X13_upload_send_failure_is_500 (v : upload) request env w file msg :
  form_file request = FileEntry file ->
  (v = UploadTgChannel -> has_client_address request = true) ->
  w_send w = Throw msg
  \/ (exists res, w_send w = Ret res /\ up_body res = Throw msg) ->
  status_of (outcome (POST v request env w)) = Some 500
  /\ member_of "message" (outcome (POST v request env w))
     = Some (JStr (unexpected_message v msg))
  /\ never is_extraction (trace (POST v request env w))
  /\ never is_store_call (trace (POST v request env w)).
Proof.
  intros Hf Ha Hs.
  destruct v; unfold_post_body; unfold status_of, member_of, member, never,
    unexpected_message, has_client_address in *.
  - destruct Hs as [Hs | (res & Hs & Hb)];
      run_with ltac:(rewrite ?Hf, ?Hs, ?Hb); repeat split.
  - destruct Hs as [Hs | (res & Hs & Hb)];
      run_with ltac:(rewrite ?Hf, ?Hs, ?Hb); repeat split.
  - specialize (Ha eq_refl).
    destruct Hs as [Hs | (res & Hs & Hb)];
      run_with ltac:(rewrite ?Hf, ?Hs, ?Hb, ?selectEndpoint_rule);
      try discriminate; repeat split.
Qed.

Lemma X13_witness :
  w_send Sample.unreachable = Throw "network down"
  /\ has_client_address Sample.visitor = true
  /\ status_of (outcome (POST UploadTgChannel Sample.visitor Sample.env Sample.unreachable))
     = Some 500
  /\ member_of "message"
       (outcome (POST UploadTgChannel Sample.visitor Sample.env Sample.unreachable))
     = Some (JStr " network down").
Proof.
  split; [ reflexivity | split; [ reflexivity | ] ].
  destruct (X13_upload_send_failure_is_500 UploadTgChannel Sample.visitor Sample.env
              Sample.unreachable Sample.jpeg "network down"
              eq_refl (fun _ => eq_refl) (or_introl eq_refl)) as (Hs & Hm & _).
  split; [ exact Hs | exact Hm ].
Defined.

(** An extraction reads the response and at most writes a console line. *)
Lemma extraction_is_local (v : upload) tg :
  filter is_store_call (trace (extract_of v tg)) = []
  /\ filter is_outbound (trace (extract_of v tg)) = [].
Proof.
  destruct v; unfold extract_of, CfileA.extractFileData, Upload.extractFileData,
    TgChannel.getFile, reduce, console, emit; run; split; reflexivity.
Qed.

(** An accepted upload from which no file identity comes out is answered
    500, after the one send call and without a word to the store. *)
Lemma without_identity_500 (v : upload) request env w file res tg :
  form_file request = FileEntry file ->
  (v = UploadTgChannel -> has_client_address request = true) ->
  w_send w = Ret res ->
  up_ok res = true ->
  up_body res = Ret tg ->
  ok tg = true ->
  (forall fd, outcome (extract_of v tg) <> Ret (Some fd)) ->
  status_of (outcome (POST v request env w)) = Some 500
  /\ never is_store_call (trace (POST v request env w))
  /\ count is_outbound (trace (POST v request env w)) = 1%nat.
Proof.
  intros Hf Ha Hs Hu Hb Hok Hx.
  destruct (extraction_is_local v tg) as [Hstore Hout].
  destruct v; unfold extract_of in Hx, Hstore, Hout; unfold_post_body;
    unfold status_of, never, count, has_client_address in *.
  - destruct (CfileA.extractFileData tg) as [[[fd |] | msg] tx] eqn:Hex;
      [ exfalso; exact (Hx fd eq_refl) | | ]; cbn in Hstore, Hout;
      run_with ltac:(rewrite ?Hf, ?Hs, ?Hu, ?Hb, ?Hok, ?Hex);
      rewrite ?filter_app, ?Hstore, ?Hout; repeat split.
  - destruct (Upload.extractFileData tg) as [[[fd |] | msg] tx] eqn:Hex;
      [ exfalso; exact (Hx fd eq_refl) | | ]; cbn in Hstore, Hout;
      run_with ltac:(rewrite ?Hf, ?Hs, ?Hu, ?Hb, ?Hok, ?Hex);
      rewrite ?filter_app, ?Hstore, ?Hout; repeat split.
  - specialize (Ha eq_refl).
    destruct (TgChannel.getFile tg) as [[[fd |] | msg] tx] eqn:Hex;
      [ exfalso; exact (Hx fd eq_refl) | | ]; cbn in Hstore, Hout;
      run_with ltac:(rewrite ?Hf, ?Hs, ?Hu, ?Hb, ?Hok, ?Hex, ?selectEndpoint_rule);
      try discriminate;
      rewrite ?filter_app, ?Hstore, ?Hout; repeat split.
Qed.

(** X14.  An accepted send whose result carries no photo, document, video or
    audio gives no file identity: each upload handler answers 500 after
    its one call, and the store is not touched. *)
Theorem X14_upload_without_file_object_is_500 (v : upload) request env w file res d :
  form_file request = FileEntry file ->
  (v = UploadTgChannel -> has_client_address request = true) ->
  w_send w = Ret res ->
  up_ok res = true ->
  up_body res = Ret (mkTgResponse true (Some (mkTgResult None None None None)) d) ->
  outcome (extract_of v (mkTgResponse true (Some (mkTgResult None None None None)) d))
  = Ret None
  /\ status_of (outcome (POST v request env w)) = Some 500
  /\ never is_store_call (trace (POST v request env w))
  /\ count is_outbound (trace (POST v request env w)) = 1%nat.
Proof.
  intros Hf Ha Hs Hu Hb.
  assert (Hx : outcome (extract_of v (mkTgResponse true
                                        (Some (mkTgResult None None None None)) d))
               = Ret None) by (destruct v; reflexivity).
  split; [ exact Hx | ].
  apply (without_identity_500 v request env w file res _ Hf Ha Hs Hu Hb eq_refl).
  intros fd. rewrite Hx. discriminate.
Qed.

Lemma X14_witness :
  w_send Sample.empty_sent = Ret (mkFetched 200 [] (Ret Sample.empty_message))
  /\ status_of (outcome (POST UploadCfile Sample.visitor Sample.env Sample.empty_sent))
     = Some 500.
Proof.
  split; [ reflexivity | ].
  destruct (X14_upload_without_file_object_is_500 UploadCfile Sample.visitor Sample.env
              Sample.empty_sent Sample.jpeg (mkFetched 200 [] (Ret Sample.empty_message))
              None eq_refl (fun _ => eq_refl) eq_refl eq_refl eq_refl) as (_ & Hs & _).
  exact Hs.
Defined.

(** X15.  An accepted send whose result has an empty [photo] list: [reduce]
    throws in the extraction of the two guarded handlers, and the
    catch-all answers 500; in the tgchannel handler the extraction
    catches the error, writes a console line and returns null, and the
    handler answers 500.  The store is not touched. *)
Theorem X15_upload_with_empty_photo_list_is_500 (v : upload) request env w file res r d :
  form_file request = FileEntry file ->
  (v = UploadTgChannel -> has_client_address request = true) ->
  w_send w = Ret res ->
  up_ok res = true ->
  up_body res = Ret (mkTgResponse true (Some r) d) ->
  photo r = Some [] ->
  match v with
  | UploadCfile | UploadPart =>
      outcome (extract_of v (mkTgResponse true (Some r) d))
      = Throw "Reduce of empty array with no initial value"
  | UploadTgChannel =>
      extract_of v (mkTgResponse true (Some r) d)
      = (Ret None, [Extraction; ReadResult; Console "Error getting file id:"])
  end
  /\ status_of (outcome (POST v request env w)) = Some 500
  /\ never is_store_call (trace (POST v request env w)).
Proof.
  intros Hf Ha Hs Hu Hb Hp.
  assert (Hx : match v with
               | UploadCfile | UploadPart =>
                   outcome (extract_of v (mkTgResponse true (Some r) d))
                   = Throw "Reduce of empty array with no initial value"
               | UploadTgChannel =>
                   extract_of v (mkTgResponse true (Some r) d)
                   = (Ret None, [Extraction; ReadResult; Console "Error getting file id:"])
               end).
  { destruct v; unfold extract_of, CfileA.extractFileData, Upload.extractFileData,
      TgChannel.getFile; cbn [ok result negb]; rewrite Hp; reflexivity. }
  split; [ exact Hx | ].
  destruct (without_identity_500 v request env w file res _ Hf Ha Hs Hu Hb eq_refl)
    as (H500 & Hstore & _).
  - intros fd. destruct v; rewrite Hx; discriminate.
  - split; assumption.
Qed.

Lemma X15_witness :
  w_send Sample.no_sizes_sent = Ret (mkFetched 200 [] (Ret Sample.no_sizes_message))
  /\ outcome (extract_of UploadPart Sample.no_sizes_message)
     = Throw "Reduce of empty array with no initial value"
  /\ status_of (outcome (POST UploadPart Sample.visitor Sample.env Sample.no_sizes_sent))
     = Some 500.
Proof.
  split; [ reflexivity | ].
  destruct (X15_upload_with_empty_photo_list_is_500 UploadPart Sample.visitor Sample.env
              Sample.no_sizes_sent Sample.jpeg
              (mkFetched 200 [] (Ret Sample.no_sizes_message))
              (mkTgResult (Some []) (Some Sample.document_file) None None) None
              eq_refl (fun _ => eq_refl) eq_refl eq_refl eq_refl eq_refl) as (Hx & Hs & _).
  split; [ exact Hx | exact Hs ].
Defined.

(** X16.  For a result with both a document and a video and no photo, the
    two guarded handlers take the document and the tgchannel handler
    takes the video; each names the file by [file_name], or by
    [file_unique_id] when that is missing or empty. *)
Theorem X16_document_and_video_order tg r d vd :
  ok tg = true ->
  result tg = Some r ->
  photo r = None ->
  document r = Some d ->
  video r = Some vd ->
  outcome (extract_of UploadCfile tg) = Ret (Some (mkFileData (file_id d) (name_or_unique d)))
  /\ outcome (extract_of UploadPart tg) = Ret (Some (mkFileData (file_id d) (name_or_unique d)))
  /\ outcome (extract_of UploadTgChannel tg)
     = Ret (Some (mkFileData (file_id vd) (name_or_unique vd))).
Proof.
  intros Hok Hr Hp Hd Hv.
  unfold extract_of, CfileA.extractFileData, Upload.extractFileData, TgChannel.getFile,
    TgChannel.getFileDetails, first_present.
  rewrite Hok, Hr, Hp, Hd, Hv. repeat split.
Qed.

Lemma X16_witness :
  outcome (extract_of UploadPart Sample.mixed_message)
  = Ret (Some (mkFileData "DOC" "report.pdf"))
  /\ outcome (extract_of UploadTgChannel Sample.mixed_message)
     = Ret (Some (mkFileData "VID" "u-VID")).
Proof.
  destruct (X16_document_and_video_order Sample.mixed_message
              (mkTgResult None (Some Sample.document_file) (Some Sample.video_file) None)
              Sample.document_file Sample.video_file
              eq_refl eq_refl eq_refl eq_refl eq_refl) as (_ & Hp & Ht).
  split; [ exact Hp | exact Ht ].
Defined.


(** X17.  Without a bound store an upload sends no statement, and makes at
    most one outbound call: the file is not rated. *)
Theorem X17_upload_unbound_store (v : upload) request env w :
  IMG env = None ->
  never is_store_call (trace (POST v request env w))
  /\ (count is_outbound (trace (POST v request env w)) <= 1)%nat.
Proof.
  intros Hdb. unfold never, count.
  destruct v; unfold_post_body.
  - run_with ltac:(rewrite ?Hdb);
      repeat match goal with
        | |- context [CfileA.extractFileData ?t] =>
            let Hl := fresh "Hl" in
            pose proof (extraction_is_local UploadCfile t) as Hl; unfold extract_of in Hl;
            destruct (CfileA.extractFileData t) as [[[? |] | ?] ?]; cbn in Hl;
            destruct Hl as [? ?]
        end;
      run_with ltac:(rewrite ?Hdb);
      rewrite ?filter_app; cbn;
      repeat match goal with H : filter _ _ = [] |- _ => rewrite H; clear H end; cbn;
      split; solve [ reflexivity | lia ].
  - run_with ltac:(rewrite ?Hdb);
      repeat match goal with
        | |- context [Upload.extractFileData ?t] =>
            let Hl := fresh "Hl" in
            pose proof (extraction_is_local UploadPart t) as Hl; unfold extract_of in Hl;
            destruct (Upload.extractFileData t) as [[[? |] | ?] ?]; cbn in Hl;
            destruct Hl as [? ?]
        end;
      run_with ltac:(rewrite ?Hdb);
      rewrite ?filter_app; cbn;
      repeat match goal with H : filter _ _ = [] |- _ => rewrite H; clear H end; cbn;
      split; solve [ reflexivity | lia ].
  - run_with ltac:(rewrite ?Hdb, ?selectEndpoint_rule);
      repeat match goal with
        | |- context [TgChannel.getFile ?t] =>
            let Hl := fresh "Hl" in
            pose proof (extraction_is_local UploadTgChannel t) as Hl; unfold extract_of in Hl;
            destruct (TgChannel.getFile t) as [[[? |] | ?] ?]; cbn in Hl;
            destruct Hl as [? ?]
        end;
      run_with ltac:(rewrite ?Hdb, ?selectEndpoint_rule);
      rewrite ?filter_app; cbn;
      repeat match goal with H : filter _ _ = [] |- _ => rewrite H; clear H end; cbn;
      split; solve [ reflexivity | lia ].
Qed.

Lemma X17_witness :
  IMG Sample.env_unbound = None
  /\ never is_store_call
       (trace (POST UploadTgChannel Sample.visitor Sample.env_unbound Sample.fine)).
Proof.
  split; [ reflexivity | ].
  exact (proj1 (X17_upload_unbound_store UploadTgChannel Sample.visitor Sample.env_unbound
                  Sample.fine eq_refl)).
Defined.


(** *** Rating and bookkeeping *)

Ltac unfold_rating :=
  unfold rating_of, CfileA.getRatingFromApi, Upload.getRating, TgChannel.getRating,
    CfileA.getFilePathFromTelegram, Upload.getFilePath, TgChannel.getFile_path,
    ratingApiBase, nullish, fetch_json, await, console, emit.

(** A rating computation returns, whatever the outside answers; it calls
    out twice at most and leaves the store alone. *)
Lemma rating_of_returns (v : upload) env w id :
  exists r t,
    rating_of v env w id = (Ret r, t)
    /\ filter is_store_call t = []
    /\ (length (filter is_outbound t) <= 2)%nat.
Proof.
  destruct v; unfold_rating; run; do 2 eexists; (split; [ reflexivity | ]);
    split; solve [ reflexivity | cbn; lia ].
Qed.

(** X18.  When the path resolves, a rating service is configured and its
    answer has a [rating_index], that value is the rating; a [null]
    index becomes -1 in the two guarded handlers ([??]) and stays
    [null] in the tgchannel handler ([hasOwnProperty]). *)
Theorem X18_service_rating_is_passed_on (v : upload) env w id data index :
  resolves w = true ->
  configured env = true ->
  w_rating w = Ret (Ret data) ->
  rating_index data = Some index ->
  (index <> JNull -> outcome (rating_of v env w id) = Ret index)
  /\ (index = JNull ->
      outcome (rating_of v env w id)
      = Ret (match v with UploadTgChannel => JNull | _ => JNum (-1) end)).
Proof.
  unfold resolves, bookkeeping_path, configured.
  intros Hres Hc Hw Hi.
  destruct v; unfold_rating; rewrite Hw in *; revert Hres Hc.
  all: run_with ltac:(rewrite ?Hi, ?truthy_with_mark); intros;
    try discriminate; split; intros; subst; try reflexivity; congruence.
Qed.

Lemma X18_witness :
  resolves Sample.rated_three = true
  /\ configured Sample.env = true
  /\ outcome (rating_of UploadCfile Sample.env Sample.rated_three "F1") = Ret (JNum 3)
  /\ outcome (rating_of UploadTgChannel Sample.env Sample.rated_null "F1") = Ret JNull
  /\ outcome (rating_of UploadPart Sample.env Sample.rated_null "F1") = Ret (JNum (-1)).
Proof.
  split; [ reflexivity | split; [ reflexivity | split; [ | split ] ] ].
  - exact (proj1 (X18_service_rating_is_passed_on UploadCfile Sample.env Sample.rated_three
                    "F1" (mkRatingResponse (Some (JNum 3))) (JNum 3)
                    eq_refl eq_refl eq_refl eq_refl) ltac:(discriminate)).
  - exact (proj2 (X18_service_rating_is_passed_on UploadTgChannel Sample.env Sample.rated_null
                    "F1" (mkRatingResponse (Some JNull)) JNull
                    eq_refl eq_refl eq_refl eq_refl) eq_refl).
  - exact (proj2 (X18_service_rating_is_passed_on UploadPart Sample.env Sample.rated_null
                    "F1" (mkRatingResponse (Some JNull)) JNull
                    eq_refl eq_refl eq_refl eq_refl) eq_refl).
Defined.

(** X19.  The tgchannel rating does not test the path it was given: when the
    path lookup fails it still returns 0 without a configured service,
    and with one it calls the service (two outbound calls in all) and
    returns its index, or -1 when the answer has none. *)
Theorem X19_tgchannel_rates_an_unresolved_path env w id :
  resolves w = false ->
  (configured env = false -> outcome (TgChannel.getRating env w id) = Ret (JNum 0))
  /\ (forall data,
        configured env = true ->
        w_rating w = Ret (Ret data) ->
        outcome (TgChannel.getRating env w id)
        = Ret (match rating_index data with Some v => v | None => JNum (-1) end)
        /\ count is_outbound (trace (TgChannel.getRating env w id)) = 2%nat).
Proof.
  unfold resolves, bookkeeping_path, configured, count.
  intros Hres. split; [ | intros data Hc Hw; revert Hc ]; revert Hres; unfold_rating.
  - run_with ltac:(rewrite ?truthy_with_mark); intros; try discriminate; reflexivity.
  - rewrite Hw.
    run_with ltac:(rewrite ?truthy_with_mark); intros; try discriminate; split; reflexivity.
Qed.

Lemma X19_witness :
  resolves Sample.unresolved = false
  /\ outcome (TgChannel.getRating Sample.env_plain Sample.unresolved "F1") = Ret (JNum 0)
  /\ outcome (TgChannel.getRating Sample.env Sample.unresolved "F1") = Ret (JNum 1)
  /\ count is_outbound (trace (TgChannel.getRating Sample.env Sample.unresolved "F1"))
     = 2%nat.
Proof.
  split; [ reflexivity | split ].
  - exact (proj1 (X19_tgchannel_rates_an_unresolved_path Sample.env_plain Sample.unresolved
                    "F1" eq_refl) eq_refl).
  - exact (proj2 (X19_tgchannel_rates_an_unresolved_path Sample.env Sample.unresolved
                    "F1" eq_refl) (mkRatingResponse (Some (JNum 1))) eq_refl eq_refl).
Defined.


#[local] Arguments Upload.getFilePath : simpl never.
#[local] Arguments TgChannel.getFile_path : simpl never.

(** With a path given by the backend, each path helper returns it after
    its one call. *)
Lemma bookkeeping_path_found env w id file_path :
  bookkeeping_path w = Some file_path ->
  Js.truthy (Some file_path) = Some file_path
  /\ CfileA.getFilePathFromTelegram env w id = (Ret (Some file_path), [getFile_call env id])
  /\ Upload.getFilePath env w id = (Ret (Some file_path), [getFile_call env id])
  /\ TgChannel.getFile_path env w id = (Ret (Some file_path), [getFile_call env id]).
Proof.
  unfold bookkeeping_path, CfileA.getFilePathFromTelegram, Upload.getFilePath,
    TgChannel.getFile_path, getFile_call, fetch_json, await, console, emit.
  destruct (w_getFile w) as [[[okb res d] | msg] | msg]; try discriminate.
  cbn [gf_ok gf_result].
  destruct okb; try discriminate.
  destruct res as [[p |] |]; try discriminate.
  intros Hp. assert (p = file_path) as ->.
    { unfold Js.truthy in Hp; destruct p; congruence. }
    split; [ exact Hp | ]. repeat split.
Qed.

(** X20.  With [RATINGAPI] set and a path that resolves, a rating makes
    exactly two calls: the path lookup, then a GET of the custom base
    followed by the query of the handler, which is the file URL:
    percent-encoded in the first handler, as it is in the second, and
    after a [?] in the tgchannel handler. *)
Theorem X20_rating_call_uses_the_custom_base (v : upload) env w id base file_path :
  Js.truthy (RATINGAPI env) = Some base ->
  bookkeeping_path w = Some file_path ->
  filter is_outbound (trace (rating_of v env w id))
  = [getFile_call env id; HttpGet (base ++ rating_query v env file_path)].
Proof.
  intros Hb Hp.
  destruct (bookkeeping_path_found env w id file_path Hp) as (Ht & Ha & Hu & Hg).
  unfold rating_query.
  destruct v; unfold rating_of, CfileA.getRatingFromApi, Upload.getRating,
    TgChannel.getRating, ratingApiBase, fetch_json, await, console, emit.
  - rewrite Ha. cbn. rewrite Ht, Hb. cbn.
    destruct (w_rating w) as [[data | msg] | msg]; reflexivity.
  - rewrite Hu. cbn. rewrite Ht, Hb. cbn.
    destruct (w_rating w) as [[data | msg] | msg]; reflexivity.
  - rewrite Hg. cbn. rewrite Hb, truthy_with_mark. cbn.
    rewrite string_app_assoc.
    destruct (w_rating w) as [[data | msg] | msg]; reflexivity.
Qed.

Lemma X20_witness :
  Js.truthy (RATINGAPI Sample.env_custom) = Some "https://rate.example/check"
  /\ bookkeeping_path Sample.fine = Some "photos/file_1.jpg"
  /\ filter is_outbound (trace (rating_of UploadPart Sample.env_custom Sample.fine "F1"))
     = [HttpGet "https://api.telegram.org/botTOKEN/getFile?file_id=F1";
        HttpGet ("https://rate.example/check"
                 ++ "url=https://api.telegram.org/file/botTOKEN/photos/file_1.jpg")].
Proof.
  split; [ reflexivity | split; [ reflexivity | ] ].
  exact (X20_rating_call_uses_the_custom_base UploadPart Sample.env_custom Sample.fine "F1"
           "https://rate.example/check" "photos/file_1.jpg" eq_refl eq_refl).
Defined.



Lemma store_calls_of_deferred (t : list event) :
  filter is_store_call (map Deferred t) = map Deferred (filter is_store_call t).
Proof.
  induction t as [| e t IH]; [ reflexivity | ].
  cbn [map filter]. change (is_store_call (Deferred e)) with (is_store_call e).
  destruct (is_store_call e); cbn [map]; rewrite IH; reflexivity.
Qed.

(** What the insert of a deferred bookkeeping leaves in the trace. *)
Lemma deferred_insert_run (v : upload) DB w src referer ip rating time :
  v <> UploadTgChannel ->
  filter is_store_call
    (trace (match v with
            | UploadCfile => CfileA.insertUploadData DB w src referer ip rating time
            | _ => Upload.insertImageData DB w src referer ip rating time
            end))
  = [DbRun sql_insert_info [JStr src; JStr referer; JStr ip; rating; JStr time]].
Proof.
  intros Hv. destruct v; [ | | congruence ];
    unfold CfileA.insertUploadData, Upload.insertImageData, db_run, console, emit;
    destruct (w_insert_info w); reflexivity.
Qed.

Lemma upload_store_calls (v : upload) request env w file res tg fd DB :
  v <> UploadTgChannel ->
  form_file request = FileEntry file ->
  w_send w = Ret res ->
  up_ok res = true ->
  up_body res = Ret tg ->
  outcome (extract_of v tg) = Ret (Some fd) ->
  IMG env = Some DB ->
  exists rating,
    outcome (rating_of v env w (fd_file_id fd)) = Ret rating
    /\ filter is_store_call (trace (POST v request env w))
       = [Deferred
            (DbRun sql_insert_info
               [JStr (stored_path v (fd_file_id fd));
                JStr (upload_referer v request);
                JStr (Js.or_default (header request "CF-Connecting-IP") "IP not found");
                rating;
                JStr (w_now w)])].
Proof.
  intros Hv Hf Hs Hu Hb Hx Hdb.
  pose proof (extract_needs_ok v tg fd Hx) as Hok.
  destruct (rating_of_returns v env w (fd_file_id fd)) as (rating & tr & Hr & Hquiet & _).
  destruct (extraction_is_local v tg) as [Hlocal _].
  exists rating. split; [ rewrite Hr; reflexivity | ].
  destruct v; [ | | congruence ]; unfold extract_of in Hx, Hlocal; unfold rating_of in Hr.
  - destruct (CfileA.extractFileData tg) as [x tx] eqn:Hex; cbn in Hx, Hlocal; subst x.
    pose proof (deferred_insert_run UploadCfile DB w) as Hins.
    unfold_post_body. unfold trace in *.
    run_with ltac:(rewrite ?Hf, ?Hs, ?Hu, ?Hb, ?Hok, ?Hex, ?Hdb, ?Hr).
    destruct (CfileA.insertUploadData DB w _ _ _ rating _) as [ri ti] eqn:Hi.
    rewrite app_nil_r, filter_app, Hlocal, store_calls_of_deferred, filter_app, Hquiet.
    cbn [app map].
    specialize (Hins ("/api/cfile/" ++ fd_file_id fd)
                  (Js.or_default (header request "Referer") "Referer not found")
                  (Js.or_default (header request "CF-Connecting-IP") "IP not found")
                  rating (CfileA.getNowTime w) Hv).
    unfold trace in Hins. rewrite Hi in Hins. cbn [snd] in Hins.
    repeat match goal with H : (_, _) = (_, _) |- _ => injection H as ? ?; subst end.
    rewrite Hins. reflexivity.
  - destruct (Upload.extractFileData tg) as [x tx] eqn:Hex; cbn in Hx, Hlocal; subst x.
    pose proof (deferred_insert_run UploadPart DB w) as Hins.
    unfold_post_body. unfold trace in *.
    run_with ltac:(rewrite ?Hf, ?Hs, ?Hu, ?Hb, ?Hok, ?Hex, ?Hdb, ?Hr).
    destruct (Upload.insertImageData DB w _ _ _ rating _) as [ri ti] eqn:Hi.
    rewrite app_nil_r, filter_app, Hlocal, store_calls_of_deferred, filter_app, Hquiet.
    cbn [app map].
    specialize (Hins ("/cfile/" ++ fd_file_id fd)
                  (Js.or_default (header request "Referer") "Referer not found")
                  (Js.or_default (header request "CF-Connecting-IP") "IP not found")
                  rating (Upload.getNowTime w) Hv).
    unfold trace in Hins. rewrite Hi in Hins. cbn [snd] in Hins.
    repeat match goal with H : (_, _) = (_, _) |- _ => injection H as ? ?; subst end.
    rewrite Hins. reflexivity.
Qed.

(** X21.  An accepted tgchannel upload with a bound store answers 200, and
    the rating and the client address in its body are those of the one
    [INSERT] it has awaited, made for the path [/cfile/<file_id>] with
    the referer and the time. *)
Theorem X21_tgchannel_reports_what_it_records request env w file res tg fd DB :
  has_client_address request = true ->
  form_file request = FileEntry file ->
  w_send w = Ret res ->
  up_body res = Ret tg ->
  outcome (TgChannel.getFile tg) = Ret (Some fd) ->
  IMG env = Some DB ->
  exists rating clientIp,
    outcome (TgChannel.getRating env w (fd_file_id fd)) = Ret rating
    /\ status_of (outcome (POST UploadTgChannel request env w)) = Some 200
    /\ member_of "rating_index" (outcome (POST UploadTgChannel request env w)) = Some rating
    /\ member_of "clientIp" (outcome (POST UploadTgChannel request env w))
       = Some (JStr clientIp)
    /\ filter is_store_call (trace (POST UploadTgChannel request env w))
       = [DbRun (TgChannel.insert_statement ("/cfile/" ++ fd_file_id fd)
                   (upload_referer UploadTgChannel request) clientIp rating (w_now w))
            []].
Proof.
  intros Ha Hf Hs Hb Hx Hdb. unfold has_client_address in Ha.
  destruct (rating_of_returns UploadTgChannel env w (fd_file_id fd))
    as (rating & tr & Hr & Hquiet & _).
  destruct (extraction_is_local UploadTgChannel tg) as [Hlocal _].
  unfold rating_of in Hr. unfold extract_of in Hlocal.
  destruct (TgChannel.getFile tg) as [x tx] eqn:Hex; cbn in Hx, Hlocal; subst x.
  exists rating.
  unfold_post_body. unfold status_of, member_of, member, upload_referer, TgChannel.get_nowTime.
  run_with ltac:(rewrite ?Hf, ?Hs, ?Hb, ?selectEndpoint_rule, ?Hex, ?Hdb, ?Hr, ?tg_insert_run);
    try discriminate.
  all: eexists; split; [ reflexivity | ].
  all: repeat (split; [ reflexivity | ]).
  all: rewrite ?filter_app, ?Hlocal, ?Hquiet; reflexivity.
Qed.

Lemma X21_witness :
  has_client_address Sample.visitor = true
  /\ outcome (TgChannel.getFile (Sample.photo_message Sample.three_sizes))
     = Ret (Some (mkFileData "large" "u-large"))
  /\ exists rating clientIp,
       outcome (TgChannel.getRating Sample.env Sample.fine "large") = Ret rating
       /\ status_of (outcome (POST UploadTgChannel Sample.visitor Sample.env Sample.fine))
          = Some 200
       /\ member_of "rating_index"
            (outcome (POST UploadTgChannel Sample.visitor Sample.env Sample.fine))
          = Some rating
       /\ member_of "clientIp"
            (outcome (POST UploadTgChannel Sample.visitor Sample.env Sample.fine))
          = Some (JStr clientIp)
       /\ filter is_store_call
            (trace (POST UploadTgChannel Sample.visitor Sample.env Sample.fine))
          = [DbRun (TgChannel.insert_statement "/cfile/large" "https://else.example/page"
                      clientIp rating "2026-11-03 12:00:00") []].
Proof.
  split; [ reflexivity | split; [ reflexivity | ] ].
  exact (X21_tgchannel_reports_what_it_records Sample.visitor Sample.env Sample.fine
           Sample.jpeg (mkFetched 200 [] (Ret (Sample.photo_message Sample.three_sizes)))
           (Sample.photo_message Sample.three_sizes) (mkFileData "large" "u-large")
           Sample.blocked_rows eq_refl eq_refl eq_refl eq_refl eq_refl eq_refl).
Defined.

(** *** A record written by an upload, read by a retrieval *)

Lemma select_first_app (db : D1) (row : RatingRecord) (path : string) :
  select_first (db ++ [row])%list path
  = match select_first db path with
    | Some z => Some z
    | None => if String.eqb (url row) path then Some (rating row) else None
    end.
Proof.
  unfold select_first.
  induction db as [| r db IH]; cbn.
  - destruct (String.eqb (url row) path); reflexivity.
  - destruct (String.eqb (url r) path); [ reflexivity | exact IH ].
Qed.

Lemma store_after_filter (w : World) (t : list event) :
  forall db, store_after w db t = store_after w db (filter is_store_call t).
Proof.
  induction t as [| e t IH]; intros db; [ reflexivity | ].
  cbn [filter store_after]. unfold is_store_call.
  destruct (performed e) eqn:E; cbn [store_after]; rewrite ?E; auto.
  destruct (String.eqb sql sql_insert_info).
  - destruct (w_insert_info w); [ apply IH | ].
    destruct (add_record db args); [ apply IH | reflexivity ].
  - destruct (String.eqb sql sql_update_total).
    + destruct (w_update w); [ apply IH | ].
      destruct args as [| [] []]; try reflexivity; apply IH.
    + destruct (String.eqb sql sql_insert_log); [ apply IH | reflexivity ].
Qed.

(** The rows after an accepted upload whose rating is a number and whose
    insert the store lets succeed: one more, the upload's. *)
Lemma store_after_upload (v : upload) request env w file res tg fd DB z :
  v <> UploadTgChannel ->
  form_file request = FileEntry file ->
  w_send w = Ret res ->
  up_ok res = true ->
  up_body res = Ret tg ->
  outcome (extract_of v tg) = Ret (Some fd) ->
  IMG env = Some DB ->
  outcome (rating_of v env w (fd_file_id fd)) = Ret (JNum z) ->
  w_insert_info w = None ->
  store_after w DB (trace (POST v request env w))
  = Some (DB ++ [mkRatingRecord (stored_path v (fd_file_id fd))
                   (upload_referer v request)
                   (Js.or_default (header request "CF-Connecting-IP") "IP not found")
                   z 1 (w_now w)])%list.
Proof.
  intros Hv Hf Hs Hu Hb Hx Hdb Hz Hi.
  destruct (upload_store_calls v request env w file res tg fd DB Hv Hf Hs Hu Hb Hx Hdb)
    as (rating & Hr & Hcalls).
  assert (rating = JNum z) by congruence; subst rating.
  rewrite store_after_filter, Hcalls.
  cbn [store_after performed]. rewrite String.eqb_refl, Hi. reflexivity.
Qed.

Lemma stored_path_is_read (v : upload) (id : string) :
  v <> UploadTgChannel -> stored_path v id = retrieval_path (reader v) id.
Proof. destruct v; [ reflexivity | reflexivity | congruence ]. Qed.

(** X22.  After an accepted upload by a guarded handler whose rating is a
    number and whose insert succeeds, the lookup of the matching
    retrieval handler for the file finds that rating when the path had
    no row, and the older row's rating when it had one; the lookups of
    the other retrieval handler are as before. *)
Theorem X22_recorded_rating_is_found_again (v : upload) request env w file res tg fd DB z :
  v <> UploadTgChannel ->
  form_file request = FileEntry file ->
  w_send w = Ret res ->
  up_ok res = true ->
  up_body res = Ret tg ->
  outcome (extract_of v tg) = Ret (Some fd) ->
  IMG env = Some DB ->
  outcome (rating_of v env w (fd_file_id fd)) = Ret (JNum z) ->
  w_insert_info w = None ->
  exists DB',
    store_after w DB (trace (POST v request env w)) = Some DB'
    /\ (select_first DB (retrieval_path (reader v) (fd_file_id fd)) = None ->
        select_first DB' (retrieval_path (reader v) (fd_file_id fd)) = Some z)
    /\ (forall z',
          select_first DB (retrieval_path (reader v) (fd_file_id fd)) = Some z' ->
          select_first DB' (retrieval_path (reader v) (fd_file_id fd)) = Some z')
    /\ (forall id,
          select_first DB' (retrieval_path (other (reader v)) id)
          = select_first DB (retrieval_path (other (reader v)) id)).
Proof.
  intros Hv Hf Hs Hu Hb Hx Hdb Hz Hi.
  eexists. split; [ | split; [ | split ] ].
  - exact (store_after_upload v request env w file res tg fd DB z
             Hv Hf Hs Hu Hb Hx Hdb Hz Hi).
  - intros Hfresh. rewrite select_first_app, Hfresh.
    cbn [url rating]. rewrite (stored_path_is_read v _ Hv), String.eqb_refl. reflexivity.
  - intros z' Hold. rewrite select_first_app, Hold. reflexivity.
  - intros id. rewrite select_first_app.
    destruct (select_first DB _); [ reflexivity | ].
    destruct v; [ | | congruence ]; reflexivity.
Qed.

Lemma X22_witness :
  outcome (rating_of UploadCfile Sample.env_empty Sample.rated_three "large")
  = Ret (JNum 3)
  /\ select_first [] (retrieval_path RetrievalA "large") = None
  /\ exists DB',
       store_after Sample.rated_three []
         (trace (POST UploadCfile Sample.visitor Sample.env_empty Sample.rated_three))
       = Some DB'
       /\ select_first DB' (retrieval_path RetrievalA "large") = Some 3
       /\ select_first DB' (retrieval_path RetrievalB "large") = None.
Proof.
  split; [ reflexivity | split; [ reflexivity | ] ].
  destruct (X22_recorded_rating_is_found_again UploadCfile Sample.visitor Sample.env_empty
              Sample.rated_three Sample.jpeg
              (mkFetched 200 [] (Ret (Sample.photo_message Sample.three_sizes)))
              (Sample.photo_message Sample.three_sizes) (mkFileData "large" "u-large")
              [] 3 ltac:(discriminate) eq_refl eq_refl eq_refl eq_refl eq_refl eq_refl
              eq_refl eq_refl) as (DB' & Hs & Hnew & _ & Hother).
  exists DB'. split; [ exact Hs | split; [ exact (Hnew eq_refl) | ] ].
  exact (Hother "large").
Defined.




(** X24.  The only store statement of an accepted upload by a guarded handler
    with a bound store is one deferred [INSERT] into [imginfo], binding
    the handler's path for the file, the referer, the client address,
    the rating that the rating function returned and the time. *)
Theorem X24_bookkeeping_records_the_rating (v : upload) request env w file res tg fd DB :
  v <> UploadTgChannel ->
  form_file request = FileEntry file ->
  w_send w = Ret res ->
  up_ok res = true ->
  up_body res = Ret tg ->
  outcome (extract_of v tg) = Ret (Some fd) ->
  IMG env = Some DB ->
  exists rating,
    outcome (rating_of v env w (fd_file_id fd)) = Ret rating
    /\ filter is_store_call (trace (POST v request env w))
       = [Deferred (DbRun sql_insert_info
            [JStr (stored_path v (fd_file_id fd)); JStr (upload_referer v request);
             JStr (Js.or_default (header request "CF-Connecting-IP") "IP not found");
             rating; JStr (w_now w)])].
Proof. exact (upload_store_calls v request env w file res tg fd DB). Qed.

Lemma X24_witness :
  outcome (extract_of UploadPart (Sample.photo_message Sample.three_sizes))
  = Ret (Some (mkFileData "large" "u-large"))
  /\ IMG Sample.env = Some Sample.blocked_rows
  /\ exists rating,
       outcome (rating_of UploadPart Sample.env Sample.fine "large") = Ret rating
       /\ filter is_store_call (trace (POST UploadPart Sample.visitor Sample.env Sample.fine))
          = [Deferred (DbRun sql_insert_info
               [JStr "/cfile/large"; JStr "https://else.example/page";
                JStr "IP not found"; rating; JStr "2026-11-03 12:00:00"])].
Proof.
  split; [ reflexivity | split; [ reflexivity | ] ].
  exact (X24_bookkeeping_records_the_rating UploadPart Sample.visitor Sample.env Sample.fine
           Sample.jpeg (mkFetched 200 [] (Ret (Sample.photo_message Sample.three_sizes)))
           (Sample.photo_message Sample.three_sizes) (mkFileData "large" "u-large")
           Sample.blocked_rows
           ltac:(discriminate) eq_refl eq_refl eq_refl eq_refl eq_refl eq_refl).
Defined.

(** X25.  Every response of an upload handler is a JSON object with the
    handler's fixed headers, and its status is 200, 400, 500 or 502 in
    the guarded handlers, 200 or 500 in the tgchannel handler.  The
    guarded handlers answer every request; the tgchannel handler answers
    every request that tells a client address and carries a file. *)
Theorem X25_upload_response_shape (v : upload) request env w :
  (forall resp,
     outcome (POST v request env w) = Ret resp -> well_formed_upload_response v resp)
  /\ (v <> UploadTgChannel
      \/ (has_client_address request = true /\ exists file, form_file request = FileEntry file) ->
      exists resp, outcome (POST v request env w) = Ret resp).
Proof.
  split.
  - intros resp. unfold well_formed_upload_response, upload_statuses, upload_headers.
    destruct v; unfold_post_body.
    + run; open_extraction; run; intros H; injection H as <-; cbn;
        (split; [ reflexivity | split; [ eexists; reflexivity | tauto ] ]).
    + run; open_extraction; run; intros H; injection H as <-; cbn;
        (split; [ reflexivity | split; [ eexists; reflexivity | tauto ] ]).
    + run_with ltac:(rewrite ?selectEndpoint_rule, ?tg_insert_run; open_extraction;
                     open_rating);
        intros H; try discriminate; injection H as <-; cbn;
        (split; [ reflexivity | split; [ eexists; reflexivity | tauto ] ]).
  - intros [Hv | [Ha (file & Hf)]].
    + destruct v; [ | | congruence ]; unfold POST, CfileA.POST, Upload.POST;
        apply (M_catch_total (A := Response)); intros msg; eexists; reflexivity.
    + unfold has_client_address in Ha. unfold_post_body. revert Ha.
      run_with ltac:(rewrite ?Hf, ?selectEndpoint_rule, ?tg_insert_run; open_extraction;
                     open_rating);
        intros; try discriminate; eexists; reflexivity.
Qed.

Lemma X25_witness :
  well_formed_upload_response UploadPart
    (mkResponse 400 Upload.jsonHeaders
       (BodyJson [("message", JStr "File not provided or is invalid.")]))
  /\ exists resp,
       outcome (POST UploadTgChannel Sample.visitor Sample.env Sample.fine) = Ret resp.
Proof.
  split.
  - exact (proj1 (X25_upload_response_shape UploadPart Sample.no_file Sample.env Sample.fine)
             _ eq_refl).
  - exact (proj2 (X25_upload_response_shape UploadTgChannel Sample.visitor Sample.env
                    Sample.fine)
             (or_intror (conj eq_refl (ex_intro _ Sample.jpeg eq_refl)))).
Defined.

(** *** Inserts, the rating helper that nothing calls, and the time text *)

(** X26.  The helpers that insert into [imginfo] never throw: each sends its
    one statement and returns; the three with a bound statement write
    one console line when the statement fails and none when it
    succeeds, the tgchannel one is silent. *)
Theorem X26_info_inserts_swallow_failures DB w target referer ip rating time :
  Forall (swallowed (w_insert_info w)
            (DbRun sql_insert_info [JStr target; JStr referer; JStr ip; rating; JStr time]))
    [CfileA.insertUploadData DB w target referer ip rating time;
     CfileB.insertImgInfo DB w target referer ip rating time;
     Upload.insertImageData DB w target referer ip rating time]
  /\ TgChannel.insertImageData DB w target referer ip rating time
     = (Ret tt, [DbRun (TgChannel.insert_statement target referer ip rating time) []]).
Proof.
  unfold swallowed, never, count, CfileA.insertUploadData, CfileB.insertImgInfo,
    Upload.insertImageData, TgChannel.insertImageData, db_run, console, emit.
  split.
  - destruct (w_insert_info w); repeat constructor.
  - destruct (w_insert_info w); reflexivity.
Qed.

(** X27.  [getModerateContentRating] always returns and never touches the
    store: 0 with nothing performed when no service is configured;
    otherwise the [rating_index] of the answer, or -1 when the answer
    has none or the call fails, after one GET of the base ([RATINGAPI]
    and [?], else the ModerateContent URL with the key) followed by the
    [telegra.ph] URL of the path. *)
Theorem X27_moderate_content_rating env w target :
  exists r,
    outcome (CfileB.getModerateContentRating env w target) = Ret r
    /\ never is_store_call (trace (CfileB.getModerateContentRating env w target))
    /\ (configured env = false ->
        r = JNum 0 /\ trace (CfileB.getModerateContentRating env w target) = [])
    /\ (configured env = true ->
        r = match w_rating w with
            | Ret (Ret data) =>
                match rating_index data with Some v => v | None => JNum (-1) end
            | _ => JNum (-1)
            end)
    /\ (forall custom,
          Js.truthy (RATINGAPI env) = Some custom ->
          filter is_outbound (trace (CfileB.getModerateContentRating env w target))
          = [HttpGet ((custom ++ "?") ++ "url=https://telegra.ph" ++ target)])
    /\ (forall key,
          Js.truthy (RATINGAPI env) = None ->
          Js.truthy (ModerateContentApiKey env) = Some key ->
          filter is_outbound (trace (CfileB.getModerateContentRating env w target))
          = [HttpGet (("https://api.moderatecontent.com/moderate/?key=" ++ key ++ "&")
                      ++ "url=https://telegra.ph" ++ target)]).
Proof.
  unfold configured, never, CfileB.getModerateContentRating, fetch_json, await, console, emit.
  destruct (Js.truthy (RATINGAPI env)) as [custom |] eqn:Hc.
  - rewrite truthy_with_mark.
    destruct (w_rating w) as [[data | msg] | msg]; cbn;
      (eexists; split; [ reflexivity | ]; split; [ reflexivity | ];
       split; [ destruct (Js.truthy (ModerateContentApiKey env)); discriminate | ];
       split; [ reflexivity | ];
       split; [ intros c Hc'; injection Hc' as <-; reflexivity | discriminate ]).
  - destruct (ModerateContentApiKey env) as [[| a key] |] eqn:Hk;
      cbn [Js.truthy].
    + cbn. eexists; split; [ reflexivity | ]; split; [ reflexivity | ];
        split; [ split; reflexivity | ]; split; [ discriminate | ];
        split; discriminate.
    + change (Js.truthy (Some ("https://api.moderatecontent.com/moderate/?key="
                               ++ String a key ++ "&")))
        with (Some ("https://api.moderatecontent.com/moderate/?key="
                    ++ String a key ++ "&")).
      destruct (w_rating w) as [[data | msg] | msg]; cbn;
        (eexists; split; [ reflexivity | ]; split; [ reflexivity | ];
         split; [ discriminate | ]; split; [ reflexivity | ];
         split; [ discriminate | intros k _ Hk'; injection Hk' as <-; reflexivity ]).
    + cbn. eexists; split; [ reflexivity | ]; split; [ reflexivity | ];
        split; [ split; reflexivity | ]; split; [ discriminate | ];
        split; discriminate.
Qed.

Lemma X27_witness :
  Js.truthy (RATINGAPI Sample.env_custom) = Some "https://rate.example/check"
  /\ filter is_outbound
       (trace (CfileB.getModerateContentRating Sample.env_custom Sample.fine "/file/a.jpg"))
     = [HttpGet "https://rate.example/check?url=https://telegra.ph/file/a.jpg"].
Proof.
  split; [ reflexivity | ].
  destruct (X27_moderate_content_rating Sample.env_custom Sample.fine "/file/a.jpg")
    as (r & _ & _ & _ & _ & Hcustom & _).
  exact (Hcustom "https://rate.example/check" eq_refl).
Defined.

Lemma dashes_no_slash (s : string) :
  has_slash (CfileB.dashes s) = false
  /\ String.length (CfileB.dashes s) = String.length s
  /\ (has_slash s = false -> CfileB.dashes s = s).
Proof.
  induction s as [| a r (IH1 & IH2 & IH3)]; [ repeat split | ].
  cbn. destruct (Ascii.eqb a "/") eqn:Ea; cbn.
  - rewrite IH1, IH2. repeat split. discriminate.
  - rewrite Ea, IH1, IH2. repeat split. intros Hr. rewrite (IH3 Hr). reflexivity.
Qed.

(** X28.  The time text of the second retrieval handler, made of the parts of
    the formatter, has no slash, is as long as the joined parts, and is
    the joined parts when no part has a slash. *)
Theorem X28_formatted_date_has_no_slash (parts : list string) :
  has_slash (CfileB.formattedDate parts) = false
  /\ String.length (CfileB.formattedDate parts) = String.length (String.concat "" parts)
  /\ (forallb (fun p => negb (has_slash p)) parts = true ->
      CfileB.formattedDate parts = String.concat "" parts).
Proof.
  unfold CfileB.formattedDate.
  destruct (dashes_no_slash (String.concat "" parts)) as (H1 & H2 & H3).
  repeat split; try assumption.
  intros Hp. apply H3. clear H1 H2 H3.
  induction parts as [| p [| q parts] IH]; [ reflexivity | | ].
  - cbn in Hp |- *. rewrite andb_true_r in Hp. apply negb_true_iff in Hp. exact Hp.
  - cbn [forallb] in Hp. apply andb_true_iff in Hp as [Hp Hrest].
    apply negb_true_iff in Hp.
    change (String.concat "" (p :: q :: parts))
      with (p ++ "" ++ String.concat "" (q :: parts)).
    rewrite !has_slash_app, Hp, (IH Hrest). reflexivity.
Qed.

(** *** A photo entry without a size *)

Lemma larger_unsized (x y : TgFile) :
  file_size x = None \/ file_size y = None -> larger x y = y.
Proof.
  unfold larger, greater. intros [-> | ->]; [ reflexivity | ].
  destruct (file_size x); reflexivity.
Qed.

Lemma reduce_unsized (before : list TgFile) (p q : TgFile) :
  file_size p = None \/ file_size q = None ->
  reduce larger (before ++ [p; q]) = (Ret q, []).
Proof.
  intros H. unfold reduce.
  destruct before as [| b bs]; cbn [app fold_left].
  - rewrite (larger_unsized p q H). reflexivity.
  - rewrite fold_left_app. cbn [fold_left].
    destruct H as [Hp | Hq].
    + rewrite (larger_unsized _ p (or_intror Hp)), (larger_unsized p q (or_introl Hp)).
      reflexivity.
    + rewrite (larger_unsized _ q (or_intror Hq)). reflexivity.
Qed.

(** X29.  In a photo list whose last entry, or the entry before it,
    carries no [file_size], the extraction takes the last entry,
    whatever the sizes of the entries: a comparison with a missing size
    is false, so the entry without a size displaces the one kept so far
    and is displaced by the next. *)
Theorem X29_entry_without_size_is_displaced (v : upload) tg r before p q :
  ok tg = true ->
  result tg = Some r ->
  photo r = Some (before ++ [p; q])%list ->
  file_size p = None \/ file_size q = None ->
  outcome (extract_of v tg)
  = Ret (Some (mkFileData (file_id q)
                 match v with
                 | UploadTgChannel => name_or_unique q
                 | _ => file_unique_id q
                 end)).
Proof.
  intros Hok Hres Hph Hsize.
  destruct v; unfold extract_of, CfileA.extractFileData, Upload.extractFileData,
    TgChannel.getFile, TgChannel.getFileDetails;
    rewrite Hok, Hres, Hph; cbn [negb]; rewrite (reduce_unsized before p q Hsize);
    reflexivity.
Qed.

Lemma X29_witness :
  map file_size Sample.unsized_middle = [Some 5000; None; Some 1000]
  /\ outcome (extract_of UploadCfile (Sample.photo_message Sample.unsized_middle))
     = Ret (Some (mkFileData "small" "u-small"))
  /\ outcome (extract_of UploadTgChannel (Sample.photo_message Sample.unsized_middle))
     = Ret (Some (mkFileData "small" "u-small")).
Proof.
  split; [ reflexivity | split ].
  - exact (X29_entry_without_size_is_displaced UploadCfile
             (Sample.photo_message Sample.unsized_middle)
             (mkTgResult (Some Sample.unsized_middle) None None None)
             [Sample.size "big" 5000] (mkTgFile "bare" "u-bare" None None)
             (Sample.size "small" 1000) eq_refl eq_refl eq_refl (or_introl eq_refl)).
  - exact (X29_entry_without_size_is_displaced UploadTgChannel
             (Sample.photo_message Sample.unsized_middle)
             (mkTgResult (Some Sample.unsized_middle) None None None)
             [Sample.size "big" 5000] (mkTgFile "bare" "u-bare" None None)
             (Sample.size "small" 1000) eq_refl eq_refl eq_refl (or_introl eq_refl)).
Defined.
